(** * histolab: the [Slide] and [SlideSet] classes of [src/histolab/slide.py]

    A shallow embedding of the two classes and of the parts of the Python
    runtime they rest on (integer true division, [math.floor], string
    formatting, [posixpath] and [ntpath]), followed by the properties of
    the resampling, path naming and aggregation logic. *)

From Stdlib Require Import ZArith List String Ascii Bool Lia.
From Stdlib Require Import DecimalString DecimalPos DecimalZ.
Import ListNotations.

Open Scope string_scope.
Open Scope Z_scope.

(* ================================================================== *)
(** ** Python runtime: exceptions and results *)

(** An exception is identified by the name of its class and carries a
    message. *)
Record exn := Exn { exn_class : string; exn_msg : string }.

Inductive result (A : Type) : Type :=
| Ok (a : A)
| Raise (e : exn).
Arguments Ok {A} a.
Arguments Raise {A} e.

Definition rbind {A B} (r : result A) (k : A -> result B) : result B :=
  match r with
  | Ok a => k a
  | Raise e => Raise e
  end.

Definition ZeroDivisionError := Exn "ZeroDivisionError" "division by zero".
Definition OverflowError :=
  Exn "OverflowError" "integer division result too large for a float".
Definition TypeError (msg : string) := Exn "TypeError" msg.
Definition ValueError (msg : string) := Exn "ValueError" msg.

(** The values a dimension slot can hold: an [int], or [None]. *)
Inductive pyval := PNone | PInt (z : Z).

Definition pyval_eqb (a b : pyval) : bool :=
  match a, b with
  | PNone, PNone => true
  | PInt x, PInt y => x =? y
  | _, _ => false
  end.

(* ================================================================== *)
(** ** Python runtime: [int / int] and [math.floor]

    [a / b] on two [int]s is the IEEE 754 binary64 number nearest to the
    exact quotient (ties to even); it raises [ZeroDivisionError] when
    [b] is 0 and [OverflowError] when the rounded quotient is out of the
    binary64 range.  A float is kept as a signed mantissa and a binary
    exponent. *)

Definition DBL_MANT_DIG : Z := 53.
Definition DBL_MAX_EXP : Z := 1024.
Definition DBL_MIN_EXP : Z := -1021.

(** [PyFloat m e] is the number [m * 2^e]. *)
Record pyfloat := PyFloat { f_mant : Z; f_exp : Z }.

(** Nearest integer to [num / den], ties to even ([0 <= num], [0 < den]). *)
Definition round_half_even (num den : Z) : Z :=
  let q := num / den in
  let r := num mod den in
  match 2 * r ?= den with
  | Lt => q
  | Gt => q + 1
  | Eq => if Z.even q then q else q + 1
  end.

(** Exponent of the unit in the last place of the binary64 nearest to
    [na / nb], for [0 < na] and [0 < nb]. *)
Definition ulp_exponent (na nb : Z) : Z :=
  let d := Z.log2 na - Z.log2 nb in
  let e1 :=
    if nb * 2 ^ Z.max 0 d <=? na * 2 ^ Z.max 0 (- d)
    then d - (DBL_MANT_DIG - 1)
    else d - DBL_MANT_DIG in
  Z.max e1 (DBL_MIN_EXP - DBL_MANT_DIG).

Definition int_true_divide (a b : Z) : result pyfloat :=
  if b =? 0 then Raise ZeroDivisionError
  else if a =? 0 then Ok (PyFloat 0 0)
  else
    let na := Z.abs a in
    let nb := Z.abs b in
    let e := ulp_exponent na nb in
    let m := round_half_even (na * 2 ^ Z.max 0 (- e)) (nb * 2 ^ Z.max 0 e) in
    if 2 ^ DBL_MAX_EXP <=? m * 2 ^ Z.max 0 e
    then Raise OverflowError
    else Ok (PyFloat (Z.sgn a * Z.sgn b * m) e).

(** [x / y] on dimension slots: [None] has no [/]. *)
Definition py_truediv (x : pyval) (y : Z) : result pyfloat :=
  match x with
  | PInt a => int_true_divide a y
  | PNone =>
      Raise (TypeError "unsupported operand type(s) for /: 'NoneType' and 'int'")
  end.

(** [math.floor] of a finite float: the largest [int] not above it. *)
Definition math_floor (f : pyfloat) : Z :=
  if 0 <=? f_exp f
  then f_mant f * 2 ^ f_exp f
  else f_mant f / 2 ^ (- f_exp f).

(** [x * y] on dimension slots. *)
Definition py_mul (x y : pyval) : result Z :=
  match x, y with
  | PInt a, PInt b => Ok (a * b)
  | _, _ => Raise (TypeError "unsupported operand type(s) for *")
  end.

(** [str(i)] / [f"{i}"] for an [int]. *)
Definition str_of_int (z : Z) : string := NilZero.string_of_int (Z.to_int z).

(** [f"{v}"] for a dimension slot. *)
Definition format_pyval (v : pyval) : string :=
  match v with
  | PNone => "None"
  | PInt z => str_of_int z
  end.

(* ================================================================== *)
(** ** Python runtime: strings and slices *)

Definition ascii_is (c a : ascii) : bool := Ascii.eqb a c.

(** [s[:i]] and [s[i:]] for [0 <= i]. *)
Fixpoint str_take (n : nat) (s : string) : string :=
  match n, s with
  | S n', String a s' => String a (str_take n' s')
  | _, _ => ""
  end.

Fixpoint str_drop (n : nat) (s : string) : string :=
  match n, s with
  | S n', String _ s' => str_drop n' s'
  | _, _ => s
  end.

Definition slice_to (s : string) (i : Z) : string := str_take (Z.to_nat i) s.
Definition slice_from (s : string) (i : Z) : string := str_drop (Z.to_nat i) s.

(** [s.find(c, start)] counted from position [i] of the remaining text:
    index of the first [c], or -1. *)
Fixpoint find_at (c : ascii) (s : string) (i : Z) : Z :=
  match s with
  | "" => -1
  | String a s' => if ascii_is c a then i else find_at c s' (i + 1)
  end.

Definition str_find (c : ascii) (s : string) (start : Z) : Z :=
  find_at c (slice_from s start) start.

(** [s.rfind(c)]: index of the last [c], or -1. *)
Fixpoint rfind_at (c : ascii) (s : string) (i last : Z) : Z :=
  match s with
  | "" => last
  | String a s' => rfind_at c s' (i + 1) (if ascii_is c a then i else last)
  end.

Definition str_rfind (c : ascii) (s : string) : Z := rfind_at c s 0 (-1).

(** [s.replace(c, d)] for single characters. *)
Fixpoint str_replace (c d : ascii) (s : string) : string :=
  match s with
  | "" => ""
  | String a s' => String (if ascii_is c a then d else a) (str_replace c d s')
  end.

(** [s.split(c)[0]]: the text before the first [c], all of [s] when there
    is none. *)
Fixpoint split_first (c : ascii) (s : string) : string :=
  match s with
  | "" => ""
  | String a s' => if ascii_is c a then "" else String a (split_first c s')
  end.

Definition startswith (c : ascii) (s : string) : bool :=
  match s with
  | String a _ => ascii_is c a
  | "" => false
  end.

Fixpoint endswith (c : ascii) (s : string) : bool :=
  match s with
  | "" => false
  | String a "" => ascii_is c a
  | String _ s' => endswith c s'
  end.

(** [s.rstrip(c)]. *)
Fixpoint rstrip (c : ascii) (s : string) : string :=
  match s with
  | "" => ""
  | String a s' =>
      match rstrip c s' with
      | "" => if ascii_is c a then "" else String a ""
      | t => String a t
      end
  end.

Fixpoint all_chars (c : ascii) (s : string) : bool :=
  match s with
  | "" => true
  | String a s' => ascii_is c a && all_chars c s'
  end.

(** [s.lower()] on ASCII text. *)
Definition ascii_lower (a : ascii) : ascii :=
  let n := nat_of_ascii a in
  if (65 <=? n)%nat && (n <=? 90)%nat then ascii_of_nat (n + 32) else a.

Fixpoint str_lower (s : string) : string :=
  match s with
  | "" => ""
  | String a s' => String (ascii_lower a) (str_lower s')
  end.

(** [l[:n]] on a list, with Python's reading of a negative bound. *)
Definition py_slice_to {A} (l : list A) (n : Z) : list A :=
  if n <? 0
  then firstn (Z.to_nat (Z.of_nat (List.length l) + n)) l
  else firstn (Z.to_nat n) l.

(* ================================================================== *)
(** ** [os.path] (the POSIX flavour, [posixpath]) *)

Module posixpath.

Definition sep : ascii := "/"%char.
Definition extsep : ascii := "."%char.

(** One round of the loop of [join]. *)
Definition join1 (path b : string) : string :=
  if startswith sep b then b
  else if String.eqb path "" || endswith sep path then path ++ b
  else path ++ String sep b.

(** [os.path.join(a, *p)]. *)
Definition join (a : string) (p : list string) : string :=
  fold_left join1 p a.

(** [os.path.dirname(p)]. *)
Definition dirname (p : string) : string :=
  let i := str_rfind sep p + 1 in
  let head := slice_to p i in
  if negb (String.eqb head "") && negb (all_chars sep head)
  then rstrip sep head
  else head.

(** [os.path.splitext(p)]: the extension starts at the last dot of the
    last path component, unless only dots precede it there (the loop
    of [genericpath._splitext] leaves with the split at the first
    character of the component that is not a dot). *)
Definition splitext (p : string) : string * string :=
  let sepIndex := str_rfind sep p in
  let dotIndex := str_rfind extsep p in
  if sepIndex <? dotIndex then
    if all_chars extsep (slice_from (slice_to p dotIndex) (sepIndex + 1))
    then (p, "")
    else (slice_to p dotIndex, slice_from p dotIndex)
  else (p, "").

End posixpath.

(* ================================================================== *)
(** ** [ntpath] *)

Module ntpath.

Definition sep : ascii := ascii_of_nat 92.
Definition altsep : ascii := "/"%char.
Definition colon : ascii := ":"%char.

Definition str_len (s : string) : Z := Z.of_nat (String.length s).

(** [ntpath.splitdrive(p)]. *)
Definition splitdrive (p : string) : string * string :=
  if 2 <=? str_len p then
    let normp := str_replace altsep sep p in
    if String.eqb (slice_to normp 2) (String sep (String sep ""))
       && negb (String.eqb (slice_to (slice_from normp 2) 1) (String sep ""))
    then
      let index := str_find sep normp 2 in
      if index =? -1 then ("", p)
      else
        let index2 := str_find sep normp (index + 1) in
        if index2 =? index + 1 then ("", p)
        else
          let index2 := if index2 =? -1 then str_len p else index2 in
          (slice_to p index2, slice_from p index2)
    else if String.eqb (slice_to (slice_from normp 1) 1) (String colon "")
    then (slice_to p 2, slice_from p 2)
    else ("", p)
  else ("", p).

(** [ntpath.basename(p)], the second component of [ntpath.split(p)]:
    what follows the last slash or backslash of [p] without its
    drive. *)
Definition basename (p : string) : string :=
  let '(_, p) := splitdrive p in
  let i := Z.max (str_rfind sep p) (str_rfind altsep p) + 1 in
  slice_from p i.

End ntpath.

(* ================================================================== *)
(** ** The world: slide containers, directory listings, written files *)

(** What [openslide.open_slide] hands back; only [dimensions] is read
    here, the pixel data stays opaque. *)
Record wsi := Wsi { wsi_dimensions : pyval * pyval }.

(** Images are known by where they come from and their requested size. *)
Inductive image :=
| Resized (src : string) (size : pyval * pyval)
| ThumbnailOf (src : string) (box : Z * Z).

(** Writes to the file system, in the order they happen. *)
Inductive event :=
| MakeDirs (p : string)            (* os.makedirs(p, exist_ok=True) *)
| Mkdir (p : string)               (* pathlib.Path(p).mkdir(exist_ok=True) *)
| ImageSave (img : image) (p : string).  (* img.save(p) *)

(** The world holds what the collaborators answer and what has been
    written so far:
    - [open_slide p]: [openslide.open_slide(p)];
    - [listdir p]: [os.listdir(p)];
    - [trace]: the writes carried out, oldest first;
    - [fs_error ev]: the error with which the file system refuses the
      write [ev], [None] when it carries it out;
    - [best_level p f]: [get_best_level_for_downsample(f)] on the
      container at [p];
    - [read_region p level]: reading the whole of [level] from the
      container at [p] ([level_dimensions[level]], [read_region]) and
      converting it to RGB;
    - [get_thumbnail p]: [get_thumbnail((300, 300))] on the container
      at [p]. *)
Record world := World {
  open_slide : string -> result wsi;
  listdir : string -> result (list string);
  trace : list event;
  fs_error : event -> option exn;
  best_level : string -> Z -> result Z;
  read_region : string -> Z -> result unit;
  get_thumbnail : string -> result unit
}.

(** The file extensions Pillow has a writer registered for, as far as
    this module can meet them: every file it saves is named [....png],
    so the extension [Image.save] sees is [.png], or empty when nothing
    but dots precedes the last dot of the file name. *)
Definition PIL_EXTENSION : list string :=
  [".png"; ".apng"; ".jpg"; ".jpeg"; ".tif"; ".tiff"; ".bmp"; ".gif"].

(** What the libraries refuse by themselves, whatever the file system:
    [os.makedirs] of the empty path, and [Image.save] to a file name
    whose extension has no registered format. *)
Definition library_check (ev : event) : result unit :=
  match ev with
  | MakeDirs p =>
      if String.eqb p ""
      then Raise (Exn "FileNotFoundError" "[Errno 2] No such file or directory: ''")
      else Ok tt
  | Mkdir _ => Ok tt
  | ImageSave _ p =>
      let ext := str_lower (snd (posixpath.splitext p)) in
      if existsb (String.eqb ext) PIL_EXTENSION
      then Ok tt
      else Raise (Exn "ValueError" ("unknown file extension: " ++ ext))
  end.

(** The outcome of a write: the library's own check, then the answer of
    the file system. *)
Definition write_outcome (w : world) (ev : event) : result unit :=
  match library_check ev with
  | Raise e => Raise e
  | Ok _ =>
      match fs_error w ev with
      | Some e => Raise e
      | None => Ok tt
      end
  end.

(** Computations that read the world, may log writes and may raise. *)
Definition M (A : Type) : Type := world -> result A * world.

Definition ret {A} (a : A) : M A := fun w => (Ok a, w).

Definition bind {A B} (c : M A) (k : A -> M B) : M B :=
  fun w =>
    match c w with
    | (Ok a, w') => k a w'
    | (Raise e, w') => (Raise e, w')
    end.

Definition raise {A} (e : exn) : M A := fun w => (Raise e, w).

Definition lift {A} (r : result A) : M A := fun w => (r, w).

(** A write: logged when it is carried out, raising otherwise. *)
Definition emit (ev : event) : M unit :=
  fun w =>
    match write_outcome w ev with
    | Ok _ =>
        (Ok tt,
         World (open_slide w) (listdir w) (trace w ++ [ev])%list (fs_error w)
           (best_level w) (read_region w) (get_thumbnail w))
    | Raise e => (Raise e, w)
    end.

Notation "x <- c ;; k" := (bind c (fun x => k))
  (at level 61, c at next level, right associativity).
Notation "' pat <- c ;; k" := (bind c (fun x => match x with pat => k end))
  (at level 61, pat pattern, c at next level, right associativity).
Notation "c ;; k" := (bind c (fun _ => k))
  (at level 61, right associativity).

(** [for x in l: body(x)]. *)
Fixpoint for_each {A} (l : list A) (body : A -> M unit) : M unit :=
  match l with
  | [] => ret tt
  | x :: rest => body x ;; for_each rest body
  end.

(* ================================================================== *)
(** ** class Slide *)

Definition IMG_EXT : string := "png".
Definition THUMBNAIL_SIZE : Z := 300.

Module Slide.

Record t := Make { _path : string; _processed_path : string }.

(** The classes [except openslide.OpenSlideError] catches: the class
    itself and the subclasses the library defines.  [FileNotFoundError]
    has no subclass. *)
Definition OpenSlideError_classes : list string :=
  ["OpenSlideError"; "OpenSlideUnsupportedFormatError"; "OpenSlideVersionError"].

(** The [_wsi] property: opens the container anew on every access.  An
    exception of a class of [OpenSlideError] is replaced by a new
    [OpenSlideError], a [FileNotFoundError] by a new [FileNotFoundError];
    any other exception passes through. *)
Definition _wsi (self : t) : M wsi :=
  fun w =>
    match open_slide w (_path self) with
    | Ok slide => (Ok slide, w)
    | Raise e =>
        if existsb (String.eqb (exn_class e)) OpenSlideError_classes then
          (Raise (Exn "OpenSlideError"
             "Your wsi has something broken inside, a doctor is needed"), w)
        else if String.eqb (exn_class e) "FileNotFoundError" then
          (Raise (Exn "FileNotFoundError"
             "The wsi path resource doesn't exist"), w)
        else (Raise e, w)
    end.

Definition dimensions (self : t) : M (pyval * pyval) :=
  slide <- _wsi self ;;
  ret (wsi_dimensions slide).

Definition name (self : t) : string :=
  split_first "." (ntpath.basename (_path self)).

Definition _resampled_dimensions (self : t) (scale_factor : Z)
  : M (pyval * pyval * pyval * pyval) :=
  ' (large_w, large_h) <- dimensions self ;;
  fw <- lift (py_truediv large_w scale_factor) ;;
  let new_w := PInt (math_floor fw) in
  fh <- lift (py_truediv large_h scale_factor) ;;
  let new_h := PInt (math_floor fh) in
  ret (large_w, large_h, new_w, new_h).

(** The file name of the wildcard branch and of the regular branch. *)
Definition wildcard_name (self : t) : string :=
  name self ++ "*." ++ IMG_EXT.

Definition full_name (self : t) (scale_factor : Z)
  (large_w large_h new_w new_h : pyval) : string :=
  name self ++ "-" ++ str_of_int scale_factor ++ "x-"
    ++ format_pyval large_w ++ "x" ++ format_pyval large_h ++ "-"
    ++ format_pyval new_w ++ "x" ++ format_pyval new_h ++ "." ++ IMG_EXT.

Definition _breadcumb (self : t) (directory_path : string) (scale_factor : Z)
  : M string :=
  ' (large_w, large_h, new_w, new_h) <- _resampled_dimensions self scale_factor ;;
  if pyval_eqb large_w PNone && pyval_eqb large_h PNone
     && pyval_eqb new_w PNone && pyval_eqb new_h PNone
  then ret (posixpath.join directory_path [wildcard_name self])
  else ret (posixpath.join directory_path
              [full_name self scale_factor large_w large_h new_w new_h]).

Definition scaled_image_path (self : t) (scale_factor : Z) : M string :=
  _breadcumb self (_processed_path self) scale_factor.

Definition thumbnail_path (self : t) : string :=
  posixpath.join (_processed_path self)
    ["thumbnails"; name self ++ "." ++ IMG_EXT].

(** [Image.resize(size, BILINEAR)]: a size below 1 x 1 is refused. *)
Definition pil_resize (size : pyval * pyval) : result unit :=
  match size with
  | (PInt w, PInt h) =>
      if (w <? 1) || (h <? 1)
      then Raise (ValueError "height and width must be > 0")
      else Ok tt
  | _ => Raise (TypeError "an integer is required")
  end.

(** [_resample] returns the resized image (and the same image as an
    array, left out here).  The container is reopened for the level
    query, for [read_region] and for [level_dimensions]; each of the
    level query and the reading of the region can raise, and so does
    [resize] for a size below 1 x 1. *)
Definition _resample (self : t) (scale_factor : Z) : M image :=
  ' (large_w, large_h, new_w, new_h) <- _resampled_dimensions self scale_factor ;;
  _ <- _wsi self ;;
  level <- (fun w => (best_level w (_path self) scale_factor, w)) ;;
  _ <- _wsi self ;;
  _ <- _wsi self ;;
  _ <- (fun w => (read_region w (_path self) level, w)) ;;
  _ <- lift (pil_resize (new_w, new_h)) ;;
  ret (Resized (_path self) (new_w, new_h)).

Definition save_scaled_image (self : t) (scale_factor : Z) : M unit :=
  emit (MakeDirs (_processed_path self)) ;;
  img <- _resample self scale_factor ;;
  p <- scaled_image_path self scale_factor ;;
  emit (ImageSave img p).

(** [save_thumbnail(self)] takes no argument besides [self]; [args] are
    the positional arguments of the call. *)
Definition save_thumbnail (self : t) (args : list Z) : M unit :=
  match args with
  | [] =>
      emit (MakeDirs (_processed_path self)) ;;
      _ <- _wsi self ;;
      _ <- (fun w => (get_thumbnail w (_path self), w)) ;;
      let img := ThumbnailOf (_path self) (THUMBNAIL_SIZE, THUMBNAIL_SIZE) in
      let folder := posixpath.dirname (thumbnail_path self) in
      emit (Mkdir folder) ;;
      emit (ImageSave img (thumbnail_path self))
  | _ :: _ =>
      raise (TypeError
        ("save_thumbnail() takes 1 positional argument but "
           ++ str_of_int (1 + Z.of_nat (List.length args)) ++ " were given"))
  end.

(** The [_extension] property. *)
Definition _extension (self : t) : string :=
  snd (posixpath.splitext (_path self)).

End Slide.

(* ================================================================== *)
(** ** Python runtime: [max], [min], [sum] and dictionaries *)

(** [a > b] and [a < b] on dimension slots; [None] is not ordered. *)
Definition py_gt (a b : pyval) : result bool :=
  match a, b with
  | PInt x, PInt y => Ok (y <? x)
  | _, _ => Raise (TypeError "'>' not supported between these instances")
  end.

Definition py_lt (a b : pyval) : result bool :=
  match a, b with
  | PInt x, PInt y => Ok (x <? y)
  | _, _ => Raise (TypeError "'<' not supported between these instances")
  end.

(** The scan of [max(l, key=key)] and [min(l, key=key)]: the kept item
    is replaced only by a strictly better one. *)
Fixpoint best_by {A} (better : pyval -> pyval -> result bool)
  (key : A -> pyval) (cur : A) (l : list A) : result A :=
  match l with
  | [] => Ok cur
  | x :: rest =>
      rbind (better (key x) (key cur)) (fun b =>
        best_by better key (if b then x else cur) rest)
  end.

Definition py_max {A} (key : A -> pyval) (l : list A) : result A :=
  match l with
  | [] => Raise (ValueError "max() arg is an empty sequence")
  | x :: rest => best_by py_gt key x rest
  end.

Definition py_min {A} (key : A -> pyval) (l : list A) : result A :=
  match l with
  | [] => Raise (ValueError "min() arg is an empty sequence")
  | x :: rest => best_by py_lt key x rest
  end.

(** [sum(...)] of dimension slots, starting from the [int] 0. *)
Fixpoint sum_from (acc : Z) (l : list pyval) : result Z :=
  match l with
  | [] => Ok acc
  | PInt z :: rest => sum_from (acc + z) rest
  | PNone :: _ =>
      Raise (TypeError "unsupported operand type(s) for +: 'int' and 'NoneType'")
  end.

Definition py_sum (l : list pyval) : result Z := sum_from 0 l.

(** Objects stored in the statistics record.  A dictionary written as a
    literal with distinct keys keeps them in the order written. *)
Inductive scalar :=
| SStr (s : string)
| SNum (v : pyval).

Inductive pyobj :=
| ONum (v : pyval)
| OFloat (f : pyfloat)
| ODict (d : list (string * scalar)).

(** [d[k]], [None] standing for [KeyError]. *)
Fixpoint dict_get {V} (k : string) (d : list (string * V)) : option V :=
  match d with
  | [] => None
  | (k', v) :: rest => if String.eqb k k' then Some v else dict_get k rest
  end.

Definition dict_keys {V} (d : list (string * V)) : list string := map fst d.

(* ================================================================== *)
(** ** class SlideSet *)

(** One item of [slides_dimensions]. *)
Record slide_dims := SlideDims {
  d_wsi : string;
  d_width : pyval;
  d_height : pyval;
  d_size : pyval
}.

(** What is handed to the plotting backend: the x and y of the scatter
    and the marker size. *)
Record figure := Figure {
  fig_x : list pyval;
  fig_y : list pyval;
  fig_sizes : Z
}.

Module SlideSet.

Record t := Make {
  _slides_path : string;
  _processed_path : string;
  _valid_wsi_extensions : list string
}.

(** [ext in self._valid_wsi_extensions]. *)
Definition valid_extension (self : t) (ext : string) : bool :=
  existsb (String.eqb ext) (_valid_wsi_extensions self).

(** The list comprehension of [slides] over the directory entries. *)
Fixpoint slides_of (self : t) (entries : list string) : list Slide.t :=
  match entries with
  | [] => []
  | wsi_path :: rest =>
      if valid_extension self (snd (posixpath.splitext wsi_path))
      then Slide.Make (posixpath.join (_slides_path self) [wsi_path])
                      (_processed_path self)
           :: slides_of self rest
      else slides_of self rest
  end.

Definition slides (self : t) : M (list Slide.t) :=
  fun w => (rbind (listdir w (_slides_path self))
              (fun entries => Ok (slides_of self entries)), w).

Definition total_slides (self : t) : M Z :=
  l <- slides self ;;
  ret (Z.of_nat (List.length l)).

(** One item of the comprehension of [slides_dimensions]; every
    [slide.dimensions] opens the container again. *)
Definition dims_of (slide : Slide.t) : M slide_dims :=
  let wsi_name := Slide.name slide in
  d1 <- Slide.dimensions slide ;;
  d2 <- Slide.dimensions slide ;;
  d3 <- Slide.dimensions slide ;;
  d4 <- Slide.dimensions slide ;;
  size <- lift (py_mul (fst d3) (snd d4)) ;;
  ret (SlideDims wsi_name (fst d1) (snd d2) (PInt size)).

Fixpoint map_M {A B} (f : A -> M B) (l : list A) : M (list B) :=
  match l with
  | [] => ret []
  | x :: rest =>
      y <- f x ;;
      ys <- map_M f rest ;;
      ret (y :: ys)
  end.

Definition slides_dimensions (self : t) : M (list slide_dims) :=
  l <- slides self ;;
  map_M dims_of l.

Definition avg_of (key : slide_dims -> pyval) (self : t) : M pyobj :=
  ds <- slides_dimensions self ;;
  total <- lift (py_sum (map key ds)) ;;
  n <- total_slides self ;;
  f <- lift (int_true_divide total n) ;;
  ret (OFloat f).

Definition _avg_width_slide := avg_of d_width.
Definition _avg_height_slide := avg_of d_height.
Definition _avg_size_slide := avg_of d_size.

Definition _max_height_slide (self : t) : M pyobj :=
  ds <- slides_dimensions self ;;
  max_height <- lift (py_max d_height ds) ;;
  ret (ODict [("slide", SStr (d_wsi max_height));
              ("height", SNum (d_height max_height))]).

Definition _max_size_slide (self : t) : M pyobj :=
  ds <- slides_dimensions self ;;
  max_size <- lift (py_max d_size ds) ;;
  ret (ODict [("slide", SStr (d_wsi max_size));
              ("size", SNum (d_size max_size))]).

Definition _max_width_slide (self : t) : M pyobj :=
  ds <- slides_dimensions self ;;
  max_width <- lift (py_max d_width ds) ;;
  ret (ODict [("slide", SStr (d_wsi max_width));
              ("width", SNum (d_width max_width))]).

Definition _min_width_slide (self : t) : M pyobj :=
  ds <- slides_dimensions self ;;
  min_width <- lift (py_min d_width ds) ;;
  ret (ODict [("slide", SStr (d_wsi min_width));
              ("width", SNum (d_width min_width))]).

Definition _min_height_slide (self : t) : M pyobj :=
  ds <- slides_dimensions self ;;
  min_height <- lift (py_min d_height ds) ;;
  ret (ODict [("slide", SStr (d_wsi min_height));
              ("height", SNum (d_height min_height))]).

Definition _min_size_slide (self : t) : M pyobj :=
  ds <- slides_dimensions self ;;
  min_size <- lift (py_min d_size ds) ;;
  ret (ODict [("slide", SStr (d_wsi min_size));
              ("height", SNum (d_size min_size))]).

(** [x, y = zip] of the unpacked list of dimensions. *)
Definition unzip_dims (dims : list (pyval * pyval))
  : result (list pyval * list pyval) :=
  match dims with
  | [] => Raise (ValueError "not enough values to unpack (expected 2, got 0)")
  | _ :: _ => Ok (map fst dims, map snd dims)
  end.

(** [slides_stats]; the timer ([Time] of [histolab.util], with its
    [elapsed_display]) only prints and the random colours of the scatter
    are left out. *)
Definition slides_stats (self : t) : M (list (string * pyobj) * figure) :=
  no_of_slides <- total_slides self ;;
  max_width <- _max_width_slide self ;;
  max_height <- _max_height_slide self ;;
  max_size <- _max_size_slide self ;;
  min_width <- _min_width_slide self ;;
  min_height <- _min_height_slide self ;;
  min_size <- _min_size_slide self ;;
  avg_width <- _avg_width_slide self ;;
  avg_height <- _avg_height_slide self ;;
  avg_size <- _avg_size_slide self ;;
  let basic_stats :=
    [("no_of_slides", ONum (PInt no_of_slides));
     ("max_width", max_width);
     ("max_height", max_height);
     ("max_size", max_size);
     ("min_width", min_width);
     ("min_height", min_height);
     ("min_size", min_size);
     ("avg_width", avg_width);
     ("avg_height", avg_height);
     ("avg_size", avg_size)] in
  l <- slides self ;;
  dims <- map_M Slide.dimensions l ;;
  ' (x, y) <- lift (unzip_dims dims) ;;
  _ <- total_slides self ;;
  total <- total_slides self ;;
  let sizes := 8 * total in
  ret (basic_stats, Figure x y sizes).

(** [n = self.total_slides if (n > self.total_slides or n == 0) else n]. *)
Definition clamp_n (self : t) (n : Z) : M Z :=
  total <- total_slides self ;;
  if (total <? n) || (n =? 0) then total_slides self else ret n.

Definition save_rescaled_slides (self : t) (n : Z) : M unit :=
  emit (MakeDirs (_processed_path self)) ;;
  n <- clamp_n self n ;;
  l <- slides self ;;
  for_each (py_slice_to l n) (fun slide => Slide.save_scaled_image slide 32).

Definition save_thumbnails (self : t) (scale_factor n : Z) : M unit :=
  emit (MakeDirs (_processed_path self)) ;;
  n <- clamp_n self n ;;
  l <- slides self ;;
  for_each (py_slice_to l n)
    (fun slide => Slide.save_thumbnail slide [scale_factor]).

End SlideSet.

(* ================================================================== *)
(** ** Vocabulary of the statements *)

(** Replacing the log of writes. *)
Definition with_trace (w : world) (t : list event) : world :=
  World (open_slide w) (listdir w) t (fs_error w) (best_level w) (read_region w)
    (get_thumbnail w).

(** A computation that only reads: it leaves the world as it found it and
    its result does not depend on what has been written. *)
Definition reader {A} (c : M A) : Prop :=
  forall w, snd (c w) = w /\ forall t, fst (c (with_trace w t)) = fst (c w).

(** The bound of the slice of [save_rescaled_slides], once clamped. *)
Definition clamped (total n : Z) : Z :=
  if (total <? n) || (n =? 0) then total else n.

(** The writes of one [save_scaled_image(32)]: the directory, then the
    resampled image at the scaled image path. *)
Definition saved_by (w : world) (s : Slide.t) (evs : list event) : Prop :=
  exists img p,
    fst (Slide._resample s 32 w) = Ok img /\
    fst (Slide.scaled_image_path s 32 w) = Ok p /\
    evs = [MakeDirs (Slide._processed_path s); ImageSave img p].

Definition is_image_save (ev : event) : bool :=
  match ev with
  | ImageSave _ _ => true
  | _ => false
  end.

(** The filter of the comprehension of [slides] and the accessor it
    builds. *)
Definition has_valid_extension (self : SlideSet.t) (entry : string) : bool :=
  existsb (String.eqb (snd (posixpath.splitext entry)))
    (SlideSet._valid_wsi_extensions self).

Definition accessor (self : SlideSet.t) (entry : string) : Slide.t :=
  Slide.Make (posixpath.join (SlideSet._slides_path self) [entry])
    (SlideSet._processed_path self).

(** How many accessors of [l] were built for [entry]. *)
Definition accessors_for (self : SlideSet.t) (entry : string) (l : list Slide.t)
  : nat :=
  List.length
    (filter (fun s => String.eqb (Slide._path s)
                        (Slide._path (accessor self entry))) l).

(** [c in s] for a character. *)
Fixpoint has_char (c : ascii) (s : string) : bool :=
  match s with
  | "" => false
  | String a s' => ascii_is c a || has_char c s'
  end.

(** Neither a slash nor a backslash occurs in [s]. *)
Definition no_separator (s : string) : Prop :=
  has_char "/" s = false /\ has_char ntpath.sep s = false.

(** The [int] held by a dimension slot. *)
Definition int_of (v : pyval) : Z :=
  match v with
  | PInt z => z
  | PNone => 0
  end.

(** The sum of the keys of the records, as [int]s. *)
Definition sum_of (key : slide_dims -> pyval) (ds : list slide_dims) : Z :=
  fold_right (fun d acc => int_of (key d) + acc) 0 ds.

(** [d] is the record of [slides_dimensions] for the slide [s]: its name,
    the dimensions of its container and their product. *)
Definition dims_record (w : world) (s : Slide.t) (d : slide_dims) : Prop :=
  exists W H,
    open_slide w (Slide._path s) = Ok (Wsi (PInt W, PInt H)) /\
    d = SlideDims (Slide.name s) (PInt W) (PInt H) (PInt (W * H)).

(** [m] is the first item of [ds] whose key no other item beats:
    [better a b] reads "the key [a] beats the key [b]". *)
Definition first_extremum (better : Z -> Z -> Prop) (key : slide_dims -> pyval)
  (ds : list slide_dims) (m : slide_dims) : Prop :=
  exists l1 l2,
    ds = (l1 ++ m :: l2)%list /\
    (forall d, In d l1 -> better (int_of (key m)) (int_of (key d))) /\
    (forall d, In d l2 -> ~ better (int_of (key d)) (int_of (key m))).

(** The statistics entry of an extremal slide. *)
Definition extremal_entry (key_name : string) (key : slide_dims -> pyval)
  (m : slide_dims) : pyobj :=
  ODict [("slide", SStr (d_wsi m)); (key_name, SNum (key m))].

(* ================================================================== *)
(** ** Example data *)

(** A world where nothing has been written, the file system carries out
    every write and the pixels of every container can be read. *)
Definition quiet_world (open : string -> result wsi)
  (listing : string -> result (list string)) : world :=
  World open listing [] (fun _ => None) (fun _ _ => Ok 0) (fun _ _ => Ok tt)
    (fun _ => Ok tt).

(** Every path opens as a container of the given dimensions; the
    directory holds the given entries. *)
Definition world_dir (entries : list string) (dims : pyval * pyval) : world :=
  quiet_world (fun _ => Ok (Wsi dims)) (fun _ => Ok entries).

Definition world_3200x1600 : world := world_dir [] (PInt 3200, PInt 1600).

(** A container whose width needs 54 bits. *)
Definition world_54bit : world := world_dir [] (PInt (2 ^ 53 + 1), PInt 1).

Definition world_empty_dir : world := world_dir [] (PInt 100, PInt 100).

Definition world_one_slide : world := world_dir ["a.svs"] (PInt 100, PInt 100).

Definition world_missing : world :=
  quiet_world
    (fun _ => Raise (Exn "FileNotFoundError" "No such file or directory"))
    (fun _ => Ok []).

Definition demo_entries : list string :=
  ["a.svs"; "b.tiff"; "notes.txt"; "c.svs"].

(** Three containers of 100 x 100, 200 x 50 and 50 x 300 pixels next to
    a text file. *)
Definition world_three_slides : world :=
  quiet_world
    (fun p =>
       if String.eqb p "/data/a.svs" then Ok (Wsi (PInt 100, PInt 100))
       else if String.eqb p "/data/b.tiff" then Ok (Wsi (PInt 200, PInt 50))
       else if String.eqb p "/data/c.svs" then Ok (Wsi (PInt 50, PInt 300))
       else Raise (Exn "FileNotFoundError" "No such file or directory"))
    (fun _ => Ok demo_entries).

Definition demo_set : SlideSet.t := SlideSet.Make "/data" "/out" [".svs"; ".tiff"].

(** The records of the three containers. *)
Definition demo_dims : list slide_dims :=
  [SlideDims "a" (PInt 100) (PInt 100) (PInt 10000);
   SlideDims "b" (PInt 200) (PInt 50) (PInt 10000);
   SlideDims "c" (PInt 50) (PInt 300) (PInt 15000)].

(** The second container is broken. *)
Definition world_broken_second : world :=
  quiet_world
    (fun p =>
       if String.eqb p "/data/b.tiff"
       then Raise (Exn "OpenSlideError" "Unsupported or missing image file")
       else Ok (Wsi (PInt 100, PInt 100)))
    (fun _ => Ok demo_entries).

(** One slide of 20 x 20 pixels, smaller than the scale factor 32. *)
Definition world_tiny_slide : world := world_dir ["a.svs"] (PInt 20, PInt 20).

(** The format of the container is not supported. *)
Definition world_unsupported : world :=
  quiet_world
    (fun _ => Raise (Exn "OpenSlideUnsupportedFormatError"
                       "Unsupported or missing image file"))
    (fun _ => Ok ["a.svs"]).

(** The output directory is on a read-only file system. *)
Definition world_read_only : world :=
  World (fun _ => Ok (Wsi (PInt 100, PInt 100))) (fun _ => Ok ["a.svs"]) []
    (fun _ => Some (Exn "OSError" "[Errno 30] Read-only file system"))
    (fun _ _ => Ok 0) (fun _ _ => Ok tt) (fun _ => Ok tt).

(* ================================================================== *)
(** ** Properties *)

(** *** The floor of a true division

    Rounding the quotient to a float and then taking its floor gives the
    floor of the exact quotient as long as the dividend is below
    [2^53]. *)

Section FloorOfQuotient.

Lemma round_half_even_cases num den :
  round_half_even num den = num / den \/
  (round_half_even num den = num / den + 1 /\ den <= 2 * (num mod den)).
Proof.
  unfold round_half_even.
  destruct (2 * (num mod den) ?= den) eqn:C.
  - apply Z.compare_eq in C. destruct (Z.even (num / den)); [now left | right; lia].
  - now left.
  - right. apply Z.compare_gt_iff in C. lia.
Qed.

Lemma floor_round_scaled a b k :
  0 <= a -> 0 < b -> 0 <= k -> b < 2 ^ (k + 1) ->
  round_half_even (a * 2 ^ k) b / 2 ^ k = a / b.
Proof.
  intros Ha Hb Hk Hlt.
  rewrite Z.pow_add_r in Hlt by lia. change (2 ^ 1) with 2 in Hlt.
  assert (HP : 0 < 2 ^ k) by (apply Z.pow_pos_nonneg; lia).
  set (P := 2 ^ k) in *.
  pose proof (Z.div_mod a b ltac:(lia)) as Ea.
  pose proof (Z.mod_pos_bound a b Hb) as Ra.
  set (Q := a / b) in *. set (r := a mod b) in *.
  pose proof (Z.div_mod (a * P) b ltac:(lia)) as En.
  pose proof (Z.mod_pos_bound (a * P) b Hb) as Rn.
  set (n := a * P / b) in *. set (s := (a * P) mod b) in *.
  assert (Hn1 : Q * P <= n) by nia.
  assert (Hn2 : n < Q * P + P) by nia.
  symmetry. 
  destruct (round_half_even_cases (a * P) b) as [E | [E Hup]]; fold n in E; rewrite E.
  - apply Z.div_unique with (r := n - Q * P); lia.
  - fold s in Hup.
    apply Z.div_unique with (r := n + 1 - Q * P); [|lia].
    left. split; [lia|].
    assert (n + 1 <> Q * P + P) by nia. lia.
Qed.

Lemma floor_round_tiny a b k :
  0 <= a -> 0 < b -> 53 <= k -> a * 2 ^ k < b * 2 ^ 52 ->
  round_half_even (a * 2 ^ k) b / 2 ^ k = a / b.
Proof.
  intros Ha Hb Hk Hlt.
  assert (HP : 2 ^ 53 <= 2 ^ k) by (apply Z.pow_le_mono_r; lia).
  assert (a < b) by nia.
  rewrite (Z.div_small a b) by lia.
  assert (Hn : a * 2 ^ k / b < 2 ^ 52) by (apply Z.div_lt_upper_bound; lia).
  assert (0 <= a * 2 ^ k / b) by (apply Z.div_pos; nia).
  apply Z.div_small.
  destruct (round_half_even_cases (a * 2 ^ k) b) as [E | [E _]]; rewrite E; lia.
Qed.

End FloorOfQuotient.

Section ExactBelowMantissa.

Variables a b : Z.
Hypothesis Ha : 0 < a < 2 ^ 53.
Hypothesis Hb : 0 < b.

Let la := Z.log2 a.
Let lb := Z.log2 b.
Let d := la - lb.
Let e1 := if b * 2 ^ Z.max 0 d <=? a * 2 ^ Z.max 0 (- d) then d - 52 else d - 53.

Lemma log2_a_bounds : 0 <= la <= 52 /\ 2 ^ la <= a < 2 ^ (la + 1).
Proof.
  pose proof (Z.log2_spec a ltac:(lia)) as S. fold la in S.
  pose proof (Z.log2_nonneg a) as N. fold la in N.
  split; [split; [lia|] | exact S].
  assert (la < 53); [|lia].
  apply (Z.pow_lt_mono_r_iff 2); lia.
Qed.

Lemma log2_b_bounds : 0 <= lb /\ 2 ^ lb <= b < 2 ^ (lb + 1).
Proof.
  pose proof (Z.log2_spec b Hb) as S. pose proof (Z.log2_nonneg b) as N.
  fold lb in S, N. lia.
Qed.

Lemma e1_nonpos : e1 <= 0.
Proof.
  pose proof log2_a_bounds. pose proof log2_b_bounds.
  unfold e1, d. destruct (_ <=? _); lia.
Qed.

(** The quotient is below [2^53] units in the last place. *)
Lemma e1_upper : a * 2 ^ (- e1) < b * 2 ^ 53.
Proof.
  destruct log2_a_bounds as [La [La1 La2]]. destruct log2_b_bounds as [Lb [Lb1 Lb2]].
  unfold e1. destruct (_ <=? _) eqn:T.
  - replace (- (d - 52)) with (lb + (52 - la)) by (unfold d; lia).
    assert (E : 2 ^ 53 = 2 ^ (la + 1) * 2 ^ (52 - la)).
    { rewrite <- Z.pow_add_r by lia. f_equal. lia. }
    rewrite E, (Z.pow_add_r 2 lb) by lia.
    assert (0 < 2 ^ (52 - la)) by (apply Z.pow_pos_nonneg; lia).
    assert (0 < 2 ^ lb) by (apply Z.pow_pos_nonneg; lia).
    assert (a * 2 ^ lb < b * 2 ^ (la + 1)) by nia.
    rewrite !Z.mul_assoc.
    apply Z.mul_lt_mono_pos_r; assumption.
  - apply Z.leb_gt in T.
    destruct (Z.le_gt_cases 0 d) as [D | D].
    + rewrite (Z.max_r 0 d), (Z.max_l 0 (- d)) in T by lia.
      replace (- (d - 53)) with (53 - d) by lia.
      assert (E : 2 ^ 53 = 2 ^ d * 2 ^ (53 - d)).
      { rewrite <- Z.pow_add_r by lia. f_equal. lia. }
      rewrite E.
      assert (0 < 2 ^ (53 - d)) by (apply Z.pow_pos_nonneg; lia).
      change (2 ^ 0) with 1 in T. rewrite Z.mul_assoc.
      apply Z.mul_lt_mono_pos_r; lia.
    + rewrite (Z.max_l 0 d), (Z.max_r 0 (- d)) in T by lia.
      replace (- (d - 53)) with (- d + 53) by lia.
      rewrite Z.pow_add_r by lia.
      change (2 ^ 0) with 1 in T. rewrite Z.mul_assoc.
      apply Z.mul_lt_mono_pos_r; [reflexivity | lia].
Qed.

(** The divisor is below two units in the last place of an integer. *)
Lemma e1_divisor : b < 2 ^ (- e1 + 1).
Proof.
  destruct log2_a_bounds as [La [La1 La2]]. destruct log2_b_bounds as [Lb [Lb1 Lb2]].
  unfold e1. destruct (_ <=? _) eqn:T.
  - apply Z.leb_le in T.
    destruct (Z.le_gt_cases 0 d) as [D | D].
    + rewrite (Z.max_r 0 d), (Z.max_l 0 (- d)) in T by lia.
      change (2 ^ 0) with 1 in T.
      assert (0 < 2 ^ d) by (apply Z.pow_pos_nonneg; lia).
      assert (E : 2 ^ 53 = 2 ^ d * 2 ^ (- (d - 52) + 1)).
      { rewrite <- Z.pow_add_r by lia. f_equal. lia. }
      nia.
    + rewrite (Z.max_l 0 d), (Z.max_r 0 (- d)) in T by lia.
      change (2 ^ 0) with 1 in T.
      replace (- (d - 52) + 1) with (- d + 53) by lia.
      rewrite Z.pow_add_r by lia.
      assert (0 < 2 ^ (- d)) by (apply Z.pow_pos_nonneg; lia).
      nia.
  - apply Z.lt_le_trans with (1 := Lb2).
    apply Z.pow_le_mono_r; unfold d; lia.
Qed.

End ExactBelowMantissa.

Lemma int_true_divide_floor a b :
  0 <= a < 2 ^ 53 -> 0 < b ->
  exists f, int_true_divide a b = Ok f /\ math_floor f = a / b.
Proof.
  intros Ha Hb. unfold int_true_divide.
  destruct (b =? 0) eqn:Eb; [apply Z.eqb_eq in Eb; lia|].
  destruct (a =? 0) eqn:Ea.
  { apply Z.eqb_eq in Ea. subst a. eexists; split; [reflexivity|].
    unfold math_floor; simpl. now rewrite Z.div_0_l by lia. }
  apply Z.eqb_neq in Ea.
  assert (Ha' : 0 < a < 2 ^ 53) by lia.
  rewrite (Z.abs_eq a), (Z.abs_eq b) by lia.
  pose proof (e1_nonpos a b Ha' Hb) as E1.
  pose proof (e1_upper a b Ha' Hb) as U.
  pose proof (e1_divisor a b Ha' Hb) as Dv.
  cbv zeta in E1, U, Dv.
  unfold ulp_exponent, DBL_MANT_DIG, DBL_MIN_EXP.
  change (53 - 1) with 52. change (-1021 - 53) with (-1074).
  set (e1 := if _ <=? _ then _ else _) in *.
  set (e := Z.max e1 (-1074)).
  assert (He : e <= 0) by lia.
  rewrite (Z.max_r 0 (- e)), (Z.max_l 0 e) by lia.
  change (2 ^ 0) with 1. rewrite !Z.mul_1_r.
  set (k := - e).
  assert (Hk : 0 <= k <= 1074) by lia.
  assert (Up : a * 2 ^ k < b * 2 ^ 53).
  { apply Z.le_lt_trans with (2 := U).
    apply Z.mul_le_mono_nonneg_l; [lia|]. apply Z.pow_le_mono_r; lia. }
  assert (Fl : round_half_even (a * 2 ^ k) b / 2 ^ k = a / b).
  { destruct (Z.lt_ge_cases b (2 ^ (k + 1))) as [Hs | Hl].
    - apply floor_round_scaled; lia.
    - assert (k = 1074).
      { destruct (Z.eq_dec e e1) as [Q | Q]; [|lia].
        exfalso. unfold k in Hl. rewrite Q in Hl. lia. }
      subst k. apply floor_round_tiny; try lia.
      rewrite H in *. 
      assert (2 ^ 53 * 2 ^ 1074 = 2 ^ 1075 * 2 ^ 52) by reflexivity.
      change (1074 + 1) with 1075 in Hl. nia. }
  assert (Hm : round_half_even (a * 2 ^ k) b <= 2 ^ 53).
  { assert (a * 2 ^ k / b < 2 ^ 53) by (apply Z.div_lt_upper_bound; lia).
    destruct (round_half_even_cases (a * 2 ^ k) b) as [E | [E _]]; rewrite E; lia. }
  destruct (2 ^ DBL_MAX_EXP <=? _) eqn:Ov.
  { apply Z.leb_le in Ov. exfalso.
    assert (2 ^ 53 < 2 ^ DBL_MAX_EXP) by reflexivity. lia. }
  eexists; split; [reflexivity|].
  unfold math_floor; cbn [f_mant f_exp].
  rewrite (Z.sgn_pos a), (Z.sgn_pos b) by lia.
  rewrite !Z.mul_1_l.
  assert (Hke : k = - e) by reflexivity.
  clearbody k. clearbody e.
  destruct (0 <=? e) eqn:Z0.
  - apply Z.leb_le in Z0. assert (e = 0) by lia. subst e k.
    change (- 0) with 0 in *. change (2 ^ 0) with 1 in *.
    rewrite Z.div_1_r in Fl. rewrite Z.mul_1_r. exact Fl.
  - subst k. exact Fl.
Qed.

Section Readers.

Lemma reader_ret {A} (a : A) : reader (ret a).
Proof. intros w; split; reflexivity. Qed.

Lemma reader_lift {A} (r : result A) : reader (lift r).
Proof. intros w; split; reflexivity. Qed.

Lemma reader_raise {A} (e : exn) : reader (@raise A e).
Proof. intros w; split; reflexivity. Qed.

Lemma reader_bind {A B} (c : M A) (k : A -> M B) :
  reader c -> (forall a, reader (k a)) -> reader (bind c k).
Proof.
  intros Hc Hk w. unfold bind. split.
  - destruct (Hc w) as [S _]. destruct (c w) as [[a | e] w']; simpl in *; subst.
    + apply Hk.
    + reflexivity.
  - intros t.
    destruct (Hc w) as [S F]. specialize (F t).
    destruct (Hc (with_trace w t)) as [S' _].
    destruct (c w) as [[a | e] w1]; destruct (c (with_trace w t)) as [[a' | e'] w2];
      simpl in *; subst; try discriminate.
    + injection F as ->. apply Hk.
    + injection F as ->. reflexivity.
Qed.

Lemma reader_run {A} (c : M A) w : reader c -> c w = (fst (c w), w).
Proof. intros H. destruct (H w) as [S _]. destruct (c w); simpl in *; now subst. Qed.

Lemma bind_reader_ok {A B} (c : M A) (k : A -> M B) w a :
  reader c -> fst (c w) = Ok a -> bind c k w = k a w.
Proof. intros H E. unfold bind. rewrite (reader_run c w H), E. reflexivity. Qed.

Lemma bind_reader_raise {A B} (c : M A) (k : A -> M B) w e :
  reader c -> fst (c w) = Raise e -> bind c k w = (Raise e, w).
Proof. intros H E. unfold bind. rewrite (reader_run c w H), E. reflexivity. Qed.

Lemma reader_wsi self : reader (Slide._wsi self).
Proof.
  intros w; unfold Slide._wsi; split.
  - destruct (open_slide w _); [reflexivity|].
    destruct (existsb _ _); [reflexivity|].
    destruct (String.eqb _ _); reflexivity.
  - intros t. unfold with_trace; cbn [open_slide].
    destruct (open_slide w _); [reflexivity|].
    destruct (existsb _ _); [reflexivity|].
    destruct (String.eqb _ _); reflexivity.
Qed.

Lemma reader_dimensions self : reader (Slide.dimensions self).
Proof. apply reader_bind; [apply reader_wsi | intros; apply reader_ret]. Qed.

Lemma reader_resampled_dimensions self sf :
  reader (Slide._resampled_dimensions self sf).
Proof.
  apply reader_bind; [apply reader_dimensions | intros [lw lh]].
  apply reader_bind; [apply reader_lift | intros fw].
  apply reader_bind; [apply reader_lift | intros fh].
  apply reader_ret.
Qed.

Lemma reader_breadcumb self dir sf : reader (Slide._breadcumb self dir sf).
Proof.
  apply reader_bind; [apply reader_resampled_dimensions | intros [[[lw lh] nw] nh]].
  destruct (_ && _); apply reader_ret.
Qed.

Lemma reader_scaled_image_path self sf : reader (Slide.scaled_image_path self sf).
Proof. apply reader_breadcumb. Qed.

Lemma reader_query {A} (f : world -> result A) :
  (forall w t, f (with_trace w t) = f w) -> reader (fun w => (f w, w)).
Proof. intros H w. split; [reflexivity | intros t; apply H]. Qed.

Lemma reader_resample self sf : reader (Slide._resample self sf).
Proof.
  apply reader_bind; [apply reader_resampled_dimensions | intros [[[lw lh] nw] nh]].
  apply reader_bind; [apply reader_wsi | intros ?].
  apply reader_bind; [now apply reader_query | intros level].
  apply reader_bind; [apply reader_wsi | intros ?].
  apply reader_bind; [apply reader_wsi | intros ?].
  apply reader_bind; [now apply reader_query | intros ?].
  apply reader_bind; [apply reader_lift | intros ?].
  apply reader_ret.
Qed.

Lemma reader_slides self : reader (SlideSet.slides self).
Proof. intros w; split; reflexivity. Qed.

Lemma reader_total_slides self : reader (SlideSet.total_slides self).
Proof. apply reader_bind; [apply reader_slides | intros; apply reader_ret]. Qed.

Lemma reader_clamp_n self n : reader (SlideSet.clamp_n self n).
Proof.
  apply reader_bind; [apply reader_total_slides | intros total].
  destruct (_ || _); [apply reader_total_slides | apply reader_ret].
Qed.

End Readers.

(** *** What [_resampled_dimensions] computes *)

Lemma dimensions_ok self w W H :
  open_slide w (Slide._path self) = Ok (Wsi (W, H)) ->
  fst (Slide.dimensions self w) = Ok (W, H).
Proof.
  intros E. unfold Slide.dimensions, bind, Slide._wsi. now rewrite E.
Qed.

Lemma dimensions_inv self w d :
  fst (Slide.dimensions self w) = Ok d ->
  open_slide w (Slide._path self) = Ok (Wsi d).
Proof.
  unfold Slide.dimensions, bind, Slide._wsi.
  destruct (open_slide w _) as [[d'] | e].
  - simpl. now intros [= ->].
  - destruct (existsb _ _); [discriminate|].
    destruct (String.eqb _ _); discriminate.
Qed.

Lemma resampled_dimensions_inv self sf w lw lh nw nh :
  fst (Slide._resampled_dimensions self sf w) = Ok (lw, lh, nw, nh) ->
  exists W H fw fh,
    open_slide w (Slide._path self) = Ok (Wsi (PInt W, PInt H)) /\
    lw = PInt W /\ lh = PInt H /\
    int_true_divide W sf = Ok fw /\ nw = PInt (math_floor fw) /\
    int_true_divide H sf = Ok fh /\ nh = PInt (math_floor fh).
Proof.
  unfold Slide._resampled_dimensions.
  destruct (fst (Slide.dimensions self w)) as [[a b] | e] eqn:D.
  - rewrite (bind_reader_ok _ _ w (a, b) (reader_dimensions self) D).
    apply dimensions_inv in D.
    unfold bind, lift, ret.
    destruct a as [| W]; simpl; [discriminate|].
    destruct (int_true_divide W sf) as [fw | e] eqn:EW; simpl; [|discriminate].
    destruct b as [| H]; simpl; [discriminate|].
    destruct (int_true_divide H sf) as [fh | e] eqn:EH; simpl; [|discriminate].
    intros [= <- <- <- <-]. exists W, H, fw, fh. repeat split; assumption.
  - rewrite (bind_reader_raise _ _ w e (reader_dimensions self) D). discriminate.
Qed.

Lemma resampled_dimensions_ok self sf w W H fw fh :
  open_slide w (Slide._path self) = Ok (Wsi (PInt W, PInt H)) ->
  int_true_divide W sf = Ok fw ->
  int_true_divide H sf = Ok fh ->
  fst (Slide._resampled_dimensions self sf w)
  = Ok (PInt W, PInt H, PInt (math_floor fw), PInt (math_floor fh)).
Proof.
  intros E EW EH. unfold Slide._resampled_dimensions.
  rewrite (bind_reader_ok _ _ w _ (reader_dimensions self) (dimensions_ok _ _ _ _ E)).
  unfold bind, lift, ret; simpl. rewrite EW, EH. reflexivity.
Qed.

(** Below [2^53] the detour through a float loses nothing. *)
Lemma resampled_dimensions_exact self sf w W H :
  open_slide w (Slide._path self) = Ok (Wsi (PInt W, PInt H)) ->
  0 < sf -> 0 <= W < 2 ^ 53 -> 0 <= H < 2 ^ 53 ->
  fst (Slide._resampled_dimensions self sf w)
  = Ok (PInt W, PInt H, PInt (W / sf), PInt (H / sf)).
Proof.
  intros E Hsf HW HH.
  destruct (int_true_divide_floor W sf HW Hsf) as [fw [EW FW]].
  destruct (int_true_divide_floor H sf HH Hsf) as [fh [EH FH]].
  rewrite (resampled_dimensions_ok _ _ _ _ _ _ _ E EW EH), FW, FH. reflexivity.
Qed.

(** *** Strings and [posixpath.join] *)

Lemma str_app_assoc (a b c : string) : (a ++ b) ++ c = a ++ (b ++ c).
Proof. induction a as [| x a IH]; simpl; [reflexivity | now rewrite IH]. Qed.

Lemma str_app_inv_head (a b c : string) : a ++ b = a ++ c -> b = c.
Proof. induction a as [| x a IH]; simpl; [trivial | intros [= E]; auto]. Qed.

Lemma startswith_app c (pre s1 s2 : string) :
  startswith c s1 = startswith c s2 ->
  startswith c (pre ++ s1) = startswith c (pre ++ s2).
Proof. destruct pre; simpl; auto. Qed.

(** From the second component on, [join] only lengthens the path by a
    prefix that does not look past the first character of the
    component. *)
Lemma join1_prefix path pre s1 s2 :
  startswith posixpath.sep s1 = startswith posixpath.sep s2 ->
  exists P, posixpath.join1 path (pre ++ s1) = P ++ s1 /\
            posixpath.join1 path (pre ++ s2) = P ++ s2.
Proof.
  intros E. unfold posixpath.join1.
  rewrite (startswith_app _ pre _ _ E).
  destruct (startswith _ (pre ++ s2)).
  - exists pre. split; reflexivity.
  - destruct (_ || _).
    + exists (path ++ pre). now rewrite !str_app_assoc.
    + exists (path ++ String posixpath.sep pre).
      rewrite !str_app_assoc. split; reflexivity.
Qed.

Lemma join1_no_slash path b :
  startswith posixpath.sep b = false ->
  posixpath.join1 path b
  = (if String.eqb path "" || endswith posixpath.sep path
     then path else path ++ "/") ++ b.
Proof.
  intros E. unfold posixpath.join1. rewrite E.
  destruct (_ || _); [reflexivity|]. now rewrite str_app_assoc.
Qed.

Lemma full_name_not_wildcard self dir sf lw lh nw nh :
  posixpath.join dir [Slide.full_name self sf lw lh nw nh]
  <> posixpath.join dir [Slide.wildcard_name self].
Proof.
  unfold posixpath.join; cbn [fold_left].
  unfold Slide.full_name, Slide.wildcard_name.
  set (rest := str_of_int sf ++ _).
  destruct (join1_prefix dir (Slide.name self) ("-" ++ rest) ("*." ++ IMG_EXT))
    as [P [E1 E2]]; [reflexivity|].
  rewrite E1, E2. intros C. apply str_app_inv_head in C. discriminate.
Qed.

(** *** The two branches of [_breadcumb] *)

Lemma breadcumb_inv self dir sf w p :
  fst (Slide._breadcumb self dir sf w) = Ok p ->
  exists W H fw fh,
    open_slide w (Slide._path self) = Ok (Wsi (PInt W, PInt H)) /\
    int_true_divide W sf = Ok fw /\ int_true_divide H sf = Ok fh /\
    p = posixpath.join dir
          [Slide.full_name self sf (PInt W) (PInt H)
             (PInt (math_floor fw)) (PInt (math_floor fh))].
Proof.
  unfold Slide._breadcumb.
  destruct (fst (Slide._resampled_dimensions self sf w)) as [[[[lw lh] nw] nh] | e] eqn:R.
  - rewrite (bind_reader_ok _ _ w _ (reader_resampled_dimensions self sf) R).
    apply resampled_dimensions_inv in R.
    destruct R as (W & H & fw & fh & E & -> & -> & EW & -> & EH & ->).
    simpl. intros [= <-]. exists W, H, fw, fh. auto.
  - rewrite (bind_reader_raise _ _ w e (reader_resampled_dimensions self sf) R).
    discriminate.
Qed.

Lemma breadcumb_ok self dir sf w lw lh nw nh :
  fst (Slide._resampled_dimensions self sf w) = Ok (lw, lh, nw, nh) ->
  fst (Slide._breadcumb self dir sf w)
  = Ok (posixpath.join dir [Slide.full_name self sf lw lh nw nh]).
Proof.
  intros R. unfold Slide._breadcumb.
  rewrite (bind_reader_ok _ _ w _ (reader_resampled_dimensions self sf) R).
  apply resampled_dimensions_inv in R.
  destruct R as (W & H & fw & fh & E & -> & -> & EW & -> & EH & ->).
  reflexivity.
Qed.

Lemma breadcumb_raise self dir sf w e :
  fst (Slide._resampled_dimensions self sf w) = Raise e ->
  fst (Slide._breadcumb self dir sf w) = Raise e.
Proof.
  intros R. unfold Slide._breadcumb.
  now rewrite (bind_reader_raise _ _ w e (reader_resampled_dimensions self sf) R).
Qed.

Lemma resampled_dimensions_raise self sf w e :
  fst (Slide.dimensions self w) = Raise e ->
  fst (Slide._resampled_dimensions self sf w) = Raise e.
Proof.
  intros D. unfold Slide._resampled_dimensions.
  now rewrite (bind_reader_raise _ _ w e (reader_dimensions self) D).
Qed.

(** C1.  For every positive scale factor and every dimension pair
    (W, H) read from the container, both below 2^53 as the dimensions of
    every container are, [_resampled_dimensions] returns exactly
    (W, H, floor(W / scale_factor), floor(H / scale_factor)) and writes
    nothing: the scaled width is the integer [new_w] with
    [scale_factor * new_w <= W < scale_factor * (new_w + 1)], likewise
    the scaled height.  A scaled dimension is 0 exactly when the scale
    factor exceeds the original dimension, and the call returns then as
    in every other case. *)
Theorem resampled_dimensions_floor self sf w W H :
  open_slide w (Slide._path self) = Ok (Wsi (PInt W, PInt H)) ->
  0 < sf -> 0 <= W < 2 ^ 53 -> 0 <= H < 2 ^ 53 ->
  exists new_w new_h,
    Slide._resampled_dimensions self sf w
    = (Ok (PInt W, PInt H, PInt new_w, PInt new_h), w)
    /\ new_w = W / sf /\ new_h = H / sf
    /\ sf * new_w <= W < sf * (new_w + 1)
    /\ sf * new_h <= H < sf * (new_h + 1)
    /\ (new_w = 0 <-> W < sf)
    /\ (new_h = 0 <-> H < sf).
Proof.
  intros E Hsf HW HH. exists (W / sf), (H / sf).
  assert (F : forall a, 0 <= a ->
                sf * (a / sf) <= a < sf * (a / sf + 1) /\ (a / sf = 0 <-> a < sf)).
  { intros a Ha.
    pose proof (Z.mul_div_le a sf Hsf). pose proof (Z.mul_succ_div_gt a sf Hsf).
    split; [lia|]. split.
    - intros Z0. rewrite Z0 in *. lia.
    - intros L. apply Z.div_small. lia. }
  split.
  - rewrite (reader_run _ w (reader_resampled_dimensions self sf)).
    now rewrite (resampled_dimensions_exact self sf w W H E Hsf HW HH).
  - split; [reflexivity|]. split; [reflexivity|].
    destruct (F W (proj1 HW)) as [? ?]. destruct (F H (proj1 HH)) as [? ?].
    tauto.
Qed.

Lemma resampled_dimensions_floor_witness :
  exists new_w new_h,
    Slide._resampled_dimensions (Slide.Make "/data/a.svs" "/out") 32 world_3200x1600
    = (Ok (PInt 3200, PInt 1600, PInt new_w, PInt new_h), world_3200x1600)
    /\ new_w = 3200 / 32 /\ new_h = 1600 / 32
    /\ 32 * new_w <= 3200 < 32 * (new_w + 1)
    /\ 32 * new_h <= 1600 < 32 * (new_h + 1)
    /\ (new_w = 0 <-> 3200 < 32)
    /\ (new_h = 0 <-> 1600 < 32).
Proof.
  apply (resampled_dimensions_floor (Slide.Make "/data/a.svs" "/out") 32
           world_3200x1600 3200 1600);
    [reflexivity | lia | split; [lia | reflexivity] | split; [lia | reflexivity]].
Defined.

(** The bound on the dimensions is the one of the float: the quotient is
    rounded to a binary64 float before [math.floor] is taken, so for a
    width of 2^53 + 1, which no container has, and scale factor 1 the
    scaled width is 2^53. *)
Remark resampled_dimensions_rounds_54bit_width :
  fst (Slide._resampled_dimensions (Slide.Make "big.svs" "out") 1 world_54bit)
  = Ok (PInt (2 ^ 53 + 1), PInt 1, PInt (2 ^ 53), PInt 1)
  /\ (2 ^ 53 + 1) / 1 <> 2 ^ 53.
Proof. split; [vm_compute; reflexivity | vm_compute; discriminate]. Qed.

(** C2.  Whenever the resampled dimensions of a slide are (W, H, new_w,
    new_h), [scaled_image_path] returns the output directory joined with
    [<name>-<scale_factor>x-<W>x<H>-<new_w>x<new_h>.png]; for a readable
    container with dimensions below 2^53 and a positive scale factor,
    new_w and new_h are the floors of W / scale_factor and
    H / scale_factor; and for a container of 3200 x 1600 pixels and
    scale factor 32 the resampled dimensions are (3200, 1600, 100, 50)
    and the file name is [<name>-32x-3200x1600-100x50.png]. *)
Theorem scaled_image_path_format :
  (forall self sf w W H new_w new_h,
      fst (Slide._resampled_dimensions self sf w)
      = Ok (PInt W, PInt H, PInt new_w, PInt new_h) ->
      fst (Slide.scaled_image_path self sf w)
      = Ok (posixpath.join (Slide._processed_path self)
              [Slide.name self ++ "-" ++ str_of_int sf ++ "x-"
                 ++ str_of_int W ++ "x" ++ str_of_int H ++ "-"
                 ++ str_of_int new_w ++ "x" ++ str_of_int new_h ++ ".png"]))
  /\ (forall self sf w W H,
         open_slide w (Slide._path self) = Ok (Wsi (PInt W, PInt H)) ->
         0 < sf -> 0 <= W < 2 ^ 53 -> 0 <= H < 2 ^ 53 ->
         fst (Slide.scaled_image_path self sf w)
         = Ok (posixpath.join (Slide._processed_path self)
                 [Slide.name self ++ "-" ++ str_of_int sf ++ "x-"
                    ++ str_of_int W ++ "x" ++ str_of_int H ++ "-"
                    ++ str_of_int (W / sf) ++ "x" ++ str_of_int (H / sf)
                    ++ ".png"]))
  /\ (forall self w,
         open_slide w (Slide._path self) = Ok (Wsi (PInt 3200, PInt 1600)) ->
         fst (Slide._resampled_dimensions self 32 w)
         = Ok (PInt 3200, PInt 1600, PInt 100, PInt 50)
         /\ fst (Slide.scaled_image_path self 32 w)
            = Ok (posixpath.join (Slide._processed_path self)
                    [Slide.name self ++ "-32x-3200x1600-100x50.png"])).
Proof.
  split; [|split].
  - intros self sf w W H nw nh R.
    unfold Slide.scaled_image_path. rewrite (breadcumb_ok _ _ _ _ _ _ _ _ R).
    reflexivity.
  - intros self sf w W H E Hsf HW HH.
    pose proof (resampled_dimensions_exact self sf w W H E Hsf HW HH) as R.
    unfold Slide.scaled_image_path. rewrite (breadcumb_ok _ _ _ _ _ _ _ _ R).
    reflexivity.
  - intros self w E.
    assert (R : fst (Slide._resampled_dimensions self 32 w)
                = Ok (PInt 3200, PInt 1600, PInt 100, PInt 50)).
    { rewrite (resampled_dimensions_ok self 32 w 3200 1600 _ _ E eq_refl eq_refl).
      reflexivity. }
    split; [exact R|].
    unfold Slide.scaled_image_path. rewrite (breadcumb_ok _ _ _ _ _ _ _ _ R).
    reflexivity.
Qed.

Lemma scaled_image_path_format_witness :
  fst (Slide.scaled_image_path (Slide.Make "/data/CMU-1.svs" "/out") 32
         world_3200x1600)
  = Ok "/out/CMU-1-32x-3200x1600-100x50.png".
Proof.
  exact (proj2 (proj2 (proj2 scaled_image_path_format)
                  (Slide.Make "/data/CMU-1.svs" "/out") world_3200x1600 eq_refl)).
Defined.

(** C9.  Two successive calls of [scaled_image_path] return the same
    result and leave the world, hence the file system, as it was; the
    result does not depend on what has been written before (the output
    directory need not exist); and it is determined by the slide name,
    the output directory, the scale factor and the resampled
    dimensions. *)
Theorem scaled_image_path_pure self sf w :
  let r1 := Slide.scaled_image_path self sf w in
  let r2 := Slide.scaled_image_path self sf (snd r1) in
  fst r2 = fst r1
  /\ snd r1 = w /\ snd r2 = w
  /\ (forall t, fst (Slide.scaled_image_path self sf (with_trace w t)) = fst r1)
  /\ (forall self' w',
         Slide.name self' = Slide.name self ->
         Slide._processed_path self' = Slide._processed_path self ->
         fst (Slide._resampled_dimensions self' sf w')
         = fst (Slide._resampled_dimensions self sf w) ->
         fst (Slide.scaled_image_path self' sf w') = fst r1).
Proof.
  cbv zeta.
  destruct (reader_scaled_image_path self sf w) as [S F].
  rewrite S. repeat split; auto.
  intros self' w' En Ep Er.
  unfold Slide.scaled_image_path. rewrite Ep.
  destruct (fst (Slide._resampled_dimensions self sf w))
    as [[[[lw lh] nw] nh] | e] eqn:R.
  - rewrite (breadcumb_ok _ _ _ _ _ _ _ _ Er), (breadcumb_ok _ _ _ _ _ _ _ _ R).
    unfold Slide.full_name. now rewrite En.
  - now rewrite (breadcumb_raise _ _ _ _ _ Er), (breadcumb_raise _ _ _ _ _ R).
Qed.

Lemma scaled_image_path_pure_witness :
  fst (Slide.scaled_image_path (Slide.Make "/other/CMU-1.tiff" "/out") 32
         (with_trace world_3200x1600 [MakeDirs "/out"]))
  = fst (Slide.scaled_image_path (Slide.Make "/data/CMU-1.svs" "/out") 32
           world_3200x1600).
Proof.
  exact (proj2 (proj2 (proj2 (proj2
           (scaled_image_path_pure (Slide.Make "/data/CMU-1.svs" "/out") 32
              world_3200x1600))))
           (Slide.Make "/other/CMU-1.tiff" "/out")
           (with_trace world_3200x1600 [MakeDirs "/out"])
           eq_refl eq_refl eq_refl).
Defined.

(** C10.  Whenever [_resampled_dimensions] returns, its four components
    are integers computed from the container's dimensions, none is
    [None]; every path returned by [scaled_image_path] has the full
    [<name>-<sf>x-<W>x<H>-<w>x<h>.png] form and differs from the wildcard
    path [<name>*.png]; and when the dimensions cannot be read the error
    is raised by [scaled_image_path] too. *)
Theorem wildcard_branch_unreachable self sf w :
  (forall large_w large_h new_w new_h,
      fst (Slide._resampled_dimensions self sf w)
      = Ok (large_w, large_h, new_w, new_h) ->
      exists W H fw fh,
        open_slide w (Slide._path self) = Ok (Wsi (PInt W, PInt H)) /\
        int_true_divide W sf = Ok fw /\ int_true_divide H sf = Ok fh /\
        large_w = PInt W /\ large_h = PInt H /\
        new_w = PInt (math_floor fw) /\ new_h = PInt (math_floor fh))
  /\ (forall p,
         fst (Slide.scaled_image_path self sf w) = Ok p ->
         p <> posixpath.join (Slide._processed_path self)
                [Slide.name self ++ "*.png"]
         /\ exists W H new_w new_h,
             fst (Slide._resampled_dimensions self sf w)
             = Ok (PInt W, PInt H, PInt new_w, PInt new_h) /\
             p = posixpath.join (Slide._processed_path self)
                   [Slide.name self ++ "-" ++ str_of_int sf ++ "x-"
                      ++ str_of_int W ++ "x" ++ str_of_int H ++ "-"
                      ++ str_of_int new_w ++ "x" ++ str_of_int new_h ++ ".png"])
  /\ (forall e,
         fst (Slide.dimensions self w) = Raise e ->
         fst (Slide.scaled_image_path self sf w) = Raise e).
Proof.
  split; [|split].
  - intros lw lh nw nh R.
    destruct (resampled_dimensions_inv _ _ _ _ _ _ _ R)
      as (W & H & fw & fh & E & -> & -> & EW & -> & EH & ->).
    exists W, H, fw, fh. repeat split; assumption.
  - intros p P. unfold Slide.scaled_image_path in P.
    destruct (breadcumb_inv _ _ _ _ _ P) as (W & H & fw & fh & E & EW & EH & ->).
    split.
    + apply full_name_not_wildcard.
    + exists W, H, (math_floor fw), (math_floor fh). split; [|reflexivity].
      now apply resampled_dimensions_ok.
  - intros e D. unfold Slide.scaled_image_path.
    apply breadcumb_raise. now apply resampled_dimensions_raise.
Qed.

Lemma wildcard_branch_unreachable_witness :
  fst (Slide.scaled_image_path (Slide.Make "/data/CMU-1.svs" "/out") 32 world_missing)
  = Raise (Exn "FileNotFoundError" "The wsi path resource doesn't exist").
Proof.
  exact (proj2 (proj2 (wildcard_branch_unreachable
                         (Slide.Make "/data/CMU-1.svs" "/out") 32 world_missing))
           _ eq_refl).
Defined.

(** *** The collection *)

Lemma slides_ok self w entries :
  listdir w (SlideSet._slides_path self) = Ok entries ->
  fst (SlideSet.slides self w) = Ok (SlideSet.slides_of self entries).
Proof. intros E. unfold SlideSet.slides; simpl. now rewrite E. Qed.

Lemma slides_inv self w l :
  fst (SlideSet.slides self w) = Ok l ->
  exists entries, listdir w (SlideSet._slides_path self) = Ok entries
                  /\ l = SlideSet.slides_of self entries.
Proof.
  unfold SlideSet.slides; simpl.
  destruct (listdir w _) as [entries | e]; simpl; [|discriminate].
  intros [= <-]. now exists entries.
Qed.

Lemma total_slides_ok self w entries :
  listdir w (SlideSet._slides_path self) = Ok entries ->
  fst (SlideSet.total_slides self w)
  = Ok (Z.of_nat (List.length (SlideSet.slides_of self entries))).
Proof.
  intros E. unfold SlideSet.total_slides.
  now rewrite (bind_reader_ok _ _ w _ (reader_slides self) (slides_ok _ _ _ E)).
Qed.

Lemma total_slides_inv self w n :
  fst (SlideSet.total_slides self w) = Ok n ->
  exists entries, listdir w (SlideSet._slides_path self) = Ok entries
                  /\ n = Z.of_nat (List.length (SlideSet.slides_of self entries)).
Proof.
  unfold SlideSet.total_slides.
  destruct (fst (SlideSet.slides self w)) as [l | e] eqn:S.
  - rewrite (bind_reader_ok _ _ w _ (reader_slides self) S).
    destruct (slides_inv _ _ _ S) as [entries [E ->]].
    intros [= <-]. now exists entries.
  - now rewrite (bind_reader_raise _ _ w _ (reader_slides self) S).
Qed.

(** C3 as stated, refuted: on an empty directory [slides_stats] raises an
    exception whose class is not [EmptyCollectionError]. *)
Lemma slides_stats_empty_not_EmptyCollectionError :
  ~ (forall self w,
        fst (SlideSet.total_slides self w) = Ok 0 ->
        exists e, fst (SlideSet.slides_stats self w) = Raise e
                  /\ exn_class e = "EmptyCollectionError").
Proof.
  intros C.
  destruct (C demo_set world_empty_dir eq_refl) as [e [E K]].
  vm_compute in E. injection E as <-. discriminate K.
Qed.

(** C3, amended.  On a collection with no slide, [slides_stats] raises
    [ValueError] (from [max] over an empty sequence, the first statistic
    evaluated); it returns no value. *)
Theorem slides_stats_empty_raises_ValueError self w :
  fst (SlideSet.total_slides self w) = Ok 0 ->
  fst (SlideSet.slides_stats self w)
  = Raise (ValueError "max() arg is an empty sequence").
Proof.
  intros T. destruct (total_slides_inv _ _ _ T) as [entries [E L]].
  assert (N : SlideSet.slides_of self entries = []).
  { destruct (SlideSet.slides_of self entries); [reflexivity | discriminate L]. }
  unfold SlideSet.slides_stats.
  rewrite (bind_reader_ok _ _ w _ (reader_total_slides self) T).
  unfold SlideSet._max_width_slide, SlideSet.slides_dimensions, SlideSet.slides,
    bind, lift; simpl.
  rewrite E; simpl. rewrite N; reflexivity.
Qed.

Lemma slides_stats_empty_raises_ValueError_witness :
  fst (SlideSet.slides_stats demo_set world_empty_dir)
  = Raise (ValueError "max() arg is an empty sequence").
Proof.
  exact (slides_stats_empty_raises_ValueError demo_set world_empty_dir eq_refl).
Defined.

(** C5, at a failing input.  For the path [a.b.svs] the name is [a], cut
    at the first dot, while the base file name without its extension,
    as [os.path.splitext] gives it, is [a.b]. *)
Theorem name_cuts_at_first_dot processed_path :
  Slide.name (Slide.Make "a.b.svs" processed_path) = "a"
  /\ fst (posixpath.splitext (ntpath.basename "a.b.svs")) = "a.b".
Proof. split; reflexivity. Qed.

Lemma split_first_no_dot c s : str_find c (split_first c s) 0 = -1.
Proof.
  unfold str_find, slice_from; simpl. generalize 0.
  induction s as [| a s IH]; intros i; simpl; [reflexivity|].
  destruct (ascii_is c a) eqn:A; simpl; [reflexivity|].
  rewrite A. apply IH.
Qed.

(** The name never holds a dot. *)
Lemma name_has_no_dot self : str_find "." (Slide.name self) 0 = -1.
Proof. apply split_first_no_dot. Qed.

Lemma bind_ok_inv {A B} (c : M A) (k : A -> M B) w b :
  fst (bind c k w) = Ok b ->
  exists a w', c w = (Ok a, w') /\ fst (k a w') = Ok b.
Proof.
  unfold bind. destruct (c w) as [[a | e] w']; simpl.
  - intros H. now exists a, w'.
  - discriminate.
Qed.

Ltac peel H x :=
  let w' := fresh "w" in
  let E := fresh "E" x in
  apply bind_ok_inv in H; destruct H as (x & w' & E & H).

Lemma min_size_slide_inv self w v :
  fst (SlideSet._min_size_slide self w) = Ok v ->
  exists nm sz, v = ODict [("slide", SStr nm); ("height", SNum sz)].
Proof.
  unfold SlideSet._min_size_slide. intros H.
  peel H ds. peel H m. simpl in H. injection H as <-. eauto.
Qed.

Lemma max_size_slide_inv self w v :
  fst (SlideSet._max_size_slide self w) = Ok v ->
  exists nm sz, v = ODict [("slide", SStr nm); ("size", SNum sz)].
Proof.
  unfold SlideSet._max_size_slide. intros H.
  peel H ds. peel H m. simpl in H. injection H as <-. eauto.
Qed.

(** C8, the record as the code builds it.  Whenever [slides_stats]
    returns, the record has the ten fixed keys and its [max_size] entry
    carries the value under [size], but its [min_size] entry carries the
    size under the key [height] and has no key [size]. *)
Theorem min_size_entry_keyed_height self w stats fig :
  fst (SlideSet.slides_stats self w) = Ok (stats, fig) ->
  dict_keys stats
  = ["no_of_slides"; "max_width"; "max_height"; "max_size"; "min_width";
     "min_height"; "min_size"; "avg_width"; "avg_height"; "avg_size"]
  /\ (exists nm sz,
         dict_get "max_size" stats
         = Some (ODict [("slide", SStr nm); ("size", SNum sz)]))
  /\ (exists nm sz,
         dict_get "min_size" stats
         = Some (ODict [("slide", SStr nm); ("height", SNum sz)])
         /\ dict_get "size" [("slide", SStr nm); ("height", SNum sz)] = None).
Proof.
  unfold SlideSet.slides_stats. intros H.
  peel H no_of_slides. peel H max_width. peel H max_height. peel H max_size.
  peel H min_width. peel H min_height. peel H min_size.
  peel H avg_width. peel H avg_height. peel H avg_size.
  peel H l. peel H dims. peel H xy. destruct xy as [x y].
  peel H t1. peel H t2. simpl in H. injection H as <- <-.
  apply (f_equal fst) in Emin_size, Emax_size. cbn [fst] in Emin_size, Emax_size.
  destruct (min_size_slide_inv _ _ _ Emin_size) as (nm & sz & ->).
  destruct (max_size_slide_inv _ _ _ Emax_size) as (nm' & sz' & ->).
  split; [reflexivity|]. split.
  - exists nm', sz'. reflexivity.
  - exists nm, sz. split; reflexivity.
Qed.

Lemma min_size_entry_keyed_height_witness :
  exists stats fig,
    fst (SlideSet.slides_stats demo_set world_one_slide) = Ok (stats, fig)
    /\ exists nm sz,
         dict_get "min_size" stats
         = Some (ODict [("slide", SStr nm); ("height", SNum sz)])
         /\ dict_get "size" [("slide", SStr nm); ("height", SNum sz)] = None.
Proof.
  eexists. eexists. split; [reflexivity|].
  exact (proj2 (proj2 (min_size_entry_keyed_height demo_set world_one_slide
                         _ _ eq_refl))).
Defined.

(** *** Writes *)

Lemma with_trace_trace w : with_trace w (trace w) = w.
Proof. now destruct w. Qed.

Lemma with_trace_twice w t t' : with_trace (with_trace w t) t' = with_trace w t'.
Proof. reflexivity. Qed.

Lemma reader_fst_with_trace {A} (c : M A) w t :
  reader c -> fst (c (with_trace w t)) = fst (c w).
Proof. intros H. apply H. Qed.

Lemma emit_ok w t ev :
  write_outcome w ev = Ok tt ->
  emit ev (with_trace w t) = (Ok tt, with_trace w (t ++ [ev])).
Proof.
  intros H. unfold emit.
  change (write_outcome (with_trace w t) ev) with (write_outcome w ev).
  now rewrite H.
Qed.

Lemma emit_raise w t ev e :
  write_outcome w ev = Raise e ->
  emit ev (with_trace w t) = (Raise e, with_trace w t).
Proof.
  intros H. unfold emit.
  change (write_outcome (with_trace w t) ev) with (write_outcome w ev).
  now rewrite H.
Qed.

Lemma write_outcome_cases w ev :
  write_outcome w ev = Ok tt \/ exists e, write_outcome w ev = Raise e.
Proof. destruct (write_outcome w ev) as [[] | e]; eauto. Qed.

Lemma bind_emit_ok {B} w t ev (k : unit -> M B) :
  write_outcome w ev = Ok tt ->
  bind (emit ev) k (with_trace w t) = k tt (with_trace w (t ++ [ev])).
Proof. intros H. unfold bind. now rewrite (emit_ok _ _ _ H). Qed.

Lemma bind_emit_raise {B} w t ev e (k : unit -> M B) :
  write_outcome w ev = Raise e ->
  bind (emit ev) k (with_trace w t) = (Raise e, with_trace w t).
Proof. intros H. unfold bind. now rewrite (emit_raise _ _ _ _ H). Qed.

(** *** The loops of [save_rescaled_slides] and [save_thumbnails] *)

Lemma clamp_n_ok self n w entries :
  listdir w (SlideSet._slides_path self) = Ok entries ->
  fst (SlideSet.clamp_n self n w)
  = Ok (clamped (Z.of_nat (List.length (SlideSet.slides_of self entries))) n).
Proof.
  intros E. unfold SlideSet.clamp_n, clamped.
  rewrite (bind_reader_ok _ _ w _ (reader_total_slides self) (total_slides_ok _ _ _ E)).
  destruct (_ || _); [now apply total_slides_ok | reflexivity].
Qed.

(** Both loops, up to the body: once the directory is made, the bound
    is clamped and the listing is sliced. *)
Lemma save_loop_run self n w entries (body : Slide.t -> M unit) :
  listdir w (SlideSet._slides_path self) = Ok entries ->
  write_outcome w (MakeDirs (SlideSet._processed_path self)) = Ok tt ->
  (emit (MakeDirs (SlideSet._processed_path self)) ;;
   n' <- SlideSet.clamp_n self n ;;
   l <- SlideSet.slides self ;;
   for_each (py_slice_to l n') body) w
  = for_each
      (py_slice_to (SlideSet.slides_of self entries)
         (clamped (Z.of_nat (List.length (SlideSet.slides_of self entries))) n))
      body
      (with_trace w (trace w ++ [MakeDirs (SlideSet._processed_path self)])).
Proof.
  intros E Hm.
  rewrite <- (with_trace_trace w) at 1. rewrite (bind_emit_ok _ _ _ _ Hm).
  set (w1 := with_trace w (trace w ++ [MakeDirs (SlideSet._processed_path self)])).
  assert (E1 : listdir w1 (SlideSet._slides_path self) = Ok entries) by exact E.
  rewrite (bind_reader_ok _ _ w1 _ (reader_clamp_n self n) (clamp_n_ok _ _ _ _ E1)).
  rewrite (bind_reader_ok _ _ w1 _ (reader_slides self) (slides_ok _ _ _ E1)).
  reflexivity.
Qed.

(** When the directory cannot be made, nothing else happens. *)
Lemma save_loop_refused self n w e (body : Slide.t -> M unit) :
  write_outcome w (MakeDirs (SlideSet._processed_path self)) = Raise e ->
  (emit (MakeDirs (SlideSet._processed_path self)) ;;
   n' <- SlideSet.clamp_n self n ;;
   l <- SlideSet.slides self ;;
   for_each (py_slice_to l n') body) w
  = (Raise e, w).
Proof.
  intros Hm. rewrite <- (with_trace_trace w) at 1.
  rewrite (bind_emit_raise _ _ _ _ _ Hm). now rewrite with_trace_trace.
Qed.

Lemma slice_nonempty {A} (l : list A) n :
  l <> [] -> 0 <= n ->
  py_slice_to l (clamped (Z.of_nat (List.length l)) n) <> [].
Proof.
  intros Hl Hn. destruct l as [| x l]; [congruence|].
  unfold py_slice_to, clamped.
  set (T := Z.of_nat (List.length (x :: l))).
  assert (0 < T) by (unfold T; simpl List.length; lia).
  destruct ((T <? n) || (n =? 0)) eqn:C.
  - destruct (T <? 0) eqn:C0; [lia|].
    unfold T. rewrite Nat2Z.id. rewrite firstn_all. discriminate.
  - apply orb_false_iff in C. destruct C as [_ C]. apply Z.eqb_neq in C.
    destruct (n <? 0) eqn:C0; [lia|].
    destruct (Z.to_nat n) eqn:N; [lia|]. simpl. discriminate.
Qed.

(** C4, what the code does.  On every collection with at least one slide
    and every [n >= 0], [save_thumbnails] fails and saves no thumbnail:
    once the output directory has been created, its only write, it
    raises [TypeError] at the first slide, because [save_thumbnail] is
    called with an argument it does not take; and when the output
    directory cannot be created it raises that error having written
    nothing. *)
Theorem save_thumbnails_raises_TypeError self scale_factor n w entries :
  listdir w (SlideSet._slides_path self) = Ok entries ->
  SlideSet.slides_of self entries <> [] ->
  0 <= n ->
  (write_outcome w (MakeDirs (SlideSet._processed_path self)) = Ok tt ->
   SlideSet.save_thumbnails self scale_factor n w
   = (Raise (TypeError
               "save_thumbnail() takes 1 positional argument but 2 were given"),
      with_trace w (trace w ++ [MakeDirs (SlideSet._processed_path self)])))
  /\ (forall e,
         write_outcome w (MakeDirs (SlideSet._processed_path self)) = Raise e ->
         SlideSet.save_thumbnails self scale_factor n w = (Raise e, w))
  /\ (exists e, fst (SlideSet.save_thumbnails self scale_factor n w) = Raise e)
  /\ filter is_image_save
       (trace (snd (SlideSet.save_thumbnails self scale_factor n w)))
     = filter is_image_save (trace w).
Proof.
  intros E Hl Hn.
  assert (A : write_outcome w (MakeDirs (SlideSet._processed_path self)) = Ok tt ->
              SlideSet.save_thumbnails self scale_factor n w
              = (Raise (TypeError
                   "save_thumbnail() takes 1 positional argument but 2 were given"),
                 with_trace w
                   (trace w ++ [MakeDirs (SlideSet._processed_path self)]))).
  { intros Hm. unfold SlideSet.save_thumbnails.
    rewrite (save_loop_run _ _ _ _ _ E Hm).
    pose proof (slice_nonempty _ _ Hl Hn) as S.
    destruct (py_slice_to _ _) as [| slide rest]; [congruence|].
    reflexivity. }
  assert (B : forall e,
             write_outcome w (MakeDirs (SlideSet._processed_path self)) = Raise e ->
             SlideSet.save_thumbnails self scale_factor n w = (Raise e, w)).
  { intros e Hm. unfold SlideSet.save_thumbnails. now apply save_loop_refused. }
  split; [exact A|]. split; [exact B|].
  destruct (write_outcome_cases w (MakeDirs (SlideSet._processed_path self)))
    as [Hm | [e Hm]].
  - rewrite (A Hm). split; [cbn [fst]; eauto|]. unfold with_trace. cbn [snd trace].
    rewrite filter_app. cbn. now rewrite app_nil_r.
  - rewrite (B e Hm). split; [cbn [fst]; eauto | reflexivity].
Qed.

Lemma save_thumbnails_raises_TypeError_witness :
  SlideSet.save_thumbnails demo_set 32 0 world_one_slide
  = (Raise (TypeError
              "save_thumbnail() takes 1 positional argument but 2 were given"),
     with_trace world_one_slide [MakeDirs "/out"]).
Proof.
  apply (save_thumbnails_raises_TypeError demo_set 32 0 world_one_slide ["a.svs"]).
  - reflexivity.
  - discriminate.
  - lia.
  - reflexivity.
Defined.

(** *** [save_scaled_image] *)

Lemma save_scaled_image_run self sf w t :
  Slide.save_scaled_image self sf (with_trace w t)
  = match write_outcome w (MakeDirs (Slide._processed_path self)) with
    | Raise e => (Raise e, with_trace w t)
    | Ok _ =>
        let made := (t ++ [MakeDirs (Slide._processed_path self)])%list in
        match fst (Slide._resample self sf w) with
        | Raise e => (Raise e, with_trace w made)
        | Ok img =>
            match fst (Slide.scaled_image_path self sf w) with
            | Raise e => (Raise e, with_trace w made)
            | Ok p =>
                match write_outcome w (ImageSave img p) with
                | Raise e => (Raise e, with_trace w made)
                | Ok _ => (Ok tt, with_trace w (made ++ [ImageSave img p]))
                end
            end
        end
    end.
Proof.
  unfold Slide.save_scaled_image.
  destruct (write_outcome w (MakeDirs (Slide._processed_path self))) as [[] | e] eqn:Hm.
  2:{ now rewrite (bind_emit_raise _ _ _ _ _ Hm). }
  rewrite (bind_emit_ok _ _ _ _ Hm). cbv zeta.
  set (t1 := (t ++ [MakeDirs (Slide._processed_path self)])%list).
  pose proof (reader_fst_with_trace _ w t1 (reader_resample self sf)) as R.
  pose proof (reader_fst_with_trace _ w t1 (reader_scaled_image_path self sf)) as P.
  destruct (fst (Slide._resample self sf w)) as [img | e].
  - rewrite (bind_reader_ok _ _ _ _ (reader_resample self sf) R).
    destruct (fst (Slide.scaled_image_path self sf w)) as [p | e].
    + rewrite (bind_reader_ok _ _ _ _ (reader_scaled_image_path self sf) P).
      destruct (write_outcome w (ImageSave img p)) as [[] | e] eqn:Hs.
      * now rewrite (emit_ok _ _ _ Hs).
      * now rewrite (emit_raise _ _ _ _ Hs).
    + now rewrite (bind_reader_raise _ _ _ _ (reader_scaled_image_path self sf) P).
  - now rewrite (bind_reader_raise _ _ _ _ (reader_resample self sf) R).
Qed.

(** What [_resample] comes to once the resampled dimensions are known. *)
Lemma resample_run self sf w lw lh nw nh :
  fst (Slide._resampled_dimensions self sf w) = Ok (lw, lh, nw, nh) ->
  fst (Slide._resample self sf w)
  = rbind (best_level w (Slide._path self) sf) (fun level =>
    rbind (read_region w (Slide._path self) level) (fun _ =>
    rbind (Slide.pil_resize (nw, nh)) (fun _ =>
    Ok (Resized (Slide._path self) (nw, nh))))).
Proof.
  intros R. unfold Slide._resample.
  rewrite (bind_reader_ok _ _ w _ (reader_resampled_dimensions self sf) R).
  destruct (resampled_dimensions_inv _ _ _ _ _ _ _ R)
    as (W & H & fw & fh & E & _).
  assert (O : fst (Slide._wsi self w) = Ok (Wsi (PInt W, PInt H)))
    by (unfold Slide._wsi; now rewrite E).
  rewrite (bind_reader_ok _ _ w _ (reader_wsi self) O).
  unfold bind at 1.
  destruct (best_level w (Slide._path self) sf) as [level | e]; [|reflexivity].
  cbn [rbind].
  rewrite !(bind_reader_ok _ _ w _ (reader_wsi self) O).
  unfold bind at 1.
  destruct (read_region w (Slide._path self) level) as [[] | e]; [|reflexivity].
  cbn [rbind]. unfold bind, lift, ret.
  destruct (Slide.pil_resize (nw, nh)) as [[] | e]; reflexivity.
Qed.

Lemma resample_raise self sf w e :
  fst (Slide._resampled_dimensions self sf w) = Raise e ->
  fst (Slide._resample self sf w) = Raise e.
Proof.
  intros R. unfold Slide._resample.
  now rewrite (bind_reader_raise _ _ w _ (reader_resampled_dimensions self sf) R).
Qed.

Lemma save_scaled_image_ok_inv s w :
  fst (Slide.save_scaled_image s 32 w) = Ok tt ->
  exists evs, saved_by w s evs /\
    forall t, Slide.save_scaled_image s 32 (with_trace w t)
              = (Ok tt, with_trace w (t ++ evs)).
Proof.
  rewrite <- (with_trace_trace w) at 1. rewrite save_scaled_image_run.
  destruct (write_outcome w (MakeDirs _)) as [[] | e] eqn:Hm; [|discriminate].
  cbv zeta.
  destruct (fst (Slide._resample s 32 w)) as [img | e] eqn:R; [|discriminate].
  destruct (fst (Slide.scaled_image_path s 32 w)) as [p | e] eqn:P; [|discriminate].
  destruct (write_outcome w (ImageSave img p)) as [[] | e] eqn:Hs; [|discriminate].
  intros _. eexists. split.
  - exists img, p. repeat split; eassumption.
  - intros t. rewrite save_scaled_image_run, Hm, R, P, Hs. cbv zeta.
    now rewrite <- app_assoc.
Qed.

Lemma for_each_saves l w :
  (forall s, In s l -> fst (Slide.save_scaled_image s 32 w) = Ok tt) ->
  exists evss,
    Forall2 (saved_by w) l evss /\
    forall t, for_each l (fun slide => Slide.save_scaled_image slide 32) (with_trace w t)
              = (Ok tt, with_trace w (t ++ List.concat evss)).
Proof.
  induction l as [| s l IH]; intros H.
  - exists []. split; [constructor|]. intros t; simpl. now rewrite app_nil_r.
  - destruct (save_scaled_image_ok_inv s w (H s (or_introl eq_refl))) as [evs [Sv Run]].
    destruct IH as [evss [F Loop]]; [intros; apply H; now right|].
    exists (evs :: evss). split; [now constructor|].
    intros t. simpl. unfold bind. rewrite Run, Loop. now rewrite app_assoc.
Qed.

Lemma saved_by_one_image w s evs :
  saved_by w s evs -> List.length (filter is_image_save evs) = 1%nat.
Proof. intros (img & p & _ & _ & ->). reflexivity. Qed.

Lemma saved_by_images w l evss :
  Forall2 (saved_by w) l evss ->
  List.length (filter is_image_save (List.concat evss)) = List.length l.
Proof.
  induction 1 as [| s evs l evss Sv _ IH]; [reflexivity|].
  simpl. rewrite filter_app, length_app, IH, (saved_by_one_image _ _ _ Sv).
  reflexivity.
Qed.

Lemma In_firstn {A} (x : A) n l : In x (firstn n l) -> In x l.
Proof.
  intros I. rewrite <- (firstn_skipn n l). apply in_or_app. now left.
Qed.

Lemma slice_clamped {A} (l : list A) n :
  0 <= n ->
  let T := Z.of_nat (List.length l) in
  py_slice_to l (clamped T n) = firstn (Z.to_nat (clamped T n)) l
  /\ Z.of_nat (List.length (py_slice_to l (clamped T n))) = clamped T n
  /\ (0 < n -> clamped T n = Z.min n T)
  /\ (n = 0 \/ T < n -> clamped T n = T).
Proof.
  intros Hn T. assert (HT : 0 <= T) by (unfold T; lia).
  assert (C : 0 <= clamped T n <= T).
  { unfold clamped. destruct (T <? n) eqn:C1; simpl; [lia|].
    destruct (n =? 0) eqn:C2; lia. }
  assert (S : py_slice_to l (clamped T n) = firstn (Z.to_nat (clamped T n)) l).
  { unfold py_slice_to. destruct (clamped T n <? 0) eqn:C1; [lia | reflexivity]. }
  split; [exact S|]. split; [|split].
  - rewrite S, length_firstn. unfold T in *. lia.
  - intros P. unfold clamped. destruct (T <? n) eqn:C1; simpl; [lia|].
    destruct (n =? 0) eqn:C2; lia.
  - intros P. unfold clamped. destruct (T <? n) eqn:C1; simpl; [lia|].
    destruct (n =? 0) eqn:C2; lia.
Qed.

(** C7.  Let [T] be the size of the collection, [0 <= n], and [k] be
    [min n T] for [0 < n] and [T] for [n = 0] or [n > T].  When the output
    directory can be created and each of the first [k] slides can be
    saved, [save_rescaled_slides(n)] returns normally after saving
    exactly these [k] slides in enumeration order, one image write each;
    an [n] above [T] is clamped, it is no error. *)
Theorem save_rescaled_slides_clamps self n w entries :
  listdir w (SlideSet._slides_path self) = Ok entries ->
  write_outcome w (MakeDirs (SlideSet._processed_path self)) = Ok tt ->
  0 <= n ->
  let l := SlideSet.slides_of self entries in
  let T := Z.of_nat (List.length l) in
  let k := if (T <? n) || (n =? 0) then T else n in
  (forall s, In s (firstn (Z.to_nat k) l) ->
             fst (Slide.save_scaled_image s 32 w) = Ok tt) ->
  exists evss,
    SlideSet.save_rescaled_slides self n w
    = (Ok tt,
       with_trace w
         ((trace w ++ [MakeDirs (SlideSet._processed_path self)]) ++ List.concat evss))
    /\ Forall2 (saved_by w) (firstn (Z.to_nat k) l) evss
    /\ Z.of_nat (List.length (filter is_image_save (List.concat evss))) = k
    /\ (0 < n -> k = Z.min n T)
    /\ (n = 0 \/ T < n -> k = T).
Proof.
  intros E Hm Hn l T k Hs.
  destruct (slice_clamped l n Hn) as (S & L & Kpos & Kall).
  fold T in S, L, Kpos, Kall. change (clamped T n) with k in S, L, Kpos, Kall.
  destruct (for_each_saves (firstn (Z.to_nat k) l) w Hs) as [evss [F Loop]].
  exists evss. split; [|split; [exact F|split; [|split; assumption]]].
  - unfold SlideSet.save_rescaled_slides.
    rewrite (save_loop_run _ _ _ _ _ E Hm).
    fold l. fold T. change (clamped T n) with k. rewrite S. apply Loop.
  - rewrite (saved_by_images _ _ _ F). rewrite <- S. exact L.
Qed.

Lemma save_rescaled_slides_clamps_witness :
  exists evss,
    SlideSet.save_rescaled_slides demo_set 5 world_three_slides
    = (Ok tt, with_trace world_three_slides
                (([] ++ [MakeDirs "/out"]) ++ List.concat evss))
    /\ Forall2 (saved_by world_three_slides)
         (firstn 3 (SlideSet.slides_of demo_set demo_entries)) evss
    /\ Z.of_nat (List.length (filter is_image_save (List.concat evss))) = 3
    /\ (0 < 5 -> 3 = Z.min 5 3)
    /\ (5 = 0 \/ 3 < 5 -> 3 = 3).
Proof.
  apply (save_rescaled_slides_clamps demo_set 5 world_three_slides demo_entries).
  - reflexivity.
  - reflexivity.
  - lia.
  - intros s [<- | [<- | [<- | []]]]; reflexivity.
Defined.

(** *** Enumeration of the collection *)

Lemma slides_of_filter self entries :
  SlideSet.slides_of self entries
  = map (accessor self) (filter (has_valid_extension self) entries).
Proof.
  induction entries as [| e entries IH]; [reflexivity|].
  simpl. unfold has_valid_extension at 1, SlideSet.valid_extension.
  destruct (existsb _ _); simpl; now rewrite IH.
Qed.

Lemma join_entry_inj dir x y :
  startswith posixpath.sep x = false ->
  startswith posixpath.sep y = false ->
  posixpath.join dir [x] = posixpath.join dir [y] -> x = y.
Proof.
  intros Hx Hy. unfold posixpath.join; cbn [fold_left].
  rewrite (join1_no_slash _ _ Hx), (join1_no_slash _ _ Hy).
  apply str_app_inv_head.
Qed.

Lemma accessor_path_eqb self x y :
  startswith posixpath.sep x = false ->
  startswith posixpath.sep y = false ->
  String.eqb (Slide._path (accessor self x)) (Slide._path (accessor self y))
  = String.eqb x y.
Proof.
  intros Hx Hy. simpl.
  destruct (String.eqb x y) eqn:E.
  - apply String.eqb_eq in E. subst. apply String.eqb_refl.
  - apply String.eqb_neq. apply String.eqb_neq in E.
    intros C. apply E. eapply join_entry_inj; eassumption.
Qed.

Lemma count_entry_nodup (f : string -> bool) e entries :
  NoDup entries ->
  List.length (filter (fun x => String.eqb x e && f x) entries)
  = if in_dec string_dec e entries then (if f e then 1 else 0)%nat else 0%nat.
Proof.
  induction 1 as [| x l Nx Nd IH]; [reflexivity|].
  cbn [filter]. destruct (String.eqb x e) eqn:E; cbn [andb].
  - apply String.eqb_eq in E. subst x.
    destruct (in_dec string_dec e (e :: l)) as [_ | N]; [| exfalso; apply N; now left].
    assert (Z0 : List.length (filter (fun x => String.eqb x e && f x) l) = 0%nat).
    { rewrite IH. destruct (in_dec string_dec e l) as [I | _]; [contradiction | reflexivity]. }
    destruct (f e); cbn [List.length]; now rewrite Z0.
  - apply String.eqb_neq in E. rewrite IH.
    destruct (in_dec string_dec e l) as [I | N];
      destruct (in_dec string_dec e (x :: l)) as [I' | N']; try reflexivity.
    + exfalso. apply N'. now right.
    + destruct I' as [-> | I']; [congruence | contradiction].
Qed.

Lemma accessors_for_count self e entries :
  Forall (fun x => startswith posixpath.sep x = false) entries ->
  startswith posixpath.sep e = false ->
  accessors_for self e (SlideSet.slides_of self entries)
  = List.length (filter (fun x => String.eqb x e && has_valid_extension self x) entries).
Proof.
  intros F He. unfold accessors_for. rewrite slides_of_filter.
  induction F as [| x l Hx F IH]; [reflexivity|].
  cbn [filter]. destruct (has_valid_extension self x) eqn:V.
  - cbn [map filter]. rewrite (accessor_path_eqb self x e Hx He).
    rewrite andb_true_r. destruct (String.eqb x e); cbn [List.length]; now rewrite IH.
  - rewrite andb_false_r. exact IH.
Qed.

(** C6.  [slides] holds the accessors built from the directory entries
    whose extension is in the valid set, in directory order: every
    accessor comes from such an entry, and in a listing of distinct file
    names each entry has exactly one accessor when its extension is
    valid and none otherwise. *)
Theorem slides_exactly_valid_extensions self w entries :
  listdir w (SlideSet._slides_path self) = Ok entries ->
  let valid entry :=
    existsb (String.eqb (snd (posixpath.splitext entry)))
      (SlideSet._valid_wsi_extensions self) in
  let l := SlideSet.slides_of self entries in
  fst (SlideSet.slides self w) = Ok l
  /\ l = map (accessor self) (filter valid entries)
  /\ (forall s, In s l ->
        exists entry, In entry entries /\ valid entry = true /\ s = accessor self entry)
  /\ (NoDup entries ->
      Forall (fun x => startswith posixpath.sep x = false) entries ->
      forall entry, In entry entries ->
        accessors_for self entry l = if valid entry then 1%nat else 0%nat).
Proof.
  intros E valid l. split; [now apply slides_ok|].
  assert (L : l = map (accessor self) (filter valid entries))
    by apply slides_of_filter.
  split; [exact L|]. split.
  - intros s I. rewrite L in I. apply in_map_iff in I.
    destruct I as (e & <- & I). apply filter_In in I. destruct I as [I V].
    now exists e.
  - intros Nd F e I. unfold l.
    assert (He : startswith posixpath.sep e = false).
    { rewrite Forall_forall in F. now apply F. }
    rewrite (accessors_for_count self e entries F He).
    rewrite (count_entry_nodup (has_valid_extension self) e entries Nd).
    destruct (in_dec string_dec e entries); [reflexivity | contradiction].
Qed.

Lemma slides_exactly_valid_extensions_witness :
  accessors_for demo_set "b.tiff" (SlideSet.slides_of demo_set demo_entries) = 1%nat
  /\ accessors_for demo_set "notes.txt" (SlideSet.slides_of demo_set demo_entries) = 0%nat.
Proof.
  assert (Nd : NoDup demo_entries).
  { repeat constructor; simpl; intuition discriminate. }
  assert (F : Forall (fun x => startswith posixpath.sep x = false) demo_entries).
  { repeat constructor. }
  pose proof (proj2 (proj2 (proj2
    (slides_exactly_valid_extensions demo_set world_three_slides demo_entries
       eq_refl))) Nd F) as C.
  split.
  - apply (C "b.tiff"). simpl; auto.
  - apply (C "notes.txt"). simpl; auto.
Defined.

(* ================================================================== *)
(** ** Further properties of the two classes *)

(** X1.  For a readable container whose dimensions are below 2^53 and a
    positive scale factor, [_resampled_dimensions] returns (W, H,
    floor(W / scale_factor), floor(H / scale_factor)); a scaled dimension
    is 0 as soon as the scale factor exceeds the original one. *)
Theorem resampled_dimensions_floor_below_2p53 self sf w W H :
  open_slide w (Slide._path self) = Ok (Wsi (PInt W, PInt H)) ->
  0 < sf -> 0 <= W < 2 ^ 53 -> 0 <= H < 2 ^ 53 ->
  fst (Slide._resampled_dimensions self sf w)
  = Ok (PInt W, PInt H, PInt (W / sf), PInt (H / sf))
  /\ (W < sf -> W / sf = 0) /\ (H < sf -> H / sf = 0).
Proof.
  intros E Hsf HW HH. split; [now apply resampled_dimensions_exact|].
  split; intros; apply Z.div_small; lia.
Qed.

Lemma resampled_dimensions_floor_below_2p53_witness :
  fst (Slide._resampled_dimensions (Slide.Make "/data/a.svs" "/out") 64
         world_three_slides)
  = Ok (PInt 100, PInt 100, PInt (100 / 64), PInt (100 / 64)).
Proof.
  apply (resampled_dimensions_floor_below_2p53
           (Slide.Make "/data/a.svs" "/out") 64 world_three_slides 100 100);
    [reflexivity | lia | split; [lia | reflexivity] | split; [lia | reflexivity]].
Defined.

Lemma write_outcome_ok w ev :
  library_check ev = Ok tt -> fs_error w ev = None -> write_outcome w ev = Ok tt.
Proof. intros L F. unfold write_outcome. now rewrite L, F. Qed.

Lemma write_outcome_library w ev e :
  library_check ev = Raise e -> write_outcome w ev = Raise e.
Proof. intros L. unfold write_outcome. now rewrite L. Qed.

Lemma makedirs_outcome_ok w p :
  p <> "" -> fs_error w (MakeDirs p) = None -> write_outcome w (MakeDirs p) = Ok tt.
Proof.
  intros Hp F. apply write_outcome_ok; [|exact F].
  cbn [library_check]. apply String.eqb_neq in Hp. now rewrite Hp.
Qed.

Lemma save_scaled_image_refused self sf w e :
  write_outcome w (MakeDirs (Slide._processed_path self)) = Raise e ->
  Slide.save_scaled_image self sf w = (Raise e, w).
Proof.
  intros Hm. rewrite <- (with_trace_trace w) at 1.
  rewrite save_scaled_image_run, Hm. now rewrite with_trace_trace.
Qed.

Lemma save_scaled_image_no_image self sf w e :
  write_outcome w (MakeDirs (Slide._processed_path self)) = Ok tt ->
  fst (Slide._resample self sf w) = Raise e ->
  Slide.save_scaled_image self sf w
  = (Raise e, with_trace w (trace w ++ [MakeDirs (Slide._processed_path self)])).
Proof.
  intros Hm R. rewrite <- (with_trace_trace w) at 1.
  now rewrite save_scaled_image_run, Hm, R.
Qed.

(** X2.  With scale factor 0 on a readable container,
    [_resampled_dimensions] and [scaled_image_path] raise
    [ZeroDivisionError]; [save_scaled_image] raises it after having
    created the output directory, its only write, and when the output
    directory cannot be created it raises the error of that instead,
    having written nothing. *)
Theorem resampled_dimensions_zero_scale_factor self w W H :
  open_slide w (Slide._path self) = Ok (Wsi (PInt W, PInt H)) ->
  fst (Slide._resampled_dimensions self 0 w) = Raise ZeroDivisionError
  /\ fst (Slide.scaled_image_path self 0 w) = Raise ZeroDivisionError
  /\ (write_outcome w (MakeDirs (Slide._processed_path self)) = Ok tt ->
      Slide.save_scaled_image self 0 w
      = (Raise ZeroDivisionError,
         with_trace w (trace w ++ [MakeDirs (Slide._processed_path self)])))
  /\ (forall e,
         write_outcome w (MakeDirs (Slide._processed_path self)) = Raise e ->
         Slide.save_scaled_image self 0 w = (Raise e, w)).
Proof.
  intros E.
  assert (R : fst (Slide._resampled_dimensions self 0 w) = Raise ZeroDivisionError).
  { unfold Slide._resampled_dimensions.
    rewrite (bind_reader_ok _ _ w _ (reader_dimensions self) (dimensions_ok _ _ _ _ E)).
    reflexivity. }
  split; [exact R|]. split; [|split].
  - unfold Slide.scaled_image_path. now apply breadcumb_raise.
  - intros Hm. apply save_scaled_image_no_image; [exact Hm|].
    now apply resample_raise.
  - intros e Hm. now apply save_scaled_image_refused.
Qed.

Lemma resampled_dimensions_zero_scale_factor_witness :
  fst (Slide._resampled_dimensions (Slide.Make "/data/a.svs" "/out") 0
         world_three_slides) = Raise ZeroDivisionError.
Proof.
  exact (proj1 (resampled_dimensions_zero_scale_factor
                  (Slide.Make "/data/a.svs" "/out") world_three_slides 100 100
                  eq_refl)).
Defined.

Lemma existsb_eqb_In x l : existsb (String.eqb x) l = true <-> In x l.
Proof.
  rewrite existsb_exists. split.
  - intros (y & I & E). apply String.eqb_eq in E. now subst.
  - intros I. exists x. split; [exact I | apply String.eqb_refl].
Qed.

(** What [_wsi] raises when the container cannot be opened; nothing is
    written, whatever has been written before. *)
Lemma wsi_raises self w e :
  open_slide w (Slide._path self) = Raise e ->
  exists e',
    (forall t, Slide._wsi self (with_trace w t) = (Raise e', with_trace w t))
    /\ (In (exn_class e) Slide.OpenSlideError_classes ->
        e' = Exn "OpenSlideError"
               "Your wsi has something broken inside, a doctor is needed")
    /\ (~ In (exn_class e) Slide.OpenSlideError_classes ->
        exn_class e = "FileNotFoundError" ->
        e' = Exn "FileNotFoundError" "The wsi path resource doesn't exist")
    /\ (~ In (exn_class e) Slide.OpenSlideError_classes ->
        exn_class e <> "FileNotFoundError" -> e' = e).
Proof.
  intros E. unfold Slide._wsi.
  destruct (existsb (String.eqb (exn_class e)) Slide.OpenSlideError_classes) eqn:C1.
  - apply existsb_eqb_In in C1. eexists. split; [|split; [|split]].
    + intros t. unfold with_trace; cbn [open_slide]. rewrite E, (proj2 (existsb_eqb_In _ _) C1).
      reflexivity.
    + reflexivity.
    + tauto.
    + tauto.
  - assert (N : ~ In (exn_class e) Slide.OpenSlideError_classes).
    { intros I. apply existsb_eqb_In in I. congruence. }
    destruct (String.eqb (exn_class e) "FileNotFoundError") eqn:C2.
    + eexists. split; [|split; [|split]].
      * intros t. unfold with_trace; cbn [open_slide]. rewrite E, C1, C2. reflexivity.
      * tauto.
      * reflexivity.
      * apply String.eqb_eq in C2. tauto.
    + exists e. split; [|split; [|split]].
      * intros t. unfold with_trace; cbn [open_slide]. now rewrite E, C1, C2.
      * tauto.
      * apply String.eqb_neq in C2. tauto.
      * reflexivity.
Qed.

(** X3.  When the container cannot be opened, [_wsi] and [dimensions]
    raise, and nothing is written: an exception of class
    [OpenSlideError] or of one of its subclasses is replaced by an
    [OpenSlideError] with the message of the module, a
    [FileNotFoundError] by a [FileNotFoundError] with the message of the
    module, and any other exception passes unchanged. *)
Theorem wsi_error_classes self w e :
  open_slide w (Slide._path self) = Raise e ->
  exists e',
    Slide._wsi self w = (Raise e', w)
    /\ fst (Slide.dimensions self w) = Raise e'
    /\ (In (exn_class e) Slide.OpenSlideError_classes ->
        e' = Exn "OpenSlideError"
               "Your wsi has something broken inside, a doctor is needed")
    /\ (exn_class e = "FileNotFoundError" ->
        e' = Exn "FileNotFoundError" "The wsi path resource doesn't exist")
    /\ (~ In (exn_class e) Slide.OpenSlideError_classes ->
        exn_class e <> "FileNotFoundError" -> e' = e).
Proof.
  intros E. destruct (wsi_raises self w e E) as (e' & Run & C1 & C2 & C3).
  specialize (Run (trace w)). rewrite with_trace_trace in Run.
  exists e'. split; [exact Run|]. split; [|split; [exact C1|split; [|exact C3]]].
  - unfold Slide.dimensions, bind. now rewrite Run.
  - intros F. apply C2; [|exact F].
    rewrite F. cbv. intros [H | [H | [H | []]]]; discriminate.
Qed.

Lemma wsi_error_classes_witness :
  exists e',
    fst (Slide.dimensions (Slide.Make "/nowhere.svs" "/out") world_three_slides)
    = Raise e'
    /\ e' = Exn "FileNotFoundError" "The wsi path resource doesn't exist".
Proof.
  destruct (wsi_error_classes (Slide.Make "/nowhere.svs" "/out") world_three_slides
              (Exn "FileNotFoundError" "No such file or directory") eq_refl)
    as (e' & _ & D & _ & F & _).
  exists e'. split; [exact D | exact (F eq_refl)].
Defined.

(** *** Characters and indices *)

Lemma ascii_is_refl c : ascii_is c c = true.
Proof. apply Ascii.eqb_refl. Qed.

Lemma str_app_nil_r (s : string) : s ++ "" = s.
Proof. induction s as [| a s IH]; simpl; [reflexivity | now rewrite IH]. Qed.

Lemma str_take_app a b : str_take (String.length a) (a ++ b) = a.
Proof. induction a as [| x a IH]; simpl; [now destruct b | now rewrite IH]. Qed.

Lemma str_drop_app a b : str_drop (String.length a) (a ++ b) = b.
Proof. induction a as [| x a IH]; simpl; [reflexivity | exact IH]. Qed.

Lemma str_length_app a b :
  String.length (a ++ b) = (String.length a + String.length b)%nat.
Proof. induction a as [| x a IH]; simpl; [reflexivity | now rewrite IH]. Qed.

Lemma slice_to_app a b : slice_to (a ++ b) (Z.of_nat (String.length a)) = a.
Proof. unfold slice_to. rewrite Nat2Z.id. apply str_take_app. Qed.

Lemma slice_from_app a b : slice_from (a ++ b) (Z.of_nat (String.length a)) = b.
Proof. unfold slice_from. rewrite Nat2Z.id. apply str_drop_app. Qed.

Lemma has_char_app c a b : has_char c (a ++ b) = has_char c a || has_char c b.
Proof.
  induction a as [| x a IH]; simpl; [reflexivity|].
  now rewrite IH, orb_assoc.
Qed.

Lemma has_char_str_drop c n s :
  has_char c s = false -> has_char c (str_drop n s) = false.
Proof.
  revert s. induction n as [| n IH]; intros s H; [now destruct s|].
  destruct s as [| a s]; [reflexivity|]. simpl in *.
  apply orb_false_iff in H. now apply IH.
Qed.

Lemma has_char_split_first c d s :
  has_char c s = false -> has_char c (split_first d s) = false.
Proof.
  induction s as [| a s IH]; simpl; [reflexivity|]. intros H.
  apply orb_false_iff in H. destruct H as [H1 H2].
  destruct (ascii_is d a); simpl; [reflexivity|]. now rewrite H1, IH.
Qed.

Lemma split_first_app c a b :
  has_char c a = false -> split_first c (a ++ String c b) = a.
Proof.
  induction a as [| x a IH]; simpl; intros H.
  - now rewrite ascii_is_refl.
  - apply orb_false_iff in H. destruct H as [H1 H2]. now rewrite H1, IH.
Qed.

Lemma startswith_no_char c s : has_char c s = false -> startswith c s = false.
Proof. destruct s; simpl; [reflexivity|]. intros H. now apply orb_false_iff in H. Qed.

Lemma all_chars_app c a b : all_chars c (a ++ b) = all_chars c a && all_chars c b.
Proof.
  induction a as [| x a IH]; simpl; [reflexivity|]. now rewrite IH, andb_assoc.
Qed.

Lemma all_chars_no_char c s :
  s <> "" -> has_char c s = false -> all_chars c s = false.
Proof.
  destruct s as [| a s]; [congruence|]. simpl. intros _ H.
  apply orb_false_iff in H. destruct H as [-> _]. reflexivity.
Qed.

Lemma endswith_app c a b : b <> "" -> endswith c (a ++ b) = endswith c b.
Proof.
  intros Hb. induction a as [| x a IH]; [reflexivity|].
  simpl. destruct (a ++ b) eqn:E; [|exact IH].
  destruct a; simpl in E; [congruence | discriminate].
Qed.

Lemma rstrip_app c a b : rstrip c b <> "" -> rstrip c (a ++ b) = a ++ rstrip c b.
Proof.
  intros Hb. induction a as [| x a IH]; [reflexivity|].
  simpl. rewrite IH. destruct (a ++ rstrip c b) eqn:E; [|reflexivity].
  destruct a; simpl in E; [congruence | discriminate].
Qed.

(** *** [rfind] *)

Lemma rfind_at_none c s i last : has_char c s = false -> rfind_at c s i last = last.
Proof.
  revert i last. induction s as [| a s IH]; intros i last H; [reflexivity|].
  simpl in *. apply orb_false_iff in H. destruct H as [H1 H2].
  rewrite H1. now apply IH.
Qed.

Lemma rfind_at_app_none c a b i last :
  has_char c b = false -> rfind_at c (a ++ b) i last = rfind_at c a i last.
Proof.
  intros H. revert i last. induction a as [| x a IH]; intros i last; simpl.
  - now apply rfind_at_none.
  - apply IH.
Qed.

Lemma rfind_at_app c a b i last :
  has_char c b = false ->
  rfind_at c (a ++ String c b) i last = i + Z.of_nat (String.length a).
Proof.
  intros H. revert i last. induction a as [| x a IH]; intros i last.
  - simpl. rewrite ascii_is_refl, (rfind_at_none _ _ _ _ H). lia.
  - cbn [append rfind_at String.length]. rewrite IH. lia.
Qed.

Lemma rfind_at_bounds c s i last :
  last < i -> last <= rfind_at c s i last < i + Z.of_nat (String.length s).
Proof.
  revert i last. induction s as [| a s IH]; intros i last H.
  - simpl. lia.
  - cbn [rfind_at String.length].
    destruct (ascii_is c a).
    + specialize (IH (i + 1) i ltac:(lia)). lia.
    + specialize (IH (i + 1) last ltac:(lia)). lia.
Qed.

Lemma no_char_after_rfind_at c s i last n :
  last < i ->
  rfind_at c s i last < i + Z.of_nat n ->
  has_char c (str_drop n s) = false.
Proof.
  revert i last n. induction s as [| a s IH]; intros i last n L H.
  - now destruct n.
  - cbn [rfind_at] in H. destruct n as [| n].
    + cbn [str_drop has_char]. destruct (ascii_is c a) eqn:A.
      * pose proof (rfind_at_bounds c s (i + 1) i ltac:(lia)). lia.
      * simpl. apply (IH (i + 1) last 0%nat); [lia|]. cbn [Z.of_nat]. lia.
    + cbn [str_drop]. destruct (ascii_is c a).
      * apply (IH (i + 1) i n); lia.
      * apply (IH (i + 1) last n); lia.
Qed.

Lemma no_char_after_rfind c s i :
  str_rfind c s < i -> has_char c (slice_from s i) = false.
Proof.
  intros H. unfold slice_from. 
  pose proof (rfind_at_bounds c s 0 (-1) ltac:(lia)) as B. fold (str_rfind c s) in B.
  apply (no_char_after_rfind_at c s 0 (-1)); [lia|].
  fold (str_rfind c s). lia.
Qed.

(** *** The name holds no separator *)

Lemma basename_no_separator p : no_separator (ntpath.basename p).
Proof.
  unfold ntpath.basename. destruct (ntpath.splitdrive p) as [d rest].
  split; apply no_char_after_rfind; unfold ntpath.altsep; lia.
Qed.

Lemma name_no_separator self : no_separator (Slide.name self).
Proof.
  destruct (basename_no_separator (Slide._path self)) as [H1 H2].
  split; now apply has_char_split_first.
Qed.

Lemma split_first_has_no c s : has_char c (split_first c s) = false.
Proof.
  induction s as [| a s IH]; [reflexivity|].
  cbn [split_first]. destruct (ascii_is c a) eqn:A; [reflexivity|].
  cbn [has_char]. now rewrite A, IH.
Qed.

(** *** The extension [Image.save] sees *)

Lemma digits_no_dot d : has_char "." (NilEmpty.string_of_uint d) = false.
Proof. induction d; simpl; auto. Qed.

Lemma digits_no_slash d : has_char "/" (NilEmpty.string_of_uint d) = false.
Proof. induction d; simpl; auto. Qed.

Lemma str_of_int_no_dot z : has_char "." (str_of_int z) = false.
Proof.
  unfold str_of_int, NilZero.string_of_int, NilZero.string_of_uint.
  destruct (Z.to_int z) as [d | d]; destruct d; cbn [has_char];
    try reflexivity; apply digits_no_dot.
Qed.

Lemma str_of_int_no_slash z : has_char "/" (str_of_int z) = false.
Proof.
  unfold str_of_int, NilZero.string_of_int, NilZero.string_of_uint.
  destruct (Z.to_int z) as [d | d]; destruct d; cbn [has_char];
    try reflexivity; apply digits_no_slash.
Qed.

Lemma format_pyval_no_dot v : has_char "." (format_pyval v) = false.
Proof. destruct v; [reflexivity | apply str_of_int_no_dot]. Qed.

Lemma format_pyval_no_slash v : has_char "/" (format_pyval v) = false.
Proof. destruct v; [reflexivity | apply str_of_int_no_slash]. Qed.

Lemma endswith_inv c s : endswith c s = true -> exists d, s = d ++ String c "".
Proof.
  induction s as [| a s IH]; [discriminate|].
  cbn [endswith]. destruct s as [| b s].
  - intros H. apply Ascii.eqb_eq in H. subst. now exists "".
  - intros H. destruct (IH H) as [d ->]. now exists (String a d).
Qed.

(** The directory part [os.path.join] puts before a relative file name
    is empty or ends in a slash. *)
Lemma join1_directory path b :
  startswith posixpath.sep b = false ->
  exists P, posixpath.join1 path b = P ++ b
            /\ (P = "" \/ exists d, P = d ++ "/").
Proof.
  intros Hb. rewrite (join1_no_slash _ _ Hb).
  destruct (String.eqb path "") eqn:E1; cbn [orb].
  - apply String.eqb_eq in E1. exists path. split; [reflexivity | now left].
  - destruct (endswith posixpath.sep path) eqn:E2.
    + exists path. split; [reflexivity | right].
      now apply endswith_inv in E2.
    + exists (path ++ "/"). split; [reflexivity | right; now exists path].
Qed.

Section FileOfDirectory.

Variables P stem ext : string.
Hypothesis P_directory : P = "" \/ exists d, P = d ++ "/".
Hypothesis stem_no_slash : has_char "/" stem = false.
Hypothesis stem_no_dot : has_char "." stem = false.
Hypothesis ext_no_slash : has_char "/" ext = false.
Hypothesis ext_no_dot : has_char "." ext = false.

Let path := P ++ stem ++ String "." ext.

Lemma in_directory_rfind_slash :
  str_rfind "/" path + 1 = Z.of_nat (String.length P).
Proof.
  assert (F : has_char "/" (stem ++ String "." ext) = false).
  { rewrite has_char_app. cbn [has_char]. now rewrite stem_no_slash, ext_no_slash. }
  unfold str_rfind, path. destruct P_directory as [-> | [d ->]].
  - cbn [append]. now rewrite (rfind_at_none _ _ _ _ F).
  - rewrite str_app_assoc. cbn [append].
    rewrite (rfind_at_app "/" d _ 0 (-1) F).
    rewrite str_length_app. simpl String.length. lia.
Qed.

Lemma in_directory_rfind_dot :
  str_rfind "." path = Z.of_nat (String.length (P ++ stem)).
Proof.
  unfold str_rfind, path.
  replace (P ++ stem ++ String "." ext) with ((P ++ stem) ++ String "." ext)
    by now rewrite str_app_assoc.
  rewrite (rfind_at_app "." _ ext 0 (-1) ext_no_dot). lia.
Qed.

Lemma in_directory_splitext :
  posixpath.splitext path
  = if String.eqb stem "" then (path, "") else (P ++ stem, String "." ext).
Proof.
  unfold posixpath.splitext.
  change posixpath.sep with "/"%char. change posixpath.extsep with "."%char.
  rewrite in_directory_rfind_slash, in_directory_rfind_dot.
  pose proof in_directory_rfind_slash as S.
  assert (L : (str_rfind "/" path <? Z.of_nat (String.length (P ++ stem))) = true).
  { apply Z.ltb_lt. rewrite str_length_app. lia. }
  rewrite L.
  assert (E : path = (P ++ stem) ++ String "." ext).
  { unfold path. now rewrite str_app_assoc. }
  assert (E1 : slice_to path (Z.of_nat (String.length (P ++ stem))) = P ++ stem)
    by (rewrite E; apply slice_to_app).
  assert (E2 : slice_from path (Z.of_nat (String.length (P ++ stem)))
               = String "." ext)
    by (rewrite E; apply slice_from_app).
  rewrite E1, E2, slice_from_app.
  destruct (String.eqb stem "") eqn:N.
  - apply String.eqb_eq in N. now rewrite N.
  - apply String.eqb_neq in N.
    now rewrite (all_chars_no_char "." stem N stem_no_dot).
Qed.

End FileOfDirectory.

(** [Image.save] accepts a file [<stem>.png] of a directory, unless the
    stem is empty: the extension of [.png] is empty. *)
Lemma image_save_check img P stem :
  P = "" \/ (exists d, P = d ++ "/") ->
  has_char "/" stem = false -> has_char "." stem = false ->
  library_check (ImageSave img (P ++ stem ++ ".png"))
  = if String.eqb stem ""
    then Raise (ValueError "unknown file extension: ")
    else Ok tt.
Proof.
  intros HP S D. cbn [library_check].
  change (P ++ stem ++ ".png") with (P ++ stem ++ String "." "png").
  rewrite (in_directory_splitext P stem "png" HP S D eq_refl eq_refl).
  destruct (String.eqb stem ""); reflexivity.
Qed.

Lemma name_no_dot self : has_char "." (Slide.name self) = false.
Proof. apply split_first_has_no. Qed.

(** The scaled image path always carries the extension [.png]. *)
Lemma scaled_image_path_accepted self sf w p img :
  fst (Slide.scaled_image_path self sf w) = Ok p ->
  library_check (ImageSave img p) = Ok tt.
Proof.
  intros Hp. unfold Slide.scaled_image_path in Hp.
  destruct (breadcumb_inv _ _ _ _ _ Hp) as (W & H & fw & fh & _ & _ & _ & ->).
  unfold posixpath.join; cbn [fold_left]. unfold Slide.full_name.
  set (stem := Slide.name self ++ "-" ++ str_of_int sf ++ "x-"
                 ++ format_pyval (PInt W) ++ "x" ++ format_pyval (PInt H) ++ "-"
                 ++ format_pyval (PInt (math_floor fw)) ++ "x"
                 ++ format_pyval (PInt (math_floor fh))).
  assert (E : Slide.name self ++ "-" ++ str_of_int sf ++ "x-"
                ++ format_pyval (PInt W) ++ "x" ++ format_pyval (PInt H) ++ "-"
                ++ format_pyval (PInt (math_floor fw)) ++ "x"
                ++ format_pyval (PInt (math_floor fh)) ++ "." ++ IMG_EXT
              = stem ++ ".png").
  { unfold stem, IMG_EXT. now rewrite !str_app_assoc. }
  rewrite E.
  assert (S : has_char "/" stem = false).
  { unfold stem. rewrite !has_char_app, (proj1 (name_no_separator self)),
      str_of_int_no_slash, !format_pyval_no_slash. reflexivity. }
  assert (D : has_char "." stem = false).
  { unfold stem. rewrite !has_char_app, name_no_dot,
      str_of_int_no_dot, !format_pyval_no_dot. reflexivity. }
  assert (N : String.eqb stem "" = false).
  { apply String.eqb_neq. unfold stem. destruct (Slide.name self); discriminate. }
  assert (B : startswith posixpath.sep (stem ++ ".png") = false).
  { apply startswith_no_char. change posixpath.sep with "/"%char.
    rewrite has_char_app, S. reflexivity. }
  destruct (join1_directory (Slide._processed_path self) _ B) as (P & -> & HP).
  now rewrite (image_save_check img P stem HP S D), N.
Qed.

(** *** Thumbnails *)

Lemma join_thumbnails dir :
  exists P, posixpath.join dir ["thumbnails"] = P ++ "thumbnails".
Proof.
  unfold posixpath.join; cbn [fold_left].
  rewrite join1_no_slash by reflexivity. eauto.
Qed.

Lemma thumbnail_path_split self :
  let folder := posixpath.join (Slide._processed_path self) ["thumbnails"] in
  Slide.thumbnail_path self = folder ++ "/" ++ Slide.name self ++ ".png"
  /\ posixpath.dirname (Slide.thumbnail_path self) = folder.
Proof.
  intros folder.
  destruct (name_no_separator self) as [Hn _].
  set (fname := Slide.name self ++ ".png").
  assert (Hf : has_char "/" fname = false).
  { unfold fname. rewrite has_char_app, Hn. reflexivity. }
  destruct (join_thumbnails (Slide._processed_path self)) as [P EP].
  fold folder in EP.
  assert (T : Slide.thumbnail_path self = folder ++ String "/" fname).
  { unfold Slide.thumbnail_path, posixpath.join; cbn [fold_left].
    change (posixpath.join1 (Slide._processed_path self) "thumbnails") with folder.
    change (Slide.name self ++ "." ++ IMG_EXT) with fname.
    rewrite (join1_no_slash _ _ (startswith_no_char _ _ Hf)).
    assert (E1 : String.eqb folder "" = false).
    { rewrite EP. apply String.eqb_neq. destruct P; discriminate. }
    assert (E2 : endswith posixpath.sep folder = false).
    { rewrite EP, endswith_app by discriminate. reflexivity. }
    rewrite E1, E2. cbn [orb]. now rewrite str_app_assoc. }
  split; [exact T|].
  rewrite T. unfold posixpath.dirname, str_rfind.
  change (String "/" fname) with (String posixpath.sep fname).
  rewrite (rfind_at_app posixpath.sep folder fname 0 (-1) Hf).
  replace (0 + Z.of_nat (String.length folder) + 1)
    with (Z.of_nat (String.length (folder ++ "/"))).
  2:{ rewrite str_length_app. simpl String.length. lia. }
  replace (folder ++ String posixpath.sep fname) with ((folder ++ "/") ++ fname)
    by now rewrite str_app_assoc.
  rewrite slice_to_app.
  assert (H1 : String.eqb (folder ++ "/") "" = false).
  { apply String.eqb_neq. destruct folder; discriminate. }
  assert (H2 : all_chars posixpath.sep (folder ++ "/") = false).
  { rewrite EP, !all_chars_app. simpl. now rewrite andb_false_r. }
  rewrite H1, H2. cbn [negb andb].
  rewrite EP, str_app_assoc. rewrite rstrip_app; [reflexivity | discriminate].
Qed.

(** X4.  The thumbnail path is [<name>.png] directly inside the
    [thumbnails] directory of the output directory, and that directory is
    the [dirname] of the thumbnail path, whatever the slide path. *)
Theorem thumbnail_path_inside_thumbnails self :
  let folder := posixpath.join (Slide._processed_path self) ["thumbnails"] in
  Slide.thumbnail_path self = folder ++ "/" ++ Slide.name self ++ ".png"
  /\ posixpath.dirname (Slide.thumbnail_path self) = folder.
Proof. apply thumbnail_path_split. Qed.

(** X5.  [save_thumbnail()] creates the output directory, asks the
    container for its 300 x 300 thumbnail, creates the [thumbnails]
    directory and saves the thumbnail at [<output>/thumbnails/<name>.png].
    With a non-empty output path, a non-empty name, a readable container
    and a file system that accepts the three writes, it returns after
    these three writes.  When the name is empty (the file name of the
    slide starts with a dot) the file is [.png], which has no extension:
    [Image.save] raises [ValueError] and only the two directories have
    been created.  When the container cannot be opened it raises what
    [_wsi] raises, after having created the output directory only; when
    the output directory cannot be created it raises that error and
    writes nothing. *)
Theorem save_thumbnail_writes self w :
  let folder := posixpath.join (Slide._processed_path self) ["thumbnails"] in
  let img := ThumbnailOf (Slide._path self) (300, 300) in
  let file := folder ++ "/" ++ Slide.name self ++ ".png" in
  let made := (trace w ++ [MakeDirs (Slide._processed_path self)])%list in
  (forall slide,
      open_slide w (Slide._path self) = Ok slide ->
      get_thumbnail w (Slide._path self) = Ok tt ->
      Slide._processed_path self <> "" ->
      Slide.name self <> "" ->
      fs_error w (MakeDirs (Slide._processed_path self)) = None ->
      fs_error w (Mkdir folder) = None ->
      fs_error w (ImageSave img file) = None ->
      Slide.save_thumbnail self [] w
      = (Ok tt,
         with_trace w
           (trace w ++
            [MakeDirs (Slide._processed_path self);
             Mkdir folder;
             ImageSave img file])))
  /\ (forall slide,
         open_slide w (Slide._path self) = Ok slide ->
         get_thumbnail w (Slide._path self) = Ok tt ->
         write_outcome w (MakeDirs (Slide._processed_path self)) = Ok tt ->
         write_outcome w (Mkdir folder) = Ok tt ->
         Slide.name self = "" ->
         Slide.save_thumbnail self [] w
         = (Raise (ValueError "unknown file extension: "),
            with_trace w (made ++ [Mkdir folder])))
  /\ (forall e,
         open_slide w (Slide._path self) = Raise e ->
         write_outcome w (MakeDirs (Slide._processed_path self)) = Ok tt ->
         exists e',
           Slide._wsi self w = (Raise e', w)
           /\ Slide.save_thumbnail self [] w = (Raise e', with_trace w made))
  /\ (forall e,
         write_outcome w (MakeDirs (Slide._processed_path self)) = Raise e ->
         Slide.save_thumbnail self [] w = (Raise e, w)).
Proof.
  intros folder img file made.
  destruct (thumbnail_path_split self) as [T D].
  fold folder in T, D. fold file in T.
  assert (Run : forall slide,
             open_slide w (Slide._path self) = Ok slide ->
             get_thumbnail w (Slide._path self) = Ok tt ->
             write_outcome w (MakeDirs (Slide._processed_path self)) = Ok tt ->
             write_outcome w (Mkdir folder) = Ok tt ->
             Slide.save_thumbnail self [] w
             = emit (ImageSave img file) (with_trace w (made ++ [Mkdir folder]))).
  { intros slide E G Hm Hd. unfold Slide.save_thumbnail.
    rewrite <- (with_trace_trace w) at 1. rewrite (bind_emit_ok _ _ _ _ Hm).
    fold made.
    assert (O : fst (Slide._wsi self (with_trace w made)) = Ok slide).
    { unfold Slide._wsi, with_trace; cbn [open_slide]. now rewrite E. }
    rewrite (bind_reader_ok _ _ _ _ (reader_wsi self) O).
    unfold bind at 1. unfold with_trace at 1; cbn [get_thumbnail]. rewrite G.
    cbv zeta. rewrite D, T.
    change (World (open_slide w) (listdir w) made (fs_error w) (best_level w)
              (read_region w) (get_thumbnail w))
      with (with_trace w made).
    now rewrite (bind_emit_ok _ _ _ _ Hd). }
  assert (Lib : library_check (ImageSave img file)
                = if String.eqb (Slide.name self) ""
                  then Raise (ValueError "unknown file extension: ")
                  else Ok tt).
  { unfold file.
    replace (folder ++ "/" ++ Slide.name self ++ ".png")
      with ((folder ++ "/") ++ Slide.name self ++ ".png")
      by now rewrite str_app_assoc.
    apply image_save_check;
      [right; now exists folder
      | apply (proj1 (name_no_separator self)) | apply name_no_dot]. }
  split; [|split; [|split]].
  - intros slide E G Hp Hn Fm Fd Fs.
    rewrite (Run slide E G (makedirs_outcome_ok _ _ Hp Fm)
               (write_outcome_ok w (Mkdir folder) eq_refl Fd)).
    apply String.eqb_neq in Hn. rewrite Hn in Lib.
    rewrite (emit_ok _ _ _ (write_outcome_ok _ _ Lib Fs)).
    unfold made. now rewrite <- !app_assoc.
  - intros slide E G Hm Hd Hn.
    rewrite (Run slide E G Hm Hd).
    rewrite Hn in Lib. cbn [String.eqb] in Lib.
    now rewrite (emit_raise _ _ _ _ (write_outcome_library w _ _ Lib)).
  - intros e E Hm.
    destruct (wsi_raises self w e E) as (e' & W & _).
    exists e'. split.
    + specialize (W (trace w)). now rewrite with_trace_trace in W.
    + unfold Slide.save_thumbnail.
      rewrite <- (with_trace_trace w) at 1. rewrite (bind_emit_ok _ _ _ _ Hm).
      fold made. unfold bind. now rewrite (W made).
  - intros e Hm. unfold Slide.save_thumbnail.
    rewrite <- (with_trace_trace w) at 1. rewrite (bind_emit_raise _ _ _ _ _ Hm).
    now rewrite with_trace_trace.
Qed.

Lemma save_thumbnail_writes_witness :
  Slide.save_thumbnail (Slide.Make "/data/c.svs" "/out") [] world_three_slides
  = (Ok tt,
     with_trace world_three_slides
       [MakeDirs "/out"; Mkdir "/out/thumbnails";
        ImageSave (ThumbnailOf "/data/c.svs" (300, 300)) "/out/thumbnails/c.png"]).
Proof.
  apply (proj1 (save_thumbnail_writes (Slide.Make "/data/c.svs" "/out")
                  world_three_slides) (Wsi (PInt 50, PInt 300)));
    try reflexivity; discriminate.
Defined.

(** *** Name and extension of a plain path *)

Lemma str_take_nil n p : str_take n p = "" -> str_drop n p = p.
Proof. destruct n, p; simpl; congruence. Qed.

Lemma splitdrive_no_drive p :
  fst (ntpath.splitdrive p) = "" -> ntpath.splitdrive p = ("", p).
Proof.
  unfold ntpath.splitdrive.
  repeat match goal with
         | |- context [if ?b then _ else _] => destruct b
         end; cbn [fst]; intros H; try reflexivity;
    unfold slice_to in H; unfold slice_to, slice_from;
    now rewrite H, (str_take_nil _ _ H).
Qed.

Section PlainPath.

Variables dir stem ext : string.
Hypothesis stem_nonempty : stem <> "".
Hypothesis stem_no_sep : no_separator stem.
Hypothesis stem_no_dot : has_char "." stem = false.
Hypothesis ext_no_sep : no_separator ext.
Hypothesis ext_no_dot : has_char "." ext = false.

Let file := stem ++ String "." ext.
Let path := dir ++ String "/" file.

Lemma file_no_slash : has_char "/" file = false.
Proof.
  unfold file. rewrite has_char_app. cbn [has_char].
  now rewrite (proj1 stem_no_sep), (proj1 ext_no_sep).
Qed.

Lemma file_no_backslash : has_char ntpath.sep file = false.
Proof.
  unfold file. rewrite has_char_app. cbn [has_char].
  now rewrite (proj2 stem_no_sep), (proj2 ext_no_sep).
Qed.

Lemma path_rfind_slash : str_rfind "/" path = Z.of_nat (String.length dir).
Proof.
  unfold str_rfind, path. rewrite (rfind_at_app "/" dir file 0 (-1) file_no_slash).
  lia.
Qed.

Lemma path_rfind_backslash : str_rfind ntpath.sep path <= Z.of_nat (String.length dir).
Proof.
  unfold str_rfind, path.
  replace (dir ++ String "/" file) with ((dir ++ "/") ++ file)
    by now rewrite str_app_assoc.
  rewrite (rfind_at_app_none _ _ _ _ _ file_no_backslash).
  pose proof (rfind_at_bounds ntpath.sep (dir ++ "/") 0 (-1) ltac:(lia)) as B.
  rewrite str_length_app in B. simpl String.length in B. lia.
Qed.

Lemma path_rfind_dot :
  str_rfind "." path = Z.of_nat (String.length (dir ++ String "/" stem)).
Proof.
  unfold str_rfind, path, file.
  replace (dir ++ String "/" (stem ++ String "." ext))
    with ((dir ++ String "/" stem) ++ String "." ext)
    by now rewrite str_app_assoc.
  rewrite (rfind_at_app "." _ ext 0 (-1) ext_no_dot). lia.
Qed.

Lemma plain_basename :
  fst (ntpath.splitdrive path) = "" -> ntpath.basename path = file.
Proof.
  intros Hd. unfold ntpath.basename. rewrite (splitdrive_no_drive _ Hd).
  change ntpath.altsep with "/"%char. rewrite path_rfind_slash.
  rewrite Z.max_r by apply path_rfind_backslash.
  replace (Z.of_nat (String.length dir) + 1)
    with (Z.of_nat (String.length (dir ++ "/")))
    by (rewrite str_length_app; simpl String.length; lia).
  unfold path.
  replace (dir ++ String "/" file) with ((dir ++ "/") ++ file)
    by now rewrite str_app_assoc.
  apply slice_from_app.
Qed.

Lemma plain_splitext : posixpath.splitext path = (dir ++ String "/" stem, String "." ext).
Proof.
  unfold posixpath.splitext.
  change posixpath.sep with "/"%char. change posixpath.extsep with "."%char.
  rewrite path_rfind_slash, path_rfind_dot.
  assert (L : (Z.of_nat (String.length dir)
               <? Z.of_nat (String.length (dir ++ String "/" stem))) = true).
  { apply Z.ltb_lt. rewrite str_length_app. simpl String.length. lia. }
  rewrite L.
  assert (P : path = (dir ++ String "/" stem) ++ String "." ext).
  { unfold path, file. now rewrite str_app_assoc. }
  rewrite P, slice_to_app, slice_from_app.
  replace (Z.of_nat (String.length dir) + 1)
    with (Z.of_nat (String.length (dir ++ "/")))
    by (rewrite str_length_app; simpl String.length; lia).
  replace (dir ++ String "/" stem) with ((dir ++ "/") ++ stem) at 1
    by now rewrite str_app_assoc.
  rewrite slice_from_app.
  now rewrite (all_chars_no_char "." stem stem_nonempty stem_no_dot).
Qed.

End PlainPath.

(** X6.  For a path [dir/stem.ext] without drive, with a non-empty [stem]
    and with no dot or separator in [stem] and [ext], the name is [stem],
    the extension is [.ext], and name and extension together are the
    base name of the path. *)
Theorem name_and_extension_of_plain_path dir stem ext processed_path :
  let path := dir ++ "/" ++ stem ++ "." ++ ext in
  let self := Slide.Make path processed_path in
  fst (ntpath.splitdrive path) = "" ->
  stem <> "" ->
  no_separator stem -> has_char "." stem = false ->
  no_separator ext -> has_char "." ext = false ->
  Slide.name self = stem
  /\ Slide._extension self = "." ++ ext
  /\ Slide.name self ++ Slide._extension self = ntpath.basename path.
Proof.
  intros path self Hd Hs Ss Ds Se De. subst self path.
  change (dir ++ "/" ++ stem ++ "." ++ ext)
    with (dir ++ String "/" (stem ++ String "." ext)) in *.
  set (self := Slide.Make _ processed_path).
  assert (N : Slide.name self = stem).
  { unfold Slide.name, self. cbn [Slide._path].
    rewrite (plain_basename dir stem ext Ss Se Hd).
    now apply split_first_app. }
  assert (X : Slide._extension self = String "." ext).
  { unfold Slide._extension, self. cbn [Slide._path].
    now rewrite (plain_splitext dir stem ext Hs Ss Ds Se De). }
  split; [exact N|]. split; [exact X|].
  rewrite N, X. symmetry. apply (plain_basename dir stem ext Ss Se Hd).
Qed.

Lemma name_and_extension_of_plain_path_witness :
  Slide.name (Slide.Make "/data/CMU-1.svs" "/out") = "CMU-1"
  /\ Slide._extension (Slide.Make "/data/CMU-1.svs" "/out") = ".svs"
  /\ Slide.name (Slide.Make "/data/CMU-1.svs" "/out")
     ++ Slide._extension (Slide.Make "/data/CMU-1.svs" "/out")
     = ntpath.basename "/data/CMU-1.svs".
Proof.
  apply (name_and_extension_of_plain_path "/data" "CMU-1" "svs" "/out");
    try reflexivity; try discriminate; split; reflexivity.
Defined.

(** *** Decimal strings *)

Lemma digits_no_x d : has_char "x" (NilEmpty.string_of_uint d) = false.
Proof. induction d; simpl; auto. Qed.

Lemma str_of_int_no_x z : has_char "x" (str_of_int z) = false.
Proof.
  unfold str_of_int, NilZero.string_of_int, NilZero.string_of_uint.
  destruct (Z.to_int z) as [d | d]; destruct d; cbn [has_char];
    try reflexivity; apply digits_no_x.
Qed.

Lemma to_int_proper z :
  Z.to_int z <> Decimal.Pos Decimal.Nil /\ Z.to_int z <> Decimal.Neg Decimal.Nil.
Proof.
  destruct z as [| p | p]; simpl; split; try discriminate;
    intros [= E]; now apply (Unsigned.to_uint_nonnil p).
Qed.

Lemma str_of_int_inj a b : str_of_int a = str_of_int b -> a = b.
Proof.
  unfold str_of_int. intros E. apply DecimalZ.to_int_inj.
  destruct (to_int_proper a) as [A1 A2]. destruct (to_int_proper b) as [B1 B2].
  pose proof (NilZero.isi _ A1 A2) as Ia. pose proof (NilZero.isi _ B1 B2) as Ib.
  rewrite E in Ia. congruence.
Qed.

Lemma prefix_before_char c a b r r' :
  has_char c a = false -> has_char c b = false ->
  a ++ String c r = b ++ String c r' -> a = b.
Proof.
  revert b. induction a as [| x a IH]; intros b Ha Hb E.
  - destruct b as [| y b]; [reflexivity|]. simpl in *.
    injection E as <- _. apply orb_false_iff in Hb.
    rewrite ascii_is_refl in Hb. now destruct Hb.
  - destruct b as [| y b]; simpl in *.
    + injection E as -> _. apply orb_false_iff in Ha.
      rewrite ascii_is_refl in Ha. now destruct Ha.
    + injection E as <- E. apply orb_false_iff in Ha, Hb.
      f_equal. apply IH; tauto.
Qed.

(** X7.  For one slide, two different scale factors never give the same
    scaled image path. *)
Theorem scaled_image_path_separates_scale_factors self sf1 sf2 w p1 p2 :
  fst (Slide.scaled_image_path self sf1 w) = Ok p1 ->
  fst (Slide.scaled_image_path self sf2 w) = Ok p2 ->
  sf1 <> sf2 ->
  p1 <> p2.
Proof.
  intros P1 P2 Hsf. unfold Slide.scaled_image_path in *.
  destruct (breadcumb_inv _ _ _ _ _ P1) as (W1 & H1 & fw1 & fh1 & _ & _ & _ & ->).
  destruct (breadcumb_inv _ _ _ _ _ P2) as (W2 & H2 & fw2 & fh2 & _ & _ & _ & ->).
  unfold posixpath.join; cbn [fold_left]. unfold Slide.full_name.
  match goal with
  | |- posixpath.join1 _ (_ ++ "-" ++ _ ++ "x-" ++ ?r1)
       <> posixpath.join1 _ (_ ++ "-" ++ _ ++ "x-" ++ ?r2) =>
      set (rest1 := r1); set (rest2 := r2)
  end.
  destruct (join1_prefix (Slide._processed_path self) (Slide.name self)
              ("-" ++ str_of_int sf1 ++ "x-" ++ rest1)
              ("-" ++ str_of_int sf2 ++ "x-" ++ rest2) eq_refl) as [P [E1 E2]].
  rewrite E1, E2. intros C. apply str_app_inv_head in C.
  injection C as C. apply Hsf, str_of_int_inj.
  apply (prefix_before_char "x" _ _ ("-" ++ rest1) ("-" ++ rest2));
    [apply str_of_int_no_x | apply str_of_int_no_x | exact C].
Qed.

Lemma scaled_image_path_separates_scale_factors_witness :
  "/out/a-32x-100x100-3x3.png" <> "/out/a-16x-100x100-6x6.png".
Proof.
  apply (scaled_image_path_separates_scale_factors
           (Slide.Make "/data/a.svs" "/out") 32 16 world_three_slides);
    [reflexivity | reflexivity | discriminate].
Defined.

(** X8.  [save_scaled_image] creates the output directory, resamples
    the container and saves the image at the scaled image path.  When
    the resampled dimensions are (W, H, new_w, new_h) with both scaled
    dimensions at least 1, the container can be read and the file system
    accepts the two writes, it returns after having saved one image of
    size (new_w, new_h) at a path whose name carries the same four
    numbers.  When a scaled dimension is below 1 (the scale factor
    exceeds a dimension), [resize] raises [ValueError] and only the
    output directory has been created; so it is when the level query or
    the reading of the region fails, or when the resampled dimensions
    cannot be computed.  When the output directory cannot be created it
    raises that error and writes nothing. *)
Theorem save_scaled_image_writes self sf w :
  let made := (trace w ++ [MakeDirs (Slide._processed_path self)])%list in
  (forall W H new_w new_h level,
      fst (Slide._resampled_dimensions self sf w)
      = Ok (PInt W, PInt H, PInt new_w, PInt new_h) ->
      1 <= new_w -> 1 <= new_h ->
      best_level w (Slide._path self) sf = Ok level ->
      read_region w (Slide._path self) level = Ok tt ->
      let img := Resized (Slide._path self) (PInt new_w, PInt new_h) in
      let file :=
        posixpath.join (Slide._processed_path self)
          [Slide.name self ++ "-" ++ str_of_int sf ++ "x-"
             ++ str_of_int W ++ "x" ++ str_of_int H ++ "-"
             ++ str_of_int new_w ++ "x" ++ str_of_int new_h ++ ".png"] in
      Slide._processed_path self <> "" ->
      fs_error w (MakeDirs (Slide._processed_path self)) = None ->
      fs_error w (ImageSave img file) = None ->
      Slide.save_scaled_image self sf w
      = (Ok tt,
         with_trace w
           (trace w ++
            [MakeDirs (Slide._processed_path self); ImageSave img file])))
  /\ (forall W H new_w new_h level,
         fst (Slide._resampled_dimensions self sf w)
         = Ok (PInt W, PInt H, PInt new_w, PInt new_h) ->
         new_w < 1 \/ new_h < 1 ->
         best_level w (Slide._path self) sf = Ok level ->
         read_region w (Slide._path self) level = Ok tt ->
         write_outcome w (MakeDirs (Slide._processed_path self)) = Ok tt ->
         Slide.save_scaled_image self sf w
         = (Raise (ValueError "height and width must be > 0"),
            with_trace w made))
  /\ (forall lw lh nw nh e,
         fst (Slide._resampled_dimensions self sf w) = Ok (lw, lh, nw, nh) ->
         best_level w (Slide._path self) sf = Raise e
         \/ (exists level,
                best_level w (Slide._path self) sf = Ok level
                /\ read_region w (Slide._path self) level = Raise e) ->
         write_outcome w (MakeDirs (Slide._processed_path self)) = Ok tt ->
         Slide.save_scaled_image self sf w = (Raise e, with_trace w made))
  /\ (forall e,
         fst (Slide._resampled_dimensions self sf w) = Raise e ->
         write_outcome w (MakeDirs (Slide._processed_path self)) = Ok tt ->
         Slide.save_scaled_image self sf w = (Raise e, with_trace w made))
  /\ (forall e,
         write_outcome w (MakeDirs (Slide._processed_path self)) = Raise e ->
         Slide.save_scaled_image self sf w = (Raise e, w)).
Proof.
  intros made. split; [|split; [|split; [|split]]].
  - intros W H nw nh level R Hw Hh B G img file Hp Fm Fs.
    assert (I : fst (Slide._resample self sf w) = Ok img).
    { rewrite (resample_run _ _ _ _ _ _ _ R), B. cbn [rbind]. rewrite G.
      cbn [rbind Slide.pil_resize].
      destruct (nw <? 1) eqn:C1; [lia|]. destruct (nh <? 1) eqn:C2; [lia|].
      reflexivity. }
    assert (P : fst (Slide.scaled_image_path self sf w) = Ok file).
    { unfold Slide.scaled_image_path. now rewrite (breadcumb_ok _ _ _ _ _ _ _ _ R). }
    rewrite <- (with_trace_trace w) at 1. rewrite save_scaled_image_run.
    rewrite (makedirs_outcome_ok _ _ Hp Fm). cbv zeta. rewrite I, P.
    rewrite (write_outcome_ok _ _ (scaled_image_path_accepted _ _ _ _ img P) Fs).
    now rewrite <- app_assoc.
  - intros W H nw nh level R Hs B G Hm.
    apply save_scaled_image_no_image; [exact Hm|].
    rewrite (resample_run _ _ _ _ _ _ _ R), B. cbn [rbind]. rewrite G.
    cbn [rbind Slide.pil_resize].
    destruct (nw <? 1) eqn:C1; [reflexivity|].
    destruct (nh <? 1) eqn:C2; [reflexivity | lia].
  - intros lw lh nw nh e R Hq Hm.
    apply save_scaled_image_no_image; [exact Hm|].
    rewrite (resample_run _ _ _ _ _ _ _ R).
    destruct Hq as [B | (level & B & G)].
    + now rewrite B.
    + rewrite B. cbn [rbind]. now rewrite G.
  - intros e R Hm.
    apply save_scaled_image_no_image; [exact Hm | now apply resample_raise].
  - intros e Hm. now apply save_scaled_image_refused.
Qed.

Lemma save_scaled_image_writes_witness :
  Slide.save_scaled_image (Slide.Make "/data/b.tiff" "/out") 32 world_three_slides
  = (Ok tt,
     with_trace world_three_slides
       [MakeDirs "/out";
        ImageSave (Resized "/data/b.tiff" (PInt 6, PInt 1))
          "/out/b-32x-200x50-6x1.png"]).
Proof.
  apply (proj1 (save_scaled_image_writes (Slide.Make "/data/b.tiff" "/out") 32
                  world_three_slides) 200 50 6 1 0);
    try reflexivity; try lia; discriminate.
Defined.

(** *** Readers of the collection *)

Lemma reader_map_M {A B} (f : A -> M B) l :
  (forall a, reader (f a)) -> reader (SlideSet.map_M f l).
Proof.
  intros Hf. induction l as [| x l IH]; [apply reader_ret|].
  cbn [SlideSet.map_M].
  apply reader_bind; [apply Hf | intros y].
  apply reader_bind; [exact IH | intros ys; apply reader_ret].
Qed.

Lemma reader_dims_of s : reader (SlideSet.dims_of s).
Proof.
  unfold SlideSet.dims_of.
  repeat (apply reader_bind; [apply reader_dimensions | intros ?]).
  apply reader_bind; [apply reader_lift | intros; apply reader_ret].
Qed.

Lemma reader_slides_dimensions self : reader (SlideSet.slides_dimensions self).
Proof.
  apply reader_bind; [apply reader_slides | intros l].
  apply reader_map_M, reader_dims_of.
Qed.

Lemma reader_avg_of key self : reader (SlideSet.avg_of key self).
Proof.
  apply reader_bind; [apply reader_slides_dimensions | intros ds].
  apply reader_bind; [apply reader_lift | intros total].
  apply reader_bind; [apply reader_total_slides | intros n].
  apply reader_bind; [apply reader_lift | intros f; apply reader_ret].
Qed.

Ltac reader_extremum :=
  apply reader_bind; [apply reader_slides_dimensions | intros ?];
  apply reader_bind; [apply reader_lift | intros ?; apply reader_ret].

Lemma reader_max_width self : reader (SlideSet._max_width_slide self).
Proof. reader_extremum. Qed.
Lemma reader_max_height self : reader (SlideSet._max_height_slide self).
Proof. reader_extremum. Qed.
Lemma reader_max_size self : reader (SlideSet._max_size_slide self).
Proof. reader_extremum. Qed.
Lemma reader_min_width self : reader (SlideSet._min_width_slide self).
Proof. reader_extremum. Qed.
Lemma reader_min_height self : reader (SlideSet._min_height_slide self).
Proof. reader_extremum. Qed.
Lemma reader_min_size self : reader (SlideSet._min_size_slide self).
Proof. reader_extremum. Qed.

Lemma reader_slides_stats self : reader (SlideSet.slides_stats self).
Proof.
  unfold SlideSet.slides_stats.
  apply reader_bind; [apply reader_total_slides | intros ?].
  apply reader_bind; [apply reader_max_width | intros ?].
  apply reader_bind; [apply reader_max_height | intros ?].
  apply reader_bind; [apply reader_max_size | intros ?].
  apply reader_bind; [apply reader_min_width | intros ?].
  apply reader_bind; [apply reader_min_height | intros ?].
  apply reader_bind; [apply reader_min_size | intros ?].
  apply reader_bind; [apply reader_avg_of | intros ?].
  apply reader_bind; [apply reader_avg_of | intros ?].
  apply reader_bind; [apply reader_avg_of | intros ?].
  apply reader_bind; [apply reader_slides | intros ?].
  apply reader_bind; [apply reader_map_M, reader_dimensions | intros ?].
  apply reader_bind; [apply reader_lift | intros [x y]].
  apply reader_bind; [apply reader_total_slides | intros ?].
  apply reader_bind; [apply reader_total_slides | intros ?].
  apply reader_ret.
Qed.

(** *** [slides_dimensions] *)

Lemma reader_ok_inv {A B} (c : M A) (k : A -> M B) w b :
  reader c -> fst (bind c k w) = Ok b ->
  exists a, fst (c w) = Ok a /\ fst (k a w) = Ok b.
Proof.
  intros Hc H. destruct (fst (c w)) as [a | e] eqn:E.
  - rewrite (bind_reader_ok _ _ _ _ Hc E) in H. eauto.
  - rewrite (bind_reader_raise _ _ _ _ Hc E) in H. discriminate.
Qed.

Lemma map_M_inv {A B} (f : A -> M B) l w ys :
  (forall a, reader (f a)) ->
  fst (SlideSet.map_M f l w) = Ok ys ->
  Forall2 (fun a y => fst (f a w) = Ok y) l ys.
Proof.
  intros Hf. revert ys. induction l as [| x l IH]; intros ys H.
  - injection H as <-. constructor.
  - cbn [SlideSet.map_M] in H.
    apply (reader_ok_inv _ _ _ _ (Hf x)) in H. destruct H as (y & Ey & H).
    apply (reader_ok_inv _ _ _ _ (reader_map_M f l Hf)) in H.
    destruct H as (ys' & Eys & H). injection H as <-.
    constructor; auto.
Qed.

Lemma map_M_ok {A B} (f : A -> M B) l w ys :
  (forall a, reader (f a)) ->
  Forall2 (fun a y => fst (f a w) = Ok y) l ys ->
  fst (SlideSet.map_M f l w) = Ok ys.
Proof.
  intros Hf. induction 1 as [| x y l ys E _ IH]; [reflexivity|].
  cbn [SlideSet.map_M].
  rewrite (bind_reader_ok _ _ _ _ (Hf x) E).
  rewrite (bind_reader_ok _ _ _ _ (reader_map_M f l Hf) IH). reflexivity.
Qed.

Lemma dims_of_inv s w d : fst (SlideSet.dims_of s w) = Ok d -> dims_record w s d.
Proof.
  unfold SlideSet.dims_of. intros H.
  apply (reader_ok_inv _ _ _ _ (reader_dimensions s)) in H. destruct H as (d1 & E1 & H).
  apply (reader_ok_inv _ _ _ _ (reader_dimensions s)) in H. destruct H as (d2 & E2 & H).
  apply (reader_ok_inv _ _ _ _ (reader_dimensions s)) in H. destruct H as (d3 & E3 & H).
  apply (reader_ok_inv _ _ _ _ (reader_dimensions s)) in H. destruct H as (d4 & E4 & H).
  assert (d2 = d1) by congruence. assert (d3 = d1) by congruence.
  assert (d4 = d1) by congruence. subst d2 d3 d4.
  apply dimensions_inv in E1. destruct d1 as [a b]. cbn [fst snd] in H.
  unfold bind, lift, ret in H.
  destruct a as [| W], b as [| H']; try discriminate H.
  cbn in H. injection H as <-. exists W, H'. split; [exact E1 | reflexivity].
Qed.

Lemma dims_of_ok s w d : dims_record w s d -> fst (SlideSet.dims_of s w) = Ok d.
Proof.
  intros (W & H & E & ->). unfold SlideSet.dims_of.
  pose proof (dimensions_ok _ _ _ _ E) as D.
  rewrite !(bind_reader_ok _ _ _ _ (reader_dimensions s) D). reflexivity.
Qed.

Lemma slides_dimensions_inv self w ds :
  fst (SlideSet.slides_dimensions self w) = Ok ds ->
  exists entries,
    listdir w (SlideSet._slides_path self) = Ok entries /\
    Forall2 (dims_record w) (SlideSet.slides_of self entries) ds.
Proof.
  unfold SlideSet.slides_dimensions. intros H.
  apply (reader_ok_inv _ _ _ _ (reader_slides self)) in H. destruct H as (l & El & H).
  destruct (slides_inv _ _ _ El) as (entries & E & ->).
  exists entries. split; [exact E|].
  apply (map_M_inv _ _ _ _ reader_dims_of) in H.
  revert H. apply Forall2_impl. intros s d. apply dims_of_inv.
Qed.

Lemma slides_dimensions_ok self w entries ds :
  listdir w (SlideSet._slides_path self) = Ok entries ->
  Forall2 (dims_record w) (SlideSet.slides_of self entries) ds ->
  fst (SlideSet.slides_dimensions self w) = Ok ds.
Proof.
  intros E F. unfold SlideSet.slides_dimensions.
  rewrite (bind_reader_ok _ _ _ _ (reader_slides self) (slides_ok _ _ _ E)).
  apply (map_M_ok _ _ _ _ reader_dims_of).
  revert F. apply Forall2_impl. intros s d. apply dims_of_ok.
Qed.

(** X9.  [slides_dimensions] returns exactly when every slide of the
    collection opens with integer dimensions, and then holds, in order,
    one record per slide with its name, width, height and
    size = width * height; a single slide whose dimensions cannot be read
    makes the whole call raise; the call writes nothing. *)
Theorem slides_dimensions_all_or_nothing self w entries :
  listdir w (SlideSet._slides_path self) = Ok entries ->
  let l := SlideSet.slides_of self entries in
  (forall ds,
      fst (SlideSet.slides_dimensions self w) = Ok ds <->
      Forall2 (dims_record w) l ds)
  /\ (forall s e,
         In s l -> fst (Slide.dimensions s w) = Raise e ->
         exists e', fst (SlideSet.slides_dimensions self w) = Raise e')
  /\ snd (SlideSet.slides_dimensions self w) = w.
Proof.
  intros E l. split; [|split].
  - intros ds. split.
    + intros H. destruct (slides_dimensions_inv _ _ _ H) as (entries' & E' & F).
      assert (entries' = entries) by congruence. now subst.
    + now apply slides_dimensions_ok.
  - intros s e I D.
    destruct (fst (SlideSet.slides_dimensions self w)) as [ds | e'] eqn:R; [|eauto].
    exfalso. destruct (slides_dimensions_inv _ _ _ R) as (entries' & E' & F).
    assert (entries' = entries) by congruence. subst entries'. fold l in F.
    clearbody l. clear - F I D.
    induction F as [| s' d l ds' Rec _ IH]; [contradiction|].
    destruct I as [-> | I]; [|auto].
    destruct Rec as (W & H & O & _).
    rewrite (dimensions_ok _ _ _ _ O) in D. discriminate.
  - apply reader_slides_dimensions.
Qed.

Lemma slides_dimensions_all_or_nothing_witness :
  fst (SlideSet.slides_dimensions demo_set world_three_slides)
  = Ok [SlideDims "a" (PInt 100) (PInt 100) (PInt 10000);
        SlideDims "b" (PInt 200) (PInt 50) (PInt 10000);
        SlideDims "c" (PInt 50) (PInt 300) (PInt 15000)].
Proof.
  apply (proj1 (slides_dimensions_all_or_nothing demo_set world_three_slides
                  demo_entries eq_refl)).
  repeat constructor.
  - exists 100, 100. split; reflexivity.
  - exists 200, 50. split; reflexivity.
  - exists 50, 300. split; reflexivity.
Defined.

(** *** The scan of [max] and [min] *)

Section Scan.

Context {A : Type}.
Variable key : A -> pyval.
Variable better : pyval -> pyval -> result bool.
Variable beats : Z -> Z -> Prop.

Hypothesis better_spec :
  forall x y, exists b, better (PInt x) (PInt y) = Ok b /\ (b = true <-> beats x y).
Hypothesis beats_trans : forall x c a, beats x c -> beats c a -> beats x a.
Hypothesis beats_mixed : forall x c a, beats x c -> ~ beats a c -> beats x a.

Lemma best_by_scan l :
  forall l1 cur l2,
    Forall (fun x => exists z, key x = PInt z) (cur :: l) ->
    (forall d, In d l1 -> beats (int_of (key cur)) (int_of (key d))) ->
    (forall d, In d l2 -> ~ beats (int_of (key d)) (int_of (key cur))) ->
    exists m k1 k2,
      best_by better key cur l = Ok m /\
      (l1 ++ cur :: l2 ++ l = k1 ++ m :: k2)%list /\
      (forall d, In d k1 -> beats (int_of (key m)) (int_of (key d))) /\
      (forall d, In d k2 -> ~ beats (int_of (key d)) (int_of (key m))).
Proof.
  induction l as [| x l IH]; intros l1 cur l2 F H1 H2.
  - exists cur, l1, l2. rewrite app_nil_r. auto.
  - inversion F as [| ? ? [zc Ec] F']; subst.
    inversion F' as [| ? ? [zx Ex] F'']; subst.
    cbn [best_by]. rewrite Ex, Ec.
    destruct (better_spec zx zc) as (b & -> & Hb). cbn [rbind].
    destruct b.
    + assert (B : beats zx zc) by now apply Hb.
      destruct (IH (l1 ++ cur :: l2)%list x []) as (m & k1 & k2 & E & S & K1 & K2).
      * now constructor; eauto.
      * intros d I. rewrite Ex. cbn [int_of].
        apply in_app_or in I. destruct I as [I | [<- | I]].
        -- apply (beats_trans _ zc); [exact B|].
           specialize (H1 d I). now rewrite Ec in H1.
        -- now rewrite Ec.
        -- apply (beats_mixed _ zc); [exact B|].
           specialize (H2 d I). now rewrite Ec in H2.
      * intros d [].
      * exists m, k1, k2. repeat split; auto.
        rewrite <- S. cbn [app]. now rewrite <- app_assoc.
    + assert (B : ~ beats zx zc) by (intros C; apply Hb in C; discriminate).
      destruct (IH l1 cur (l2 ++ [x])%list) as (m & k1 & k2 & E & S & K1 & K2).
      * now constructor; eauto.
      * exact H1.
      * intros d I. apply in_app_or in I. destruct I as [I | [<- | []]].
        -- now apply H2.
        -- now rewrite Ex, Ec.
      * exists m, k1, k2. repeat split; auto.
        rewrite <- S. now rewrite <- app_assoc.
Qed.

End Scan.

Lemma py_max_first A (key : A -> pyval) l :
  l <> [] ->
  Forall (fun x => exists z, key x = PInt z) l ->
  exists m k1 k2,
    py_max key l = Ok m /\ l = (k1 ++ m :: k2)%list /\
    (forall d, In d k1 -> int_of (key m) > int_of (key d)) /\
    (forall d, In d k2 -> ~ int_of (key d) > int_of (key m)).
Proof.
  intros Hl F. destruct l as [| x l]; [congruence|].
  assert (S1 : forall a b, exists c, py_gt (PInt a) (PInt b) = Ok c
                                     /\ (c = true <-> a > b)).
  { intros a b. exists (b <? a). split; [reflexivity|]. rewrite Z.ltb_lt. lia. }
  assert (S2 : forall a c b : Z, a > c -> c > b -> a > b) by (intros; lia).
  assert (S3 : forall a c b : Z, a > c -> ~ b > c -> a > b) by (intros; lia).
  destruct (best_by_scan key py_gt Z.gt S1 S2 S3 l [] x [] F)
    as (m & k1 & k2 & E & S & K1 & K2); [intros d [] | intros d [] |].
  exists m, k1, k2. auto.
Qed.

Lemma py_min_first A (key : A -> pyval) l :
  l <> [] ->
  Forall (fun x => exists z, key x = PInt z) l ->
  exists m k1 k2,
    py_min key l = Ok m /\ l = (k1 ++ m :: k2)%list /\
    (forall d, In d k1 -> int_of (key m) < int_of (key d)) /\
    (forall d, In d k2 -> ~ int_of (key d) < int_of (key m)).
Proof.
  intros Hl F. destruct l as [| x l]; [congruence|].
  assert (S1 : forall a b, exists c, py_lt (PInt a) (PInt b) = Ok c
                                     /\ (c = true <-> a < b)).
  { intros a b. exists (a <? b). split; [reflexivity | apply Z.ltb_lt]. }
  assert (S2 : forall a c b : Z, a < c -> c < b -> a < b) by (intros; lia).
  assert (S3 : forall a c b : Z, a < c -> ~ b < c -> a < b) by (intros; lia).
  destruct (best_by_scan key py_lt Z.lt S1 S2 S3 l [] x [] F)
    as (m & k1 & k2 & E & S & K1 & K2); [intros d [] | intros d [] |].
  exists m, k1, k2. auto.
Qed.

Lemma records_are_ints w l ds :
  Forall2 (dims_record w) l ds ->
  Forall (fun d => exists z, d_width d = PInt z) ds
  /\ Forall (fun d => exists z, d_height d = PInt z) ds
  /\ Forall (fun d => exists z, d_size d = PInt z) ds.
Proof.
  induction 1 as [| s d l ds (W & H & _ & ->) _ (IH1 & IH2 & IH3)].
  - repeat split; constructor.
  - repeat split; constructor; cbn; eauto.
Qed.

(** X10.  On a non-empty collection, [_max_width_slide],
    [_max_height_slide] and [_max_size_slide] name the first slide, in
    enumeration order, whose width, height or size no other slide
    exceeds, and give that value under the key of the quantity. *)
Theorem max_slides_first_maximum self w ds :
  fst (SlideSet.slides_dimensions self w) = Ok ds ->
  ds <> [] ->
  exists mw mh ms,
    first_extremum Z.gt d_width ds mw
    /\ fst (SlideSet._max_width_slide self w) = Ok (extremal_entry "width" d_width mw)
    /\ first_extremum Z.gt d_height ds mh
    /\ fst (SlideSet._max_height_slide self w) = Ok (extremal_entry "height" d_height mh)
    /\ first_extremum Z.gt d_size ds ms
    /\ fst (SlideSet._max_size_slide self w) = Ok (extremal_entry "size" d_size ms).
Proof.
  intros D Hds.
  destruct (slides_dimensions_inv _ _ _ D) as (entries & _ & F).
  destruct (records_are_ints _ _ _ F) as (Fw & Fh & Fs).
  destruct (py_max_first _ d_width ds Hds Fw) as (mw & a1 & a2 & Ew & Sw & A1 & A2).
  destruct (py_max_first _ d_height ds Hds Fh) as (mh & b1 & b2 & Eh & Sh & B1 & B2).
  destruct (py_max_first _ d_size ds Hds Fs) as (ms & c1 & c2 & Es & Ss & C1 & C2).
  exists mw, mh, ms.
  unfold SlideSet._max_width_slide, SlideSet._max_height_slide,
    SlideSet._max_size_slide.
  rewrite !(bind_reader_ok _ _ _ _ (reader_slides_dimensions self) D).
  unfold bind, lift, ret. rewrite Ew, Eh, Es.
  repeat split; try reflexivity;
    [exists a1, a2 | exists b1, b2 | exists c1, c2]; auto.
Qed.

(** X11.  On a non-empty collection, [_min_width_slide],
    [_min_height_slide] and [_min_size_slide] name the first slide, in
    enumeration order, with the least width, height or size; the least
    size is given under the key [height]. *)
Theorem min_slides_first_minimum self w ds :
  fst (SlideSet.slides_dimensions self w) = Ok ds ->
  ds <> [] ->
  exists mw mh ms,
    first_extremum Z.lt d_width ds mw
    /\ fst (SlideSet._min_width_slide self w) = Ok (extremal_entry "width" d_width mw)
    /\ first_extremum Z.lt d_height ds mh
    /\ fst (SlideSet._min_height_slide self w) = Ok (extremal_entry "height" d_height mh)
    /\ first_extremum Z.lt d_size ds ms
    /\ fst (SlideSet._min_size_slide self w) = Ok (extremal_entry "height" d_size ms).
Proof.
  intros D Hds.
  destruct (slides_dimensions_inv _ _ _ D) as (entries & _ & F).
  destruct (records_are_ints _ _ _ F) as (Fw & Fh & Fs).
  destruct (py_min_first _ d_width ds Hds Fw) as (mw & a1 & a2 & Ew & Sw & A1 & A2).
  destruct (py_min_first _ d_height ds Hds Fh) as (mh & b1 & b2 & Eh & Sh & B1 & B2).
  destruct (py_min_first _ d_size ds Hds Fs) as (ms & c1 & c2 & Es & Ss & C1 & C2).
  exists mw, mh, ms.
  unfold SlideSet._min_width_slide, SlideSet._min_height_slide,
    SlideSet._min_size_slide.
  rewrite !(bind_reader_ok _ _ _ _ (reader_slides_dimensions self) D).
  unfold bind, lift, ret. rewrite Ew, Eh, Es.
  repeat split; try reflexivity;
    [exists a1, a2 | exists b1, b2 | exists c1, c2]; auto.
Qed.

Lemma max_slides_first_maximum_witness :
  exists mw mh ms,
    first_extremum Z.gt d_width demo_dims mw
    /\ fst (SlideSet._max_width_slide demo_set world_three_slides)
       = Ok (extremal_entry "width" d_width mw)
    /\ first_extremum Z.gt d_height demo_dims mh
    /\ fst (SlideSet._max_height_slide demo_set world_three_slides)
       = Ok (extremal_entry "height" d_height mh)
    /\ first_extremum Z.gt d_size demo_dims ms
    /\ fst (SlideSet._max_size_slide demo_set world_three_slides)
       = Ok (extremal_entry "size" d_size ms).
Proof.
  apply (max_slides_first_maximum demo_set world_three_slides demo_dims);
    [reflexivity | discriminate].
Defined.

Lemma min_slides_first_minimum_witness :
  exists mw mh ms,
    first_extremum Z.lt d_width demo_dims mw
    /\ fst (SlideSet._min_width_slide demo_set world_three_slides)
       = Ok (extremal_entry "width" d_width mw)
    /\ first_extremum Z.lt d_height demo_dims mh
    /\ fst (SlideSet._min_height_slide demo_set world_three_slides)
       = Ok (extremal_entry "height" d_height mh)
    /\ first_extremum Z.lt d_size demo_dims ms
    /\ fst (SlideSet._min_size_slide demo_set world_three_slides)
       = Ok (extremal_entry "height" d_size ms).
Proof.
  apply (min_slides_first_minimum demo_set world_three_slides demo_dims);
    [reflexivity | discriminate].
Defined.

(** *** The empty collection *)

Lemma slides_dimensions_empty self w :
  fst (SlideSet.total_slides self w) = Ok 0 ->
  fst (SlideSet.slides_dimensions self w) = Ok [].
Proof.
  intros T. destruct (total_slides_inv _ _ _ T) as [entries [E L]].
  apply (slides_dimensions_ok _ _ entries); [exact E|].
  destruct (SlideSet.slides_of self entries); [constructor | discriminate L].
Qed.

(** X12.  On a collection without slides, [slides_dimensions] returns the
    empty list, the three maxima and the three minima raise [ValueError]
    (of [max] and of [min]), and the three averages raise
    [ZeroDivisionError]. *)
Theorem statistics_of_empty_collection self w :
  fst (SlideSet.total_slides self w) = Ok 0 ->
  let empty_max := Raise (ValueError "max() arg is an empty sequence") in
  let empty_min := Raise (ValueError "min() arg is an empty sequence") in
  fst (SlideSet.slides_dimensions self w) = Ok []
  /\ fst (SlideSet._max_width_slide self w) = empty_max
  /\ fst (SlideSet._max_height_slide self w) = empty_max
  /\ fst (SlideSet._max_size_slide self w) = empty_max
  /\ fst (SlideSet._min_width_slide self w) = empty_min
  /\ fst (SlideSet._min_height_slide self w) = empty_min
  /\ fst (SlideSet._min_size_slide self w) = empty_min
  /\ fst (SlideSet._avg_width_slide self w) = Raise ZeroDivisionError
  /\ fst (SlideSet._avg_height_slide self w) = Raise ZeroDivisionError
  /\ fst (SlideSet._avg_size_slide self w) = Raise ZeroDivisionError.
Proof.
  intros T emax emin. pose proof (slides_dimensions_empty _ _ T) as D.
  split; [exact D|].
  unfold SlideSet._max_width_slide, SlideSet._max_height_slide,
    SlideSet._max_size_slide, SlideSet._min_width_slide,
    SlideSet._min_height_slide, SlideSet._min_size_slide,
    SlideSet._avg_width_slide, SlideSet._avg_height_slide,
    SlideSet._avg_size_slide, SlideSet.avg_of.
  rewrite !(bind_reader_ok _ _ _ _ (reader_slides_dimensions self) D).
  cbn [map py_sum sum_from].
  change (lift (Ok 0)) with (@ret Z 0).
  repeat split; try reflexivity;
    unfold bind at 1, ret at 1;
    now rewrite (bind_reader_ok _ _ _ _ (reader_total_slides self) T).
Qed.

Lemma statistics_of_empty_collection_witness :
  fst (SlideSet._avg_width_slide demo_set world_empty_dir) = Raise ZeroDivisionError.
Proof.
  exact (proj1 (proj2 (proj2 (proj2 (proj2 (proj2 (proj2 (proj2
           (statistics_of_empty_collection demo_set world_empty_dir eq_refl)))))))))
.
Defined.

(** *** [slides_stats] when it returns *)

Lemma reader_world {A} (c : M A) w a w' : reader c -> c w = (a, w') -> w' = w.
Proof. intros H E. destruct (H w) as [S _]. now rewrite E in S. Qed.

Lemma for_all2_length {A B} (P : A -> B -> Prop) l l' :
  Forall2 P l l' -> List.length l = List.length l'.
Proof. induction 1; simpl; congruence. Qed.

(** X13.  Whenever [slides_stats] returns, the collection is not empty,
    [no_of_slides] is the number of slides, the scatter has one point
    per slide and marker size 8 times that number, and nothing has been
    written. *)
Theorem slides_stats_counts self w stats fig :
  fst (SlideSet.slides_stats self w) = Ok (stats, fig) ->
  exists entries,
    listdir w (SlideSet._slides_path self) = Ok entries
    /\ let total := Z.of_nat (List.length (SlideSet.slides_of self entries)) in
       0 < total
       /\ dict_get "no_of_slides" stats = Some (ONum (PInt total))
       /\ Z.of_nat (List.length (fig_x fig)) = total
       /\ Z.of_nat (List.length (fig_y fig)) = total
       /\ fig_sizes fig = 8 * total
       /\ snd (SlideSet.slides_stats self w) = w.
Proof.
  intros H. pose proof (proj1 (reader_slides_stats self w)) as Sw.
  unfold SlideSet.slides_stats in H.
  apply (reader_ok_inv _ _ _ _ (reader_total_slides self)) in H.
  destruct H as (n & En & H).
  apply (reader_ok_inv _ _ _ _ (reader_max_width self)) in H. destruct H as (? & _ & H).
  apply (reader_ok_inv _ _ _ _ (reader_max_height self)) in H. destruct H as (? & _ & H).
  apply (reader_ok_inv _ _ _ _ (reader_max_size self)) in H. destruct H as (? & _ & H).
  apply (reader_ok_inv _ _ _ _ (reader_min_width self)) in H. destruct H as (? & _ & H).
  apply (reader_ok_inv _ _ _ _ (reader_min_height self)) in H. destruct H as (? & _ & H).
  apply (reader_ok_inv _ _ _ _ (reader_min_size self)) in H. destruct H as (? & _ & H).
  apply (reader_ok_inv _ _ _ _ (reader_avg_of _ self)) in H. destruct H as (? & _ & H).
  apply (reader_ok_inv _ _ _ _ (reader_avg_of _ self)) in H. destruct H as (? & _ & H).
  apply (reader_ok_inv _ _ _ _ (reader_avg_of _ self)) in H. destruct H as (? & _ & H).
  apply (reader_ok_inv _ _ _ _ (reader_slides self)) in H. destruct H as (l & El & H).
  apply (reader_ok_inv _ _ _ _ (reader_map_M _ l reader_dimensions)) in H.
  destruct H as (dims & Ed & H).
  apply (reader_ok_inv _ _ _ _ (reader_lift _)) in H. destruct H as ([fx fy] & Exy & H).
  apply (reader_ok_inv _ _ _ _ (reader_total_slides self)) in H. destruct H as (t1 & Et1 & H).
  apply (reader_ok_inv _ _ _ _ (reader_total_slides self)) in H. destruct H as (t2 & Et2 & H).
  unfold ret in H. cbn [fst] in H. injection H as <- <-.
  destruct (slides_inv _ _ _ El) as (entries & E & ->).
  rewrite (total_slides_ok _ _ _ E) in En, Et2. injection En as <-. injection Et2 as <-.
  apply (map_M_inv _ _ _ _ reader_dimensions) in Ed. apply for_all2_length in Ed.
  unfold lift, SlideSet.unzip_dims in Exy. cbn [fst] in Exy.
  destruct dims as [| d dims]; [discriminate|]. injection Exy as <- <-.
  exists entries. split; [exact E|]. cbv zeta.
  cbn [fig_x fig_y fig_sizes List.length]. rewrite !length_map, Ed.
  cbn [List.length].
  repeat split; try reflexivity; try lia. exact Sw.
Qed.

Lemma slides_stats_counts_witness :
  exists stats fig entries,
    fst (SlideSet.slides_stats demo_set world_three_slides) = Ok (stats, fig)
    /\ listdir world_three_slides "/data" = Ok entries
    /\ dict_get "no_of_slides" stats = Some (ONum (PInt 3))
    /\ fig_sizes fig = 24.
Proof.
  destruct (slides_stats_counts demo_set world_three_slides _ _ eq_refl)
    as (entries & E & _ & N & _ & _ & S & _).
  do 3 eexists. split; [reflexivity|]. split; [exact E|].
  injection E as <-. split; [exact N | exact S].
Defined.

(** *** More on the save loops *)

Lemma slides_of_processed_path self entries s :
  In s (SlideSet.slides_of self entries) ->
  Slide._processed_path s = SlideSet._processed_path self.
Proof.
  induction entries as [| x entries IH]; [intros []|].
  cbn [SlideSet.slides_of]. destruct (SlideSet.valid_extension _ _); [|exact IH].
  intros [<- | I]; [reflexivity | now apply IH].
Qed.

Lemma save_scaled_image_raise_inv s w e :
  write_outcome w (MakeDirs (Slide._processed_path s)) = Ok tt ->
  fst (Slide.save_scaled_image s 32 w) = Raise e ->
  forall t, Slide.save_scaled_image s 32 (with_trace w t)
            = (Raise e, with_trace w (t ++ [MakeDirs (Slide._processed_path s)])).
Proof.
  intros Hm. rewrite <- (with_trace_trace w) at 1. rewrite save_scaled_image_run.
  intros H t. rewrite save_scaled_image_run. rewrite Hm in *. cbv zeta in *.
  destruct (fst (Slide._resample s 32 w)) as [img | e1]; cbn [fst] in H.
  - destruct (fst (Slide.scaled_image_path s 32 w)) as [p | e2]; cbn [fst] in H.
    + destruct (write_outcome w (ImageSave img p)) as [[] | e3]; cbn [fst] in H.
      * discriminate.
      * now injection H as ->.
    + now injection H as ->.
  - now injection H as ->.
Qed.

Lemma for_each_saves_until l1 s l2 w e :
  (forall x, In x l1 -> fst (Slide.save_scaled_image x 32 w) = Ok tt) ->
  write_outcome w (MakeDirs (Slide._processed_path s)) = Ok tt ->
  fst (Slide.save_scaled_image s 32 w) = Raise e ->
  exists evss,
    Forall2 (saved_by w) l1 evss /\
    forall t,
      for_each (l1 ++ s :: l2)%list (fun slide => Slide.save_scaled_image slide 32)
        (with_trace w t)
      = (Raise e,
         with_trace w ((t ++ List.concat evss)
                       ++ [MakeDirs (Slide._processed_path s)])).
Proof.
  intros H1 Hm Hs. induction l1 as [| x l1 IH].
  - exists []. split; [constructor|]. intros t. cbn [app for_each List.concat].
    unfold bind. rewrite (save_scaled_image_raise_inv _ _ _ Hm Hs).
    now rewrite app_nil_r.
  - destruct (save_scaled_image_ok_inv x w (H1 x (or_introl eq_refl)))
      as [evs [Sv Run]].
    destruct IH as [evss [F Loop]]; [intros; apply H1; now right|].
    exists (evs :: evss). split; [now constructor|].
    intros t. cbn [app for_each List.concat]. unfold bind.
    rewrite Run, Loop. now rewrite !app_assoc.
Qed.

(** X14.  Once the output directory is made, when saving a slide of the
    slice fails while the slides before it have been saved,
    [save_rescaled_slides] raises that error at once: the slides before
    it have been saved, the failing one has only had its output
    directory created again, and the slides after it are not touched. *)
Theorem save_rescaled_slides_stops_at_first_failure self n w entries l1 s l2 e :
  listdir w (SlideSet._slides_path self) = Ok entries ->
  write_outcome w (MakeDirs (SlideSet._processed_path self)) = Ok tt ->
  0 <= n ->
  let l := SlideSet.slides_of self entries in
  firstn (Z.to_nat (clamped (Z.of_nat (List.length l)) n)) l = (l1 ++ s :: l2)%list ->
  (forall x, In x l1 -> fst (Slide.save_scaled_image x 32 w) = Ok tt) ->
  fst (Slide.save_scaled_image s 32 w) = Raise e ->
  exists evss,
    Forall2 (saved_by w) l1 evss
    /\ SlideSet.save_rescaled_slides self n w
       = (Raise e,
          with_trace w
            (((trace w ++ [MakeDirs (SlideSet._processed_path self)])
              ++ List.concat evss)
             ++ [MakeDirs (Slide._processed_path s)])).
Proof.
  intros E Hm Hn l S H1 Hs.
  assert (I : In s l).
  { apply (In_firstn s (Z.to_nat (clamped (Z.of_nat (List.length l)) n))).
    rewrite S. apply in_or_app. right. now left. }
  assert (Hm' : write_outcome w (MakeDirs (Slide._processed_path s)) = Ok tt).
  { now rewrite (slides_of_processed_path _ _ _ I). }
  destruct (for_each_saves_until l1 s l2 w e H1 Hm' Hs) as [evss [F Loop]].
  exists evss. split; [exact F|].
  unfold SlideSet.save_rescaled_slides. rewrite (save_loop_run _ _ _ _ _ E Hm).
  fold l. rewrite (proj1 (slice_clamped l n Hn)), S. apply Loop.
Qed.

Lemma save_rescaled_slides_stops_at_first_failure_witness :
  exists evss,
    Forall2 (saved_by world_broken_second) [Slide.Make "/data/a.svs" "/out"] evss
    /\ SlideSet.save_rescaled_slides demo_set 0 world_broken_second
       = (Raise (Exn "OpenSlideError"
                   "Your wsi has something broken inside, a doctor is needed"),
          with_trace world_broken_second
            ((([] ++ [MakeDirs "/out"]) ++ List.concat evss)
             ++ [MakeDirs "/out"])).
Proof.
  apply (save_rescaled_slides_stops_at_first_failure demo_set 0 world_broken_second
           demo_entries [Slide.Make "/data/a.svs" "/out"]
           (Slide.Make "/data/b.tiff" "/out") [Slide.Make "/data/c.svs" "/out"]).
  - reflexivity.
  - reflexivity.
  - lia.
  - reflexivity.
  - intros x [<- | []]. reflexivity.
  - reflexivity.
Defined.

(** X15.  A negative [n] is not clamped: once the output directory is
    made, [save_rescaled_slides(n)] saves all slides but the last [-n]
    (none when the collection has at most [-n] slides), as the slice
    [slides[:n]] reads, provided each of these can be saved. *)
Theorem save_rescaled_slides_negative_n self n w entries :
  listdir w (SlideSet._slides_path self) = Ok entries ->
  write_outcome w (MakeDirs (SlideSet._processed_path self)) = Ok tt ->
  n < 0 ->
  let l := SlideSet.slides_of self entries in
  let k := Z.max 0 (Z.of_nat (List.length l) + n) in
  (forall s, In s (firstn (Z.to_nat k) l) ->
             fst (Slide.save_scaled_image s 32 w) = Ok tt) ->
  exists evss,
    SlideSet.save_rescaled_slides self n w
    = (Ok tt,
       with_trace w
         ((trace w ++ [MakeDirs (SlideSet._processed_path self)])
          ++ List.concat evss))
    /\ Forall2 (saved_by w) (firstn (Z.to_nat k) l) evss
    /\ Z.of_nat (List.length (filter is_image_save (List.concat evss))) = k.
Proof.
  intros E Hm Hn l k Hs.
  assert (C : clamped (Z.of_nat (List.length l)) n = n).
  { unfold clamped. destruct (Z.of_nat (List.length l) <? n) eqn:C1; [lia|].
    destruct (n =? 0) eqn:C2; [lia | reflexivity]. }
  assert (S : py_slice_to l n = firstn (Z.to_nat k) l).
  { unfold py_slice_to. destruct (n <? 0) eqn:C1; [|lia].
    f_equal. unfold k. lia. }
  destruct (for_each_saves (firstn (Z.to_nat k) l) w Hs) as [evss [F Loop]].
  exists evss. split; [|split; [exact F|]].
  - unfold SlideSet.save_rescaled_slides. rewrite (save_loop_run _ _ _ _ _ E Hm).
    fold l. rewrite C, S. apply Loop.
  - rewrite (saved_by_images _ _ _ F), length_firstn. unfold k. lia.
Qed.

Lemma save_rescaled_slides_negative_n_witness :
  exists evss,
    SlideSet.save_rescaled_slides demo_set (-1) world_three_slides
    = (Ok tt,
       with_trace world_three_slides (([] ++ [MakeDirs "/out"]) ++ List.concat evss))
    /\ Forall2 (saved_by world_three_slides)
         (firstn 2 (SlideSet.slides_of demo_set demo_entries)) evss
    /\ Z.of_nat (List.length (filter is_image_save (List.concat evss))) = 2.
Proof.
  apply (save_rescaled_slides_negative_n demo_set (-1) world_three_slides demo_entries).
  - reflexivity.
  - reflexivity.
  - lia.
  - intros s [<- | [<- | []]]; reflexivity.
Defined.

(** X16.  Both loops first create the output directory.  When that is
    refused (for the empty output path, by [os.makedirs] itself),
    [save_rescaled_slides] and [save_thumbnails] raise that error and
    nothing is written.  Once the directory is made: when no entry of
    the slides directory has a valid extension both return normally
    having only created the output directory, and when the slides
    directory cannot be listed both raise the error of the listing. *)
Theorem save_loops_without_slides self scale_factor n w :
  let made :=
    with_trace w (trace w ++ [MakeDirs (SlideSet._processed_path self)]) in
  (forall entries,
      write_outcome w (MakeDirs (SlideSet._processed_path self)) = Ok tt ->
      listdir w (SlideSet._slides_path self) = Ok entries ->
      SlideSet.slides_of self entries = [] ->
      SlideSet.save_rescaled_slides self n w = (Ok tt, made)
      /\ SlideSet.save_thumbnails self scale_factor n w = (Ok tt, made))
  /\ (forall e,
         write_outcome w (MakeDirs (SlideSet._processed_path self)) = Ok tt ->
         listdir w (SlideSet._slides_path self) = Raise e ->
         SlideSet.save_rescaled_slides self n w = (Raise e, made)
         /\ SlideSet.save_thumbnails self scale_factor n w = (Raise e, made))
  /\ (forall e,
         write_outcome w (MakeDirs (SlideSet._processed_path self)) = Raise e ->
         SlideSet.save_rescaled_slides self n w = (Raise e, w)
         /\ SlideSet.save_thumbnails self scale_factor n w = (Raise e, w))
  /\ (SlideSet._processed_path self = "" ->
      write_outcome w (MakeDirs (SlideSet._processed_path self))
      = Raise (Exn "FileNotFoundError" "[Errno 2] No such file or directory: ''")).
Proof.
  intros made. split; [|split; [|split]].
  - intros entries Hm E N.
    unfold SlideSet.save_rescaled_slides, SlideSet.save_thumbnails.
    rewrite !(save_loop_run _ _ _ _ _ E Hm), N.
    unfold py_slice_to. destruct (_ <? 0); rewrite firstn_nil; split; reflexivity.
  - intros e Hm E.
    assert (T : fst (SlideSet.clamp_n self n made) = Raise e).
    { unfold SlideSet.clamp_n.
      rewrite (bind_reader_raise _ _ made e (reader_total_slides self)); [reflexivity|].
      unfold SlideSet.total_slides.
      rewrite (bind_reader_raise _ _ made e (reader_slides self)); [reflexivity|].
      unfold SlideSet.slides, made; cbn. now rewrite E. }
    unfold SlideSet.save_rescaled_slides, SlideSet.save_thumbnails.
    rewrite <- (with_trace_trace w) at 1 2. rewrite !(bind_emit_ok _ _ _ _ Hm).
    fold made.
    now rewrite !(bind_reader_raise _ _ made e (reader_clamp_n self n) T).
  - intros e Hm.
    unfold SlideSet.save_rescaled_slides, SlideSet.save_thumbnails.
    now rewrite !(save_loop_refused _ _ _ _ _ Hm).
  - intros ->. reflexivity.
Qed.

Lemma save_loops_without_slides_witness :
  SlideSet.save_rescaled_slides demo_set 3 world_empty_dir
  = (Ok tt, with_trace world_empty_dir [MakeDirs "/out"])
  /\ SlideSet.save_thumbnails demo_set 32 3 world_empty_dir
     = (Ok tt, with_trace world_empty_dir [MakeDirs "/out"]).
Proof.
  exact (proj1 (save_loops_without_slides demo_set 32 3 world_empty_dir)
           [] eq_refl eq_refl eq_refl).
Defined.

(** *** The failure paths at concrete inputs *)

(** A slide smaller than the scale factor: [resize((0, 0))] raises. *)
Example save_scaled_image_tiny_slide :
  Slide.save_scaled_image (Slide.Make "/data/a.svs" "/out") 32 world_tiny_slide
  = (Raise (ValueError "height and width must be > 0"),
     with_trace world_tiny_slide [MakeDirs "/out"]).
Proof. reflexivity. Qed.

Example save_rescaled_slides_tiny_slide :
  SlideSet.save_rescaled_slides demo_set 0 world_tiny_slide
  = (Raise (ValueError "height and width must be > 0"),
     with_trace world_tiny_slide [MakeDirs "/out"; MakeDirs "/out"]).
Proof. reflexivity. Qed.

(** A file name that starts with a dot: the thumbnail would be [.png]. *)
Example save_thumbnail_hidden_file :
  Slide.save_thumbnail (Slide.Make "/data/.hidden.svs" "/out") [] world_tiny_slide
  = (Raise (ValueError "unknown file extension: "),
     with_trace world_tiny_slide [MakeDirs "/out"; Mkdir "/out/thumbnails"]).
Proof. reflexivity. Qed.

(** The empty output path: [os.makedirs] raises before anything else. *)
Example save_scaled_image_empty_output_path :
  Slide.save_scaled_image (Slide.Make "/data/a.svs" "") 0 world_three_slides
  = (Raise (Exn "FileNotFoundError" "[Errno 2] No such file or directory: ''"),
     world_three_slides).
Proof. reflexivity. Qed.

Example save_rescaled_slides_empty_output_path :
  SlideSet.save_rescaled_slides (SlideSet.Make "/data" "" [".svs"]) 0
    world_three_slides
  = (Raise (Exn "FileNotFoundError" "[Errno 2] No such file or directory: ''"),
     world_three_slides).
Proof. reflexivity. Qed.

(** A file system that refuses every write. *)
Example save_thumbnails_read_only :
  SlideSet.save_thumbnails demo_set 32 0 world_read_only
  = (Raise (Exn "OSError" "[Errno 30] Read-only file system"), world_read_only).
Proof. reflexivity. Qed.

(** A subclass of [OpenSlideError] is caught with its base class. *)
Example dimensions_unsupported_format :
  Slide.dimensions (Slide.Make "/data/a.svs" "/out") world_unsupported
  = (Raise (Exn "OpenSlideError"
              "Your wsi has something broken inside, a doctor is needed"),
     world_unsupported).
Proof. reflexivity. Qed.

(** *** Shape of the name and of the extension *)

Lemma str_take_drop n s : str_take n s ++ str_drop n s = s.
Proof.
  revert s. induction n as [| n IH]; intros s; [now destruct s|].
  destruct s as [| a s]; [reflexivity|]. simpl. now rewrite IH.
Qed.

Lemma str_drop_succ n p a rest :
  str_drop n p = String a rest -> str_drop (S n) p = rest.
Proof.
  revert p. induction n as [| n IH]; intros p D.
  - cbn in D. destruct p; [discriminate|]. now injection D as _ ->.
  - destruct p as [| b p]; [discriminate|]. cbn [str_drop] in *. now apply IH.
Qed.

Lemma rfind_at_cases c s i last :
  last < i ->
  (rfind_at c s i last = last /\ has_char c s = false)
  \/ (i <= rfind_at c s i last
      /\ startswith c (str_drop (Z.to_nat (rfind_at c s i last - i)) s) = true).
Proof.
  revert i last. induction s as [| a s IH]; intros i last L.
  - left. split; reflexivity.
  - cbn [rfind_at has_char]. destruct (ascii_is c a) eqn:A.
    + right. destruct (IH (i + 1) i ltac:(lia)) as [[E N] | [G Hs]].
      * rewrite E. split; [lia|]. rewrite Z.sub_diag. exact A.
      * split; [lia|].
        replace (Z.to_nat (rfind_at c s (i + 1) i - i))
          with (S (Z.to_nat (rfind_at c s (i + 1) i - (i + 1)))) by lia.
        exact Hs.
    + destruct (IH (i + 1) last ltac:(lia)) as [[E N] | [G Hs]].
      * left. split; [exact E | exact N].
      * right. split; [lia|].
        replace (Z.to_nat (rfind_at c s (i + 1) last - i))
          with (S (Z.to_nat (rfind_at c s (i + 1) last - (i + 1)))) by lia.
        exact Hs.
Qed.

Lemma split_first_prefix c s :
  exists rest, s = split_first c s ++ rest
               /\ (rest = "" \/ startswith c rest = true).
Proof.
  induction s as [| a s (rest & E & R)].
  - exists "". auto.
  - cbn [split_first]. destruct (ascii_is c a) eqn:A.
    + exists (String a s). split; [reflexivity | right; exact A].
    + exists rest. split; [cbn; now rewrite <- E | exact R].
Qed.

(** X17.  The name of a slide is the base name of its path up to the
    first dot (all of it when it has none); it holds no dot, no slash
    and no backslash. *)
Theorem name_shape self :
  (exists rest,
      ntpath.basename (Slide._path self) = Slide.name self ++ rest
      /\ (rest = "" \/ startswith "." rest = true))
  /\ has_char "." (Slide.name self) = false
  /\ has_char "/" (Slide.name self) = false
  /\ has_char ntpath.sep (Slide.name self) = false.
Proof.
  split; [apply split_first_prefix|]. split; [apply split_first_has_no|].
  apply name_no_separator.
Qed.

(** X18.  The extension of a slide is a suffix of its path, holds no
    slash, and is either empty or a dot followed by text without
    dots. *)
Theorem extension_shape self :
  let ext := Slide._extension self in
  (exists root, Slide._path self = root ++ ext)
  /\ has_char "/" ext = false
  /\ (ext = "" \/ exists rest, ext = String "." rest /\ has_char "." rest = false).
Proof.
  unfold Slide._extension, posixpath.splitext.
  set (p := Slide._path self).
  change posixpath.sep with "/"%char. change posixpath.extsep with "."%char.
  destruct (str_rfind "/" p <? str_rfind "." p) eqn:L.
  2:{ cbn [snd]. split; [exists p; now rewrite str_app_nil_r | auto]. }
  destruct (all_chars _ _).
  { cbn [snd]. split; [exists p; now rewrite str_app_nil_r | auto]. }
  cbn [snd]. apply Z.ltb_lt in L.
  pose proof (rfind_at_bounds "/" p 0 (-1) ltac:(lia)) as Bs.
  fold (str_rfind "/" p) in Bs.
  split; [|split].
  - exists (slice_to p (str_rfind "." p)). unfold slice_to, slice_from.
    now rewrite str_take_drop.
  - apply no_char_after_rfind. exact L.
  - right.
    destruct (rfind_at_cases "." p 0 (-1) ltac:(lia)) as [[E _] | [G Hs]];
      fold (str_rfind "." p) in *; [lia|].
    rewrite Z.sub_0_r in Hs. unfold slice_from.
    destruct (str_drop (Z.to_nat (str_rfind "." p)) p) as [| a rest] eqn:D;
      [discriminate Hs|].
    cbn [startswith] in Hs. apply Ascii.eqb_eq in Hs. subst a.
    exists rest. split; [reflexivity|].
    rewrite <- (str_drop_succ _ _ _ _ D).
    replace (S (Z.to_nat (str_rfind "." p))) with (Z.to_nat (str_rfind "." p + 1))
      by lia.
    apply (no_char_after_rfind "." p (str_rfind "." p + 1)). lia.
Qed.

(** *** Averages *)

Lemma sum_from_ints key ds acc :
  Forall (fun d => exists z, key d = PInt z) ds ->
  sum_from acc (map key ds) = Ok (acc + sum_of key ds).
Proof.
  intros F. revert acc. induction F as [| d ds [z E] _ IH]; intros acc.
  - cbn. f_equal. lia.
  - cbn [map sum_from sum_of fold_right]. rewrite E. cbn [int_of].
    fold (sum_of key ds). rewrite IH. f_equal. lia.
Qed.

Lemma avg_of_floor key self w ds :
  fst (SlideSet.slides_dimensions self w) = Ok ds ->
  ds <> [] ->
  Forall (fun d => exists z, key d = PInt z) ds ->
  0 <= sum_of key ds < 2 ^ 53 ->
  exists f,
    fst (SlideSet.avg_of key self w) = Ok (OFloat f)
    /\ math_floor f = sum_of key ds / Z.of_nat (List.length ds).
Proof.
  intros D Hds F B.
  destruct (slides_dimensions_inv _ _ _ D) as (entries & E & R).
  assert (T : fst (SlideSet.total_slides self w) = Ok (Z.of_nat (List.length ds))).
  { rewrite (total_slides_ok _ _ _ E). now rewrite (for_all2_length _ _ _ R). }
  assert (P : 0 < Z.of_nat (List.length ds)).
  { destruct ds; [congruence | cbn [List.length]; lia]. }
  destruct (int_true_divide_floor _ _ B P) as (f & Ef & Ff).
  exists f. split; [|exact Ff].
  unfold SlideSet.avg_of.
  rewrite (bind_reader_ok _ _ _ _ (reader_slides_dimensions self) D).
  unfold py_sum. rewrite (sum_from_ints key ds 0 F). cbn [Z.add].
  unfold bind at 1, lift at 1.
  rewrite (bind_reader_ok _ _ _ _ (reader_total_slides self) T).
  unfold bind, lift, ret. now rewrite Ef.
Qed.

(** X19.  On a non-empty collection, each average returns a float whose
    floor is the integer quotient of the sum of the widths, heights or
    sizes by the number of slides, as long as that sum is below
    2^53. *)
Theorem averages_floor self w ds :
  fst (SlideSet.slides_dimensions self w) = Ok ds ->
  ds <> [] ->
  let total := Z.of_nat (List.length ds) in
  (0 <= sum_of d_width ds < 2 ^ 53 ->
   exists f, fst (SlideSet._avg_width_slide self w) = Ok (OFloat f)
             /\ math_floor f = sum_of d_width ds / total)
  /\ (0 <= sum_of d_height ds < 2 ^ 53 ->
      exists f, fst (SlideSet._avg_height_slide self w) = Ok (OFloat f)
                /\ math_floor f = sum_of d_height ds / total)
  /\ (0 <= sum_of d_size ds < 2 ^ 53 ->
      exists f, fst (SlideSet._avg_size_slide self w) = Ok (OFloat f)
                /\ math_floor f = sum_of d_size ds / total).
Proof.
  intros D Hds total.
  destruct (slides_dimensions_inv _ _ _ D) as (entries & _ & R).
  destruct (records_are_ints _ _ _ R) as (Fw & Fh & Fs).
  repeat split; intros B; now apply avg_of_floor.
Qed.

Lemma averages_floor_witness :
  exists f, fst (SlideSet._avg_width_slide demo_set world_three_slides) = Ok (OFloat f)
            /\ math_floor f = 350 / 3.
Proof.
  apply (proj1 (averages_floor demo_set world_three_slides demo_dims eq_refl
                  ltac:(discriminate))).
  split; [discriminate | reflexivity].
Defined.
